(** * FootyIQ: the quiz session, the score update and the league forms

    A shallow embedding of the two React front ends of the repository:

    - [Tma]: the Telegram mini-app with the local question set
      ([QUIZ_DATA], [startQuiz], [endQuiz], [calculateResults],
      [handleAnswer], [updateUserScore], [handleCreateLeague],
      [confirmJoinLeague]);
    - [Web]: [src/Web/FootyIQApp.jsx], whose quiz feedback and result are
      mocks ([handleAnswer], [handleQuizFinish]) and whose league form is
      [handleModalSubmit].

    React state is a record; a state setter rebuilds the record.  JavaScript
    numbers that the code only uses as integers are [Z] (counters and
    indices that start at 0 and are only incremented are [nat]); all of
    them stay far below 2^53, where doubles are exact.  The numbers of
    the mock feedback and the mock result, the random draw and the
    products with [0.7], are doubles, given by their exact rational
    values and rounded as binary64 rounds ([Js.toDouble]).

    A handler defined in the body of a function component closes over the
    state of the render in which it was created.  Every handler below
    therefore takes the render [r] it belongs to (what it READS) next to
    the current state [w] (what its setters WRITE).  A click runs the
    handler of the latest render, so there [r] is the current state; a
    callback handed to [setInterval] or [setTimeout] keeps the render in
    which it was created. *)

From Stdlib Require Import ZArith QArith Qround String Ascii List Bool Lia.
From stdpp Require Import base gmap strings list fin_maps pretty.

Local Open Scope string_scope.

(** ** JavaScript string helpers *)
Module Js.

(** [c.toUpperCase()] on one ASCII character; other bytes are kept. *)
Definition upper_ascii (c : ascii) : ascii :=
  let n := nat_of_ascii c in
  if (97 <=? n)%nat && (n <=? 122)%nat then ascii_of_nat (n - 32) else c.

(** [s.toUpperCase()] for strings of ASCII characters. *)
Fixpoint toUpperCase (s : string) : string :=
  match s with
  | EmptyString => EmptyString
  | String c s' => String (upper_ascii c) (toUpperCase s')
  end.

(** Whether [s] holds ASCII characters only.  On such strings
    [toUpperCase] above is JavaScript's; on others JavaScript also maps
    letters outside ASCII, so what is stated about typed text assumes
    [isAscii]. *)
Definition isAscii (s : string) : bool :=
  forallb (fun c => (nat_of_ascii c <? 128)%nat) (list_ascii_of_string s).

(** [s.substring(i, j)] for [i <= j]: a string that is too short gives a
    shorter result, as in JavaScript. *)
Definition substring (i j : nat) (s : string) : string :=
  String.substring i (j - i) s.

(** Truthiness of a value that is [null] or a string: [null] and the empty
    string are falsy. *)
Definition truthy (v : option string) : bool :=
  match v with
  | Some (String _ _) => true
  | _ => false
  end.

(** [Math.round(x)]: the integer nearest to [x], halves going up. *)
Definition round (x : Q) : Z := Qfloor (x + (1 # 2)).

(** *** Doubles

    A JavaScript number is a double, given here by its exact value.  The
    result of an operation is the exact result rounded to the nearest
    double, halves going to the even significand. *)

(** The integer nearest to [x], halves going to the even one. *)
Definition roundHalfEven (x : Q) : Z :=
  let f := Qfloor x in
  match (x - inject_Z f ?= 1 # 2)%Q with
  | Lt => f
  | Gt => (f + 1)%Z
  | Eq => if Z.even f then f else (f + 1)%Z
  end.

(** The double nearest to [x], for [x = 0] or [x] of a magnitude in the
    normal range of binary64: 53 significant bits are kept.  [e] is the
    exponent of [x], [2 ^ e <= |x| < 2 ^ (e + 1)]. *)
Definition toDouble (x : Q) : Q :=
  match Qnum x with
  | 0%Z => 0%Q
  | _ =>
    let a := Z.abs (Qnum x) # Qden x in
    let k := (Z.log2 (Qnum a) - Z.log2 (Z.pos (Qden a)))%Z in
    let e := if Qle_bool (2 ^ k)%Q a then k else (k - 1)%Z in
    let u := (e - 52)%Z in
    let d := (inject_Z (roundHalfEven (a / 2 ^ u)) * 2 ^ u)%Q in
    if (Qnum x <? 0)%Z then (- d)%Q else d
  end.

(** [x * y] and [x / y] on doubles. *)
Definition mul (x y : Q) : Q := toDouble (x * y)%Q.
Definition div (x y : Q) : Q := toDouble (x / y)%Q.

(** The literal [0.7]: the double nearest to 7/10, which is
    6305039478318694 / 2^53, a little below 7/10. *)
Definition double_0_7 : Q := toDouble (7 # 10).

(** [String(n)] and [n.toString()] for an integer [n]: its decimal
    numeral. *)
Definition toString (n : Z) : string := pretty n.

(** [s.padStart(n, c)] for a pad string [c] of one character. *)
Definition padStart (n : nat) (c : ascii) (s : string) : string :=
  string_of_list_ascii (repeat c (n - String.length s)) ++ s.

End Js.

(** How a handler body ends: normally, or with an uncaught [TypeError]
    (reading a property of [null] or [undefined]).  Both carry the state
    with the setter calls made so far. *)
Inductive Run (A : Type) : Type :=
| Done (a : A)
| Thrown (a : A).
Arguments Done {A} a.
Arguments Thrown {A} a.

Definition state_of {A : Type} (x : Run A) : A :=
  match x with Done a | Thrown a => a end.

(** What the store does with a [runTransaction]: the read is rejected, the
    body runs and the commit is rejected, or the writes are committed. *)
Inductive Txn : Type := TxReadFails | TxCommitFails | TxCommits.

(** ** The mini-app *)
Module Tma.

Record Question : Type := mkQuestion {
  q_id : Z;
  q_text : string;
  q_options : list string;
  q_correct : string
}.

(** [QUIZ_DATA] without [expiresAt], which only disables the start
    button. *)
Record QuizData : Type := mkQuizData {
  quiz_id : string;
  quiz_name : string;
  totalQuestions : Z;
  timeLimitSeconds : Z;
  pointsPerQuestion : Z;
  totalPoints : Z;
  questions : list Question
}.

Inductive Status : Type := correct | incorrect.

(** One value of [questionStatus]. *)
Record Entry : Type := mkEntry {
  status : Status;
  selected : string;
  correctAnswer : string
}.

(** [quizState]; [questionStatus] is the object keyed by question id. *)
Record QuizState : Type := mkQuizState {
  currentQuestionIndex : nat;
  correctAnswers : nat;
  answeredCount : nat;
  questionStatus : gmap Z Entry
}.

(** The object built by [calculateResults]; [accuracyRate] is the number
    before [toFixed(1)] formats it. *)
Record QuizResult : Type := mkQuizResult {
  totalAnswered : nat;
  res_correctAnswers : nat;
  pointsEarned : Z;
  accuracyRate : Q
}.

(** The profile document [users/{userId}/gameData/profile]; an absent
    field is [None]. *)
Module Profile.
Record t : Type := mk {
  score : option Z;
  leagueScore : option Z;
  globalRank : option string;
  totalPlayers : option string
}.
End Profile.

(** The part of [userData] that the handlers and the profile listener
    touch. *)
Module UserData.
Record t : Type := mk {
  name : string;
  score : Z;
  leagueScore : Z;
  globalRank : string;
  totalPlayers : string
}.
End UserData.

(** A document of the [leagues] collection, as [handleCreateLeague] builds
    it. *)
Record League : Type := mkLeague {
  l_name : string;
  l_description : string;
  l_isPrivate : bool;
  l_ownerId : string;
  l_ownerName : string;
  l_createdAt : Z;
  l_members : Z;
  l_points : Z;
  l_code : option string;
  l_startDate : Z
}.

Inductive Modal : Type :=
| ModalNull
| ModalResults
| ModalNamed (which : string)
| ModalConfirmJoin (leagueId : string).

(** The React state of [App] that the quiz and league handlers use. *)
Record App : Type := mkApp {
  db : bool;                       (* [db] is not null *)
  userId : option string;
  userData : UserData.t;
  isQuizActive : bool;
  quizState : option QuizState;
  quizResult : option QuizResult;
  timeRemaining : Z;
  showModal : Modal
}.

(** The React state together with the remote store: the profile documents
    by user id and the [leagues] collection in creation order. *)
Record World : Type := mkWorld {
  app : App;
  profiles : gmap string Profile.t;
  leagues : list League
}.

(** *** State setters *)
Definition onApp (f : App -> App) (w : World) : World :=
  mkWorld (f (app w)) (profiles w) (leagues w).

Definition setIsQuizActive (b : bool) : World -> World :=
  onApp (fun a => mkApp (db a) (userId a) (userData a) b (quizState a)
                        (quizResult a) (timeRemaining a) (showModal a)).

Definition setQuizState (f : option QuizState -> option QuizState) : World -> World :=
  onApp (fun a => mkApp (db a) (userId a) (userData a) (isQuizActive a)
                        (f (quizState a)) (quizResult a) (timeRemaining a)
                        (showModal a)).

Definition setQuizResult (x : option QuizResult) : World -> World :=
  onApp (fun a => mkApp (db a) (userId a) (userData a) (isQuizActive a)
                        (quizState a) x (timeRemaining a) (showModal a)).

Definition setTimeRemaining (t : Z) : World -> World :=
  onApp (fun a => mkApp (db a) (userId a) (userData a) (isQuizActive a)
                        (quizState a) (quizResult a) t (showModal a)).

Definition setShowModal (m : Modal) : World -> World :=
  onApp (fun a => mkApp (db a) (userId a) (userData a) (isQuizActive a)
                        (quizState a) (quizResult a) (timeRemaining a) m).

Definition setUserData (f : UserData.t -> UserData.t) : World -> World :=
  onApp (fun a => mkApp (db a) (userId a) (f (userData a)) (isQuizActive a)
                        (quizState a) (quizResult a) (timeRemaining a)
                        (showModal a)).

Definition setProfiles (f : gmap string Profile.t -> gmap string Profile.t)
    (w : World) : World :=
  mkWorld (app w) (f (profiles w)) (leagues w).

Definition addDoc (l : League) (w : World) : World :=
  mkWorld (app w) (profiles w) (leagues w ++ [l]).

(** *** updateUserScore

    The transaction is taken as one step at the moment of the call: the
    read, the merged write and the optimistic [setUserData] of its
    body. *)

(** [docSnap.exists() ? docSnap.data().score || 0 : 0]. *)
Definition currentScore (docSnap : option Profile.t) : Z :=
  match docSnap with
  | Some d => default 0%Z (Profile.score d)
  | None => 0%Z
  end.

(** [set(ref, { score, leagueScore, globalRank }, { merge: true })]: the
    three fields are written, the others are kept, and a missing document
    is created. *)
Definition mergeScore (newScore : Z) (docSnap : option Profile.t) : Profile.t :=
  Profile.mk (Some newScore) (Some newScore) (Some "#calculating")
             (docSnap ≫= Profile.totalPlayers).

Definition updateUserScore (r : App) (points : Z) (o : Txn) (w : World) : World :=
  match db r, userId r with
  | true, Some (String c u) =>
    let uid := String c u in
    match o with
    | TxReadFails => w
    | _ =>
      let docSnap := profiles w !! uid in
      let newScore := (currentScore docSnap + points)%Z in
      let w1 :=
        setUserData (fun prev => UserData.mk (UserData.name prev) newScore
                                             newScore "#calculating"
                                             (UserData.totalPlayers prev)) w in
      match o with
      | TxCommits => setProfiles (insert uid (mergeScore newScore docSnap)) w1
      | _ => w1
      end
    end
  | _, _ => w
  end.

(** *** The quiz handlers, for a given [QUIZ_DATA] *)
Section Quiz.

Variable QUIZ_DATA : QuizData.

Definition startQuiz (w : World) : World :=
  setQuizState (fun _ => Some (mkQuizState 0 0 0 ∅))
    (setTimeRemaining (timeLimitSeconds QUIZ_DATA)
      (setQuizResult None (setIsQuizActive true w))).

Definition calculateResults (state : QuizState) : QuizResult :=
  let totalAnswered := answeredCount state in
  let correctAnswers := correctAnswers state in
  let pointsEarned := (Z.of_nat correctAnswers * pointsPerQuestion QUIZ_DATA)%Z in
  let accuracyRate :=
    if (0 <? totalAnswered)%nat
    then ((Z.of_nat correctAnswers # 1) / (Z.of_nat totalAnswered # 1) * 100)%Q
    else 0%Q in
  mkQuizResult totalAnswered correctAnswers pointsEarned accuracyRate.

(** [endQuiz] of render [r].  The call [calculateResults(quizState,
    timedOut)] hands over a second argument that [calculateResults] does
    not declare, so [timedOut] reaches nothing. *)
Definition endQuiz (r : App) (timedOut : bool) (o : Txn) (w : World) : Run World :=
  let w1 := setIsQuizActive false w in
  match quizState r with
  | None => Thrown w1
  | Some state =>
    let finalResults := calculateResults state in
    let w2 := setQuizResult (Some finalResults) w1 in
    let w3 := if db r && Js.truthy (userId r)
              then updateUserScore r (pointsEarned finalResults) o w2
              else w2 in
    Done (setShowModal ModalResults w3)
  end.

(** [handleAnswer] of render [r].  The second component lists the
    [setTimeout] callbacks it registers: none, or the one that closes over
    [r]. *)
Definition handleAnswer (r : App) (selectedOption : string) (w : World)
    : Run (World * list App) :=
  match quizState r with
  | None => Done (w, [])
  | Some qs =>
    match questions QUIZ_DATA !! currentQuestionIndex qs with
    | None => Thrown (w, [])
    | Some currentQ =>
      match questionStatus qs !! q_id currentQ with
      | Some _ => Done (w, [])
      | None =>
        let isCorrect := String.eqb selectedOption (q_correct currentQ) in
        let newStatus :=
          <[ q_id currentQ :=
               mkEntry (if isCorrect then correct else incorrect)
                       selectedOption (q_correct currentQ) ]>
            (questionStatus qs) in
        let newCorrectCount :=
          if isCorrect then correctAnswers qs + 1 else correctAnswers qs in
        let newAnsweredCount := answeredCount qs + 1 in
        Done (setQuizState
                (fun _ => Some (mkQuizState (currentQuestionIndex qs)
                                            newCorrectCount newAnsweredCount
                                            newStatus)) w,
              [r])
      end
    end
  end.

(** The callback that [handleAnswer] of render [r] passes to
    [setTimeout]: it reads [quizState] and [endQuiz] of [r], and moves the
    index with a functional update of the current state.  No handler sets
    [quizState] back to [null], so [prev] is a quiz state whenever such a
    callback exists. *)
Definition advance (r : App) (o : Txn) (w : World) : Run World :=
  match quizState r with
  | None => Thrown w
  | Some qs =>
    let nextIndex := currentQuestionIndex qs + 1 in
    if (nextIndex <? length (questions QUIZ_DATA))%nat
    then Done (setQuizState
                 (fmap (fun prev => mkQuizState nextIndex (correctAnswers prev)
                                                (answeredCount prev)
                                                (questionStatus prev))) w)
    else endQuiz r false o w
  end.

(** One firing of the [setInterval] callback created by the timer effect
    of render [r]: the updater of [setTimeRemaining]. *)
Definition tick (r : App) (o : Txn) (w : World) : Run World :=
  let prevTime := timeRemaining (app w) in
  if (prevTime <=? 1)%Z
  then match endQuiz r true o w with
       | Done w' => Done (setTimeRemaining 0 w')
       | Thrown w' => Thrown w'
       end
  else Done (setTimeRemaining (prevTime - 1) w).

(** *** The session as a transition system

    Besides the state, the system holds the callbacks that are waiting:
    the render whose [endQuiz] the running interval will call, and the
    renders of the [setTimeout] callbacks not yet fired, oldest first
    (they all wait 800 ms). *)
Record Sys : Type := mkSys {
  world : World;
  interval : option App;
  timeouts : list App
}.

Inductive Event : Type :=
| EStart                              (* a click on Start Quiz *)
| ETick (o : Txn)                     (* the interval fires *)
| EAnswer (selectedOption : string)   (* a click on an option *)
| ETimeout (o : Txn).                 (* the oldest timeout fires *)

(** The timer effect depends on [isQuizActive] alone: after a render in
    which the flag has changed, its clean-up clears the interval, and when
    the quiz is active it sets a new one, whose callback belongs to that
    render. *)
Definition timerEffect (before : bool) (s : Sys) : Sys :=
  let a := app (world s) in
  if Bool.eqb before (isQuizActive a) then s
  else mkSys (world s) (if isQuizActive a then Some a else None) (timeouts s).

(** One event.  A click runs the handler of the current render.  The step
    does not look at which buttons are on screen: it takes every event in
    every state, which covers every order the interface allows. *)
Definition step (s : Sys) (e : Event) : Sys :=
  let w := world s in
  timerEffect (isQuizActive (app w))
    match e with
    | EStart => mkSys (startQuiz w) (interval s) (timeouts s)
    | ETick o =>
      match interval s with
      | None => s
      | Some r =>
        mkSys (state_of (tick r o w))
              (if (timeRemaining (app w) <=? 1)%Z then None else interval s)
              (timeouts s)
      end
    | EAnswer selectedOption =>
      let res := state_of (handleAnswer (app w) selectedOption w) in
      mkSys (fst res) (interval s) (timeouts s ++ snd res)
    | ETimeout o =>
      match timeouts s with
      | [] => s
      | r :: rest => mkSys (state_of (advance r o w)) (interval s) rest
      end
    end.

Definition run (s : Sys) (es : list Event) : Sys := fold_left step es s.

(** The state at mount: the [useState] defaults, no callback waiting. *)
Definition mount (hasDb : bool) (uid : option string)
    (ps : gmap string Profile.t) (ls : list League) : Sys :=
  mkSys
    (mkWorld
       (mkApp hasDb uid (UserData.mk "Guest Player" 0 0 "#N/A" "...") false None
              None (timeLimitSeconds QUIZ_DATA) ModalNull)
       ps ls)
    None [].

End Quiz.

(** The question set of the source file. *)
Definition QUIZ_DATA_20251008 : QuizData :=
  mkQuizData "quiz-20251008" "Classic Football Legends Trivia" 25 90 10 250
    [ mkQuestion 1 "Which player has won the most Ballon d'Or awards?"
        ["Lionel Messi"; "Cristiano Ronaldo"; "Michel Platini"; "Johan Cruyff"]
        "Lionel Messi";
      mkQuestion 2 "Which nation won the FIFA World Cup in 2014?"
        ["Brazil"; "Argentina"; "Germany"; "Spain"] "Germany";
      mkQuestion 3
        "What club holds the record for the most Champions League titles?"
        ["FC Barcelona"; "AC Milan"; "Real Madrid"; "Bayern Munich"]
        "Real Madrid";
      mkQuestion 4
        "Who is the all-time top scorer for the English Premier League?"
        ["Alan Shearer"; "Wayne Rooney"; "Thierry Henry"; "Sergio Aguero"]
        (* the last option is spelt with a diaeresis in the source *)
        "Alan Shearer" ].

(** *** The league forms *)

(** [handleCreateLeague] of render [r] on a submitted form.  [random36] is
    the string [Math.random().toString(36)], [createdAt] and [startDate]
    the two readings of [Date.now()], and [accepted] tells whether [addDoc]
    resolves. *)
Definition handleCreateLeague (r : App) (name description : string)
    (isPrivate : bool) (random36 : string) (createdAt startDate : Z)
    (accepted : bool) (w : World) : World :=
  match db r, userId r with
  | true, Some (String c u) =>
    let leagueData :=
      mkLeague name description isPrivate (String c u)
               (UserData.name (userData r)) createdAt 1 0
               (if isPrivate
                then Some (Js.toUpperCase (Js.substring 2 8 random36))
                else None)
               startDate in
    if accepted then setShowModal ModalNull (addDoc leagueData w) else w
  | _, _ => w
  end.

(** [confirmJoinLeague]: the modal is closed and a toast says the join is
    simulated; nothing is stored. *)
Definition confirmJoinLeague (leagueId : string) (w : World) : World :=
  setShowModal ModalNull w.

(** *** The profile listener *)

(** The callback of [onSnapshot] on the profile document of [uid], run on
    the stored document.  [accepted] tells whether the [setDoc] that
    initializes a missing document is accepted. *)
Definition onProfileSnapshot (uid : string) (accepted : bool) (w : World) : World :=
  match profiles w !! uid with
  | Some data =>
    setUserData
      (fun prev =>
         UserData.mk (UserData.name prev)
                     (default 0%Z (Profile.score data))
                     (default 0%Z (Profile.leagueScore data))
                     (match Profile.globalRank data with
                      | Some (String c s) => String c s
                      | _ => "#N/A"
                      end)
                     (match Profile.totalPlayers data with
                      | Some (String c s) => String c s
                      | _ => "..."
                      end)) w
  | None =>
    let initialData :=
      Profile.mk (Some 0%Z) (Some 0%Z) (Some "#N/A") (Some "250,999") in
    setUserData
      (fun prev => UserData.mk (UserData.name prev) 0 0 "#N/A" "250,999")
      (if accepted then setProfiles (insert uid initialData) w else w)
  end.

(** *** Looking a league up by its code *)

Inductive Lookup : Type :=
| LookupNoAuth       (* no [db] or no [userId] *)
| LookupNoCode       (* the input is empty *)
| LookupFails        (* [getDocs] is rejected *)
| LookupNotFound     (* the query is empty *)
| LookupFound.

(** [handleJoinLeague] of render [r] for the text [input] of the code
    field.  [getDocs c] is what the store gives for the query
    [where("code", "==", c), limit(1)]: [None] when it is rejected, else
    the documents as [(id, data)].  The handler asks for the upper-cased
    input. *)
Definition handleJoinLeague (r : App) (input : string)
    (getDocs : string -> option (list (string * League))) (w : World)
    : Lookup * World :=
  match db r, userId r with
  | true, Some (String _ _) =>
    let code := Js.toUpperCase input in
    match code with
    | EmptyString => (LookupNoCode, w)
    | _ =>
      match getDocs code with
      | None => (LookupFails, w)
      | Some [] => (LookupNotFound, w)
      | Some ((leagueId, _) :: _) =>
        (LookupFound, setShowModal (ModalConfirmJoin leagueId) w)
      end
    end
  | _, _ => (LookupNoAuth, w)
  end.

(** What the store answers to that query on the collection [col]: at most
    one document, which has the code, and none only if no league has
    it. *)
Definition answersQuery (col : list League) (code : string)
    (docs : list (string * League)) : Prop :=
  match docs with
  | [] => forall l, l ∈ col -> l_code l <> Some code
  | [(_, data)] => data ∈ col /\ l_code data = Some code
  | _ => False
  end.

(** A store that holds the collection [col] and answers every query: each
    answer is one that [answersQuery] allows. *)
Definition storeOf (col : list League)
    (getDocs : string -> option (list (string * League))) : Prop :=
  forall c, exists docs, getDocs c = Some docs /\ answersQuery col c docs.

(** *** The dialogs *)

Inductive Dialog : Type :=
| DialogCreateLeague | DialogJoinLeague | DialogConfirmJoin
| DialogResults | DialogLeaderboard.

(** The dialog that the main render shows for [showModal].  Each dialog
    is guarded by a comparison of [showModal] with a string; for the
    confirmation it is [showModal === 'ConfirmJoin' && showModal.league],
    which no value passes: the string has no [league], and the object that
    [handleJoinLeague] stores is not equal to a string. *)
Definition visibleDialog (a : App) : option Dialog :=
  match showModal a with
  | ModalNull => None
  | ModalResults =>
    match quizResult a with Some _ => Some DialogResults | None => None end
  | ModalNamed which =>
    if String.eqb which "CreateLeague" then Some DialogCreateLeague
    else if String.eqb which "JoinLeague" then Some DialogJoinLeague
    else if String.eqb which "Results"
         then match quizResult a with
              | Some _ => Some DialogResults
              | None => None
              end
    else if String.eqb which "Leaderboard" then Some DialogLeaderboard
    else None
  | ModalConfirmJoin _ => None
  end.

(** *** The clocks *)

(** The text that [QuizCountdown] shows for [time] seconds. *)
Definition QuizCountdown (time : Z) : string :=
  let minutes := (time / 60)%Z in
  let seconds := Z.rem time 60 in
  Js.padStart 2 "0" (Js.toString minutes) ++ ":"
  ++ Js.padStart 2 "0" (Js.toString seconds).

(** The initial value of [timeUntilExpiry] in [HomePage], for the value
    [expiresAt] of the quiz and the reading [now] of [Date.now()]. *)
Definition initialTimeUntilExpiry (expiresAt now : Z) : Z :=
  Z.max 0 ((expiresAt - now) / 1000).

(** One second of the expiry effect of [HomePage]: its interval exists
    while [timeUntilExpiry] is positive. *)
Definition expiryTick (timeUntilExpiry : Z) : Z :=
  if (timeUntilExpiry <=? 0)%Z then timeUntilExpiry
  else if (timeUntilExpiry <=? 1)%Z then 0%Z
  else (timeUntilExpiry - 1)%Z.

(** [isQuizExpired], which disables the start button. *)
Definition isQuizExpired (timeUntilExpiry : Z) : bool :=
  (timeUntilExpiry <=? 0)%Z.

End Tma.

(** ** The web front end ([src/Web/FootyIQApp.jsx]) *)
Module Web.

(** An element of [MOCK_QUESTIONS]; the text is only displayed. *)
Record MockQuestion : Type := mkMockQuestion {
  questionId : Z;
  options : list string
}.

(** [Array.from({ length: 25 }, (_, i) => ({ questionId: i + 1, ... }))]. *)
Definition MOCK_QUESTIONS : list MockQuestion :=
  map (fun i => mkMockQuestion (Z.of_nat i + 1)
                               ["Germany"; "Brazil"; "Argentina"; "France"])
      (seq 0 25).

(** An element of [quizAnswers]. *)
Record Answer : Type := mkAnswer {
  a_questionId : Z;
  a_selectedOption : string
}.

Inductive FeedbackStatus : Type := fb_correct | fb_wrong.

(** [quizFeedback]. *)
Record Feedback : Type := mkFeedback {
  fb_status : FeedbackStatus;
  fb_correctOption : string
}.

(** [quizResults]; [accuracy] is the number before [toFixed(1)]. *)
Record QuizResults : Type := mkQuizResults {
  answered : Z;
  res_correct : Z;
  points : Z;
  accuracy : Q;
  isTimeout : bool;
  newTotalScore : Z
}.

(** [quizData]: the fields of the active quiz that the handlers read. *)
Record QuizMeta : Type := mkQuizMeta {
  quizId : string;
  timeLimitSeconds : Z
}.

(** [userData]: the profile snapshot delivered by the listener. *)
Record UserDoc : Type := mkUserDoc {
  score : option Z;
  leagueScore : option Z;
  quizzes_completed : option (gmap string bool)
}.

(** A document of the [leagues] collection. *)
Record LeagueDoc : Type := mkLeagueDoc {
  ld_name : string;
  ld_description : string;
  ld_isPrivate : bool;
  ld_code : option string;
  ld_ownerId : string;
  ld_memberCount : option Z
}.

(** A document [users/{userId}/gameData/myLeagues/{leagueId}]. *)
Record Membership : Type := mkMembership {
  m_leagueId : string;
  m_isOwner : bool;
  m_score : Z
}.

(** An element of the local [leagues] list shown on the league page. *)
Record LocalLeague : Type := mkLocalLeague {
  ll_id : string;
  ll_name : string;
  ll_description : string;
  ll_rank : Z;
  ll_points : Z;
  ll_members : Z;
  ll_isOwner : bool
}.

(** The quiz part of the React state. *)
Record Quiz : Type := mkQuiz {
  isQuizActive : bool;
  quizCurrentQuestion : nat;
  quizTimeLeft : Z;
  quizResults : option QuizResults;
  quizAnswers : list Answer;
  quizFeedback : option Feedback
}.

(** The React state of [App] that the handlers use: the quiz fields are
    grouped in [quiz]. *)
Record App : Type := mkApp {
  userId : option string;
  userData : option UserDoc;
  quizData : option QuizMeta;
  isLoading : bool;
  quiz : Quiz;
  leagues : list LocalLeague;
  isModalOpen : bool;
  code : string                     (* [leagueFormData.code] *)
}.

(** The React state and the remote store: whether the module-level [db]
    is set, the [leagues] collection as [(id, data)] in the order a query
    returns it, and the membership documents by user id and league id. *)
Record World : Type := mkWorld {
  app : App;
  db : bool;
  leaguesCol : list (string * LeagueDoc);
  myLeagues : gmap (string * string) Membership
}.

Definition onApp (f : App -> App) (w : World) : World :=
  mkWorld (f (app w)) (db w) (leaguesCol w) (myLeagues w).

Definition onQuiz (f : Quiz -> Quiz) : World -> World :=
  onApp (fun a => mkApp (userId a) (userData a) (quizData a) (isLoading a)
                        (f (quiz a)) (leagues a) (isModalOpen a) (code a)).

Definition setIsQuizActive (b : bool) : World -> World :=
  onQuiz (fun q => mkQuiz b (quizCurrentQuestion q) (quizTimeLeft q)
                          (quizResults q) (quizAnswers q) (quizFeedback q)).

Definition setQuizCurrentQuestion (f : nat -> nat) : World -> World :=
  onQuiz (fun q => mkQuiz (isQuizActive q) (f (quizCurrentQuestion q))
                          (quizTimeLeft q) (quizResults q) (quizAnswers q)
                          (quizFeedback q)).

Definition setQuizTimeLeft (f : Z -> Z) : World -> World :=
  onQuiz (fun q => mkQuiz (isQuizActive q) (quizCurrentQuestion q)
                          (f (quizTimeLeft q)) (quizResults q) (quizAnswers q)
                          (quizFeedback q)).

Definition setQuizResults (x : option QuizResults) : World -> World :=
  onQuiz (fun q => mkQuiz (isQuizActive q) (quizCurrentQuestion q)
                          (quizTimeLeft q) x (quizAnswers q) (quizFeedback q)).

Definition setQuizAnswers (f : list Answer -> list Answer) : World -> World :=
  onQuiz (fun q => mkQuiz (isQuizActive q) (quizCurrentQuestion q)
                          (quizTimeLeft q) (quizResults q) (f (quizAnswers q))
                          (quizFeedback q)).

Definition setQuizFeedback (x : option Feedback) : World -> World :=
  onQuiz (fun q => mkQuiz (isQuizActive q) (quizCurrentQuestion q)
                          (quizTimeLeft q) (quizResults q) (quizAnswers q) x).

Definition setIsLoading (b : bool) : World -> World :=
  onApp (fun a => mkApp (userId a) (userData a) (quizData a) b (quiz a)
                        (leagues a) (isModalOpen a) (code a)).

Definition setLeagues (f : list LocalLeague -> list LocalLeague) : World -> World :=
  onApp (fun a => mkApp (userId a) (userData a) (quizData a) (isLoading a)
                        (quiz a) (f (leagues a)) (isModalOpen a) (code a)).

Definition setIsModalOpen (b : bool) : World -> World :=
  onApp (fun a => mkApp (userId a) (userData a) (quizData a) (isLoading a)
                        (quiz a) (leagues a) b (code a)).

Definition setMyLeagues
    (f : gmap (string * string) Membership -> gmap (string * string) Membership)
    (w : World) : World :=
  mkWorld (app w) (db w) (leaguesCol w) (f (myLeagues w)).

(** *** The quiz *)

(** [isQuizCompleted]: a flag the client only reads. *)
Definition isQuizCompleted (r : App) : bool :=
  match userData r, quizData r with
  | Some u, Some q =>
    match quizzes_completed u with
    | Some m => default false (m !! quizId q)
    | None => false
    end
  | _, _ => false
  end.

Definition handleStartQuiz (r : App) (w : World) : Run World :=
  if isQuizCompleted r then Done w
  else
    match quizData r with
    | None => Thrown (setQuizCurrentQuestion (fun _ => 0%nat) w)
    | Some q =>
      Done (setIsQuizActive true
             (setQuizResults None
               (setQuizAnswers (fun _ => [])
                 (setQuizTimeLeft (fun _ => timeLimitSeconds q)
                   (setQuizCurrentQuestion (fun _ => 0%nat) w)))))
    end.

(** [Math.random() < 0.7] for the double [draw] that [Math.random()]
    returned: doubles are compared by their exact values. *)
Definition below_0_7 (draw : Q) : bool := negb (Qle_bool Js.double_0_7 draw).

(** [handleAnswer] of render [r]; [draw] is what [Math.random()] returns.
    As in the mini-app, the second component lists the [setTimeout]
    callbacks it registers. *)
Definition handleAnswer (r : App) (draw : Q) (selectedOption : string)
    (w : World) : Run (World * list App) :=
  match MOCK_QUESTIONS !! quizCurrentQuestion (quiz r) with
  | None => Thrown (w, [])
  | Some q =>
    let questionId := questionId q in
    let isCorrect := below_0_7 draw in
    let w1 :=
      setQuizFeedback
        (Some (mkFeedback (if isCorrect then fb_correct else fb_wrong)
                          (if isCorrect then selectedOption else "A"))) w in
    let newAnswer := mkAnswer questionId selectedOption in
    Done (setQuizAnswers (fun prev => (prev ++ [newAnswer])%list) w1, [r])
  end.

(** The [onClick] of an option button of render [r]:
    [!quizFeedback && handleAnswer(optionLetter)]. *)
Definition onOptionClick (r : App) (draw : Q) (optionLetter : string)
    (w : World) : Run (World * list App) :=
  match quizFeedback (quiz r) with
  | Some _ => Done (w, [])
  | None => handleAnswer r draw optionLetter w
  end.

(** [handleQuizFinish] of render [r]: the result is the mock built from
    the number of answers that [r] holds.  The products and the quotient
    are those of doubles. *)
Definition handleQuizFinish (r : App) (isTimeout : bool) (w : World) : Run World :=
  let w1 := setIsLoading true (setIsQuizActive false w) in
  match quizData r with
  | None => Thrown w1
  | Some _ =>
    let n := inject_Z (Z.of_nat (length (quizAnswers (quiz r)))) in
    let totalCount := Z.of_nat (length (quizAnswers (quiz r))) in
    let correctCount := Js.round (Js.mul n Js.double_0_7) in
    let pointsEarned := Js.round (Js.mul (Js.mul n Js.double_0_7) 10) in
    let totalScore :=
      (default 0 (userData r ≫= score) + pointsEarned)%Z in
    let accuracy :=
      if (0 <? totalCount)%Z
      then Js.mul (Js.div (inject_Z correctCount) (inject_Z totalCount)) 100
      else 0%Q in
    Done (setIsLoading false
           (setQuizResults
              (Some (mkQuizResults totalCount correctCount pointsEarned
                                   accuracy isTimeout totalScore)) w1))
  end.

(** The callback that [handleAnswer] of render [r] passes to
    [setTimeout]. *)
Definition afterFeedback (r : App) (w : World) : Run World :=
  let w1 := setQuizFeedback None w in
  if (quizCurrentQuestion (quiz r) <? length MOCK_QUESTIONS - 1)%nat
  then Done (setQuizCurrentQuestion (fun prev => prev + 1) w1)
  else handleQuizFinish r false w1.

(** *** References into the store

    A path is given by its segments.  [collection] throws unless the path
    has an odd number of segments, and [doc] unless the path and the id
    have an even number together.  The module constant [appId] is given
    by its segments: the default is one segment, and an [__app_id] of the
    host page has more if it holds slashes.  A user id and a document id
    are one segment each. *)
Definition collection (path : list string) : option (list string) :=
  if Nat.odd (length path) then Some path else None.

Definition doc (path : list string) (id : string) : option (list string) :=
  if Nat.even (length path + 1) then Some (path ++ [id])%list else None.

(** [artifacts/${appId}/public/data/leagues]. *)
Definition leaguesPath (appId : list string) : list string :=
  ("artifacts" :: appId ++ ["public"; "data"; "leagues"])%list.

(** [artifacts/${appId}/users/${userId}/gameData/myLeagues]. *)
Definition myLeaguesPath (appId : list string) (userId : string) : list string :=
  ("artifacts" :: appId ++ ["users"; userId; "gameData"; "myLeagues"])%list.

(** *** Joining a league *)

Inductive JoinOutcome : Type :=
| AuthenticationRequired     (* no [db] or no [userId] *)
| CodeMissing                (* the form holds no code *)
| NoLeagueFound              (* the query is empty *)
| JoinFailed                 (* an exception or a rejection reaches the catch *)
| Joined.

(** [where('code', '==', c)]: the documents whose code is [c]. *)
Definition whereCode (c : string) (col : list (string * LeagueDoc))
    : list (string * LeagueDoc) :=
  filter (fun d => ld_code (snd d) = Some c) col.

(** The [join] branch of [handleModalSubmit] of render [r].  [fetched]
    tells whether [getDocs] resolves, and [committed] whether the
    transaction is committed once its body has run.  The body builds its
    two references with [doc] before it writes. *)
Definition handleModalSubmit_join (appId : list string) (r : App)
    (fetched committed : bool) (w : World) : JoinOutcome * World :=
  match db w, userId r with
  | true, Some (String c u) =>
    let uid := String c u in
    let w1 := setIsLoading true w in
    match code r with
    | EmptyString => (CodeMissing, setIsLoading false w1)
    | _ =>
      match collection (leaguesPath appId) with
      | None => (JoinFailed, setIsLoading false w1)
      | Some _ =>
        if fetched then
          match whereCode (Js.toUpperCase (code r)) (leaguesCol w) with
          | [] => (NoLeagueFound, setIsLoading false w1)
          | (leagueId, leagueData) :: _ =>
            match doc (leaguesPath appId) leagueId,
                  doc (myLeaguesPath appId uid) leagueId with
            | Some _, Some _ =>
              if committed then
                let leagueScore := default 0%Z (userData r ≫= leagueScore) in
                let w2 :=
                  setMyLeagues
                    (insert (uid, leagueId)
                            (mkMembership leagueId false leagueScore))
                    w1 in
                let w3 :=
                  setLeagues
                    (fun prev =>
                       (prev ++ [mkLocalLeague leagueId (ld_name leagueData)
                                   (ld_description leagueData) 99 leagueScore
                                   (default 0 (ld_memberCount leagueData) + 1)%Z
                                   false])%list) w2 in
                (Joined, setIsLoading false (setIsModalOpen false w3))
              else (JoinFailed, setIsLoading false w1)
            | _, _ => (JoinFailed, setIsLoading false w1)
            end
          end
        else (JoinFailed, setIsLoading false w1)
      end
    end
  | _, _ => (AuthenticationRequired, w)
  end.

(** *** The web session as a transition system

    The system holds the state and the renders of the [setTimeout]
    callbacks not yet fired, oldest first (they all wait 500 ms). *)
Record Sys : Type := mkSys {
  world : World;
  timeouts : list App
}.

Inductive Event : Type :=
| EStart                                      (* a click on Start Quiz *)
| ETick                                       (* the interval fires *)
| EClick (draw : Q) (optionLetter : string)   (* a click on an option *)
| ETimeout.                                   (* the oldest timeout fires *)

(** The quiz timer effect depends on [isQuizActive] and [quizTimeLeft]:
    after a render in which one of them has changed, it ends an active
    quiz whose time is up through [handleQuizFinish] of that render.  The
    run that follows this change finds the quiz inactive and does
    nothing. *)
Definition timerEffect (before : bool * Z) (w : World) : World :=
  let q := quiz (app w) in
  if decide (before = (isQuizActive q, quizTimeLeft q)) then w
  else if isQuizActive q && (quizTimeLeft q <=? 0)%Z
       then state_of (handleQuizFinish (app w) true w)
       else w.

(** One event.  The interval set by the timer effect exists while the
    quiz is active with time left, and its callback takes one second off.
    The option buttons belong to the question view, which the main render
    returns only while the quiz is active. *)
Definition step (s : Sys) (e : Event) : Sys :=
  let w := world s in
  let q := quiz (app w) in
  let before := (isQuizActive q, quizTimeLeft q) in
  match e with
  | EStart =>
    mkSys (timerEffect before (state_of (handleStartQuiz (app w) w)))
          (timeouts s)
  | ETick =>
    if isQuizActive q && (0 <? quizTimeLeft q)%Z
    then mkSys (timerEffect before (setQuizTimeLeft (fun prev => prev - 1)%Z w))
               (timeouts s)
    else s
  | EClick draw optionLetter =>
    if isQuizActive q
    then let res := state_of (onOptionClick (app w) draw optionLetter w) in
         mkSys (timerEffect before (fst res)) (timeouts s ++ snd res)
    else s
  | ETimeout =>
    match timeouts s with
    | [] => s
    | r :: rest => mkSys (timerEffect before (state_of (afterFeedback r w))) rest
    end
  end.

Definition run (s : Sys) (es : list Event) : Sys := fold_left step es s.

(** *** Creating a league *)

Inductive CreateOutcome : Type :=
| CreateNoAuth               (* no [db] or no [userId] *)
| CreateFieldsMissing        (* the form holds no name or no description *)
| CreateAddFails             (* [collection] throws or [addDoc] is rejected *)
| CreateSetFails             (* [doc] throws or [setDoc] is rejected *)
| Created.

(** [addDoc] on the [leagues] collection: the store chooses the id
    [newId] of the document, and [pos] is its place in the order in which
    a query returns the collection. *)
Definition addLeagueDoc (pos : nat) (newId : string) (d : LeagueDoc)
    (w : World) : World :=
  mkWorld (app w) (db w)
          (take pos (leaguesCol w) ++ (newId, d) :: drop pos (leaguesCol w))
          (myLeagues w).

(** The [create] branch of [handleModalSubmit] of render [r].  [name],
    [description] and [isPrivate] are the fields of [leagueFormData] in [r];
    [random36] is the string [Math.random().toString(36)]; [added] and
    [stored] tell whether [addDoc] and [setDoc] resolve.  The entry added
    to the local list keeps the fields that [LocalLeague] has. *)
Definition handleModalSubmit_create (appId : list string) (r : App)
    (name description : string) (isPrivate : bool) (random36 : string)
    (newId : string) (pos : nat) (added stored : bool) (w : World)
    : CreateOutcome * World :=
  match db w, userId r with
  | true, Some (String c u) =>
    let uid := String c u in
    let w1 := setIsLoading true w in
    if negb (Js.truthy (Some name)) || negb (Js.truthy (Some description))
    then (CreateFieldsMissing, setIsLoading false w1)
    else
      match collection (leaguesPath appId) with
      | None => (CreateAddFails, setIsLoading false w1)
      | Some _ =>
        let leagueCode :=
          if isPrivate
          then Some (Js.toUpperCase (Js.substring 2 8 random36))
          else None in
        let newLeague :=
          mkLeagueDoc name description isPrivate leagueCode uid (Some 1%Z) in
        if added then
          let w2 := addLeagueDoc pos newId newLeague w1 in
          match doc (myLeaguesPath appId uid) newId with
          | None => (CreateSetFails, setIsLoading false w2)
          | Some _ =>
            if stored then
              let leagueScore := default 0%Z (userData r ≫= leagueScore) in
              let w3 :=
                setMyLeagues
                  (insert (uid, newId) (mkMembership newId true leagueScore))
                  w2 in
              let w4 :=
                setLeagues
                  (fun prev =>
                     (prev ++ [mkLocalLeague newId name description 1
                                 leagueScore 1 true])%list) w3 in
              (Created, setIsLoading false (setIsModalOpen false w4))
            else (CreateSetFails, setIsLoading false w2)
          end
        else (CreateAddFails, setIsLoading false w1)
      end
  | _, _ => (CreateNoAuth, w)
  end.

(** *** The countdown to the expiry of the quiz *)

(** One second of the countdown effect: its interval exists while
    [countdown] is positive. *)
Definition countdownTick (countdown : Z) : Z :=
  if (countdown <=? 0)%Z then countdown
  else Z.max 0 (countdown - 1000).

(** [formatTime] of a number of milliseconds: the label of the countdown. *)
Definition formatTime (ms : Z) : string :=
  if (ms <=? 0)%Z then "EXPIRED"
  else
    let totalSeconds := (ms / 1000)%Z in
    let days := (totalSeconds / (3600 * 24))%Z in
    let hours := (Z.rem totalSeconds (3600 * 24) / 3600)%Z in
    let minutes := (Z.rem totalSeconds 3600 / 60)%Z in
    let seconds := Z.rem totalSeconds 60 in
    if (0 <? days)%Z
    then Js.toString days ++ "d " ++ Js.toString hours ++ "h"
    else Js.padStart 2 "0" (Js.toString hours) ++ ":"
         ++ Js.padStart 2 "0" (Js.toString minutes) ++ ":"
         ++ Js.padStart 2 "0" (Js.toString seconds).

End Web.

(** * Vocabulary of the properties *)

(** The render [r] has a store handle and a non-empty user id [uid]. *)
Definition signedIn (r : Tma.App) (uid : string) : Prop :=
  Tma.db r = true /\ Tma.userId r = Some uid /\ uid <> "".

(** The web render [r] has a store handle and a non-empty user id. *)
Definition web_signedIn (w : Web.World) (r : Web.App) (uid : string) : Prop :=
  Web.db w = true /\ Web.userId r = Some uid /\ uid <> "".

(** The session in [w] is over: it is inactive and a result is stored. *)
Definition finished (w : Tma.World) : Prop :=
  Tma.isQuizActive (Tma.app w) = false
  /\ is_Some (Tma.quizResult (Tma.app w)).

(** A click on an option in the current render. *)
Definition click (Q : Tma.QuizData) (selectedOption : string) (w : Tma.World)
    : Run (Tma.World * list Tma.App) :=
  Tma.handleAnswer Q (Tma.app w) selectedOption w.

(** A click on an option in the current render of the web front end. *)
Definition web_click (draw : Q) (optionLetter : string) (w : Web.World)
    : Run (Web.World * list Web.App) :=
  Web.onOptionClick (Web.app w) draw optionLetter w.

(** The quiz state that [handleAnswer] stores when the guard lets the
    answer [selectedOption] to question [q] through. *)
Definition recorded (qs : Tma.QuizState) (q : Tma.Question)
    (selectedOption : string) : Tma.QuizState :=
  let isCorrect := String.eqb selectedOption (Tma.q_correct q) in
  Tma.mkQuizState (Tma.currentQuestionIndex qs)
    (if isCorrect then Tma.correctAnswers qs + 1 else Tma.correctAnswers qs)
    (Tma.answeredCount qs + 1)
    (<[ Tma.q_id q :=
          Tma.mkEntry (if isCorrect then Tma.correct else Tma.incorrect)
                      selectedOption (Tma.q_correct q) ]>
       (Tma.questionStatus qs)).

(** ** The aggregates over [questionStatus] *)

#[global] Instance Status_eq_dec : EqDecision Tma.Status.
Proof. solve_decision. Defined.

(** An entry marked ['correct']. *)
Definition isRight (kv : Z * Tma.Entry) : Prop :=
  Tma.status kv.2 = Tma.correct.

(** An entry whose selected option is the correct option recorded with
    it. *)
Definition isHit (kv : Z * Tma.Entry) : Prop :=
  Tma.selected kv.2 = Tma.correctAnswer kv.2.

Definition nbAnswered (m : gmap Z Tma.Entry) : nat := size m.
Definition nbRight (m : gmap Z Tma.Entry) : nat := size (filter isRight m).
Definition nbHits (m : gmap Z Tma.Entry) : nat := size (filter isHit m).

(** The entry under key [i] answers a question of the quiz with id [i]: it
    records that question's correct option, and it is marked ['correct']
    exactly when the selected option is that one. *)
Definition entry_ok (Q : Tma.QuizData) (i : Z) (e : Tma.Entry) : Prop :=
  (Tma.status e = Tma.correct <-> Tma.selected e = Tma.correctAnswer e)
  /\ exists q, q ∈ Tma.questions Q /\ Tma.q_id q = i
               /\ Tma.correctAnswer e = Tma.q_correct q.

(** The counters of a quiz state agree with its [questionStatus]. *)
Definition counters_ok (Q : Tma.QuizData) (st : Tma.QuizState) : Prop :=
  Tma.answeredCount st = nbAnswered (Tma.questionStatus st)
  /\ Tma.correctAnswers st = nbRight (Tma.questionStatus st)
  /\ map_Forall (entry_ok Q) (Tma.questionStatus st).




(** * Example data *)

(** ** Mini-app *)

(** A signed-in render outside a session, and a world in which that user
    has a stored score of 40. *)
Definition render_u1 : Tma.App :=
  Tma.mkApp true (Some "u1") (Tma.UserData.mk "Anonymous Player" 40 40 "#N/A"
                                              "250,999")
            false None None 90 Tma.ModalNull.

Definition world_u1 : Tma.World :=
  Tma.mkWorld render_u1
    {[ "u1" := Tma.Profile.mk (Some 40%Z) (Some 40%Z) (Some "#N/A")
                              (Some "250,999") ]}
    [].

(** The same user in a session on the question set of the source file,
    after three answers, two of them right. *)
Definition state_mid : Tma.QuizState :=
  Tma.mkQuizState 3 2 3
    (<[ 3%Z := Tma.mkEntry Tma.correct "Real Madrid" "Real Madrid" ]>
       (<[ 2%Z := Tma.mkEntry Tma.incorrect "Spain" "Germany" ]>
          (<[ 1%Z := Tma.mkEntry Tma.correct "Lionel Messi" "Lionel Messi" ]>
             ∅))).

Definition render_mid : Tma.App :=
  Tma.mkApp true (Some "u1") (Tma.UserData.mk "Anonymous Player" 40 40 "#N/A"
                                              "250,999")
            true (Some state_mid) None 30 Tma.ModalNull.

Definition world_mid : Tma.World :=
  Tma.mkWorld render_mid (Tma.profiles world_u1) [].

(** The same answers, the delayed callback of the third still waiting: the
    index is on the third question. *)
Definition state_wait : Tma.QuizState :=
  Tma.mkQuizState 2 2 3 (Tma.questionStatus state_mid).

Definition render_wait : Tma.App :=
  Tma.mkApp true (Some "u1") (Tma.UserData.mk "Anonymous Player" 40 40 "#N/A"
                                              "250,999")
            true (Some state_wait) None 30 Tma.ModalNull.

Definition world_wait : Tma.World :=
  Tma.mkWorld render_wait (Tma.profiles world_u1) [].

(** [n] firings of the interval, all of whose transactions commit. *)
Definition ticks (n : nat) : list Tma.Event :=
  map Tma.ETick (repeat TxCommits n).

(** The first three questions of the source file answered correctly, one
    per second: each answer is followed by its delayed callback (after
    800 ms) and by the tick that ends the second. *)
Definition three_right : list Tma.Event :=
  [ Tma.EStart;
    Tma.EAnswer "Lionel Messi"; Tma.ETimeout TxCommits; Tma.ETick TxCommits;
    Tma.EAnswer "Germany"; Tma.ETimeout TxCommits; Tma.ETick TxCommits;
    Tma.EAnswer "Real Madrid"; Tma.ETimeout TxCommits; Tma.ETick TxCommits ].

(** Then the fourth question is answered correctly and its callback
    fires. *)
Definition four_right : list Tma.Event :=
  (three_right
   ++ [ Tma.EAnswer "Alan Shearer"; Tma.ETimeout TxCommits ])%list.

(** Or the fourth question is answered correctly in the last second: the
    90th tick comes before the callback of that answer. *)
Definition last_second_answer : list Tma.Event :=
  (three_right ++ ticks 86
   ++ [ Tma.EAnswer "Alan Shearer"; Tma.ETick TxCommits ])%list.

(** ** Web front end *)

(** A session at its first question, of the owner of a private league
    with code AB12CD who has typed that code into the join form. *)
Definition web_render : Web.App :=
  Web.mkApp (Some "u1")
    (Some (Web.mkUserDoc (Some 40%Z) (Some 40%Z) None))
    (Some (Web.mkQuizMeta "quiz_01_20250101" 90))
    false
    (Web.mkQuiz true 0 90 None [] None)
    [] true "ab12cd".

Definition web_league : Web.LeagueDoc :=
  Web.mkLeagueDoc "Premier League Gurus" "Strictly for PL enthusiasts." true
                  (Some "AB12CD") "u1" (Some 1%Z).

Definition web_world : Web.World :=
  Web.mkWorld web_render true [("L7", web_league)]
    {[ ("u1", "L7") := Web.mkMembership "L7" true 40 ]}.

(** The default [appId] of the source file. *)
Definition web_appId : list string := ["default-footy-iq-app-id"].

(** A second user who types the same code. *)
Definition web_render_u2 : Web.App :=
  Web.mkApp (Some "u2")
    (Some (Web.mkUserDoc (Some 15%Z) (Some 15%Z) None))
    (Some (Web.mkQuizMeta "quiz_01_20250101" 90))
    false
    (Web.mkQuiz false 0 90 None [] None)
    [] true "AB12CD".

(** The render of a signed-in user that holds the answers [l]. *)
Definition web_render_answers (l : list Web.Answer) : Web.App :=
  Web.mkApp (Some "u1")
    (Some (Web.mkUserDoc (Some 40%Z) (Some 40%Z) None))
    (Some (Web.mkQuizMeta "quiz_01_20250101" 90))
    false
    (Web.mkQuiz true (length l) 60 None l None)
    [] false "".


(** * Vocabulary of the further properties *)

(** The quiz state that [startQuiz] stores. *)
Definition initialQuizState : Tma.QuizState := Tma.mkQuizState 0 0 0 ∅.

(** The interval runs exactly while the quiz is active, and its callback
    belongs to a render that holds the quiz state of the start. *)
Definition timer_ok (s : Tma.Sys) : Prop :=
  match Tma.interval s with
  | Some r => Tma.isQuizActive (Tma.app (Tma.world s)) = true
              /\ Tma.quizState r = Some initialQuizState
  | None => Tma.isQuizActive (Tma.app (Tma.world s)) = false
  end.

(** The current index points at a question. *)
Definition index_ok (Q : Tma.QuizData) (w : Tma.World) : Prop :=
  exists st q,
    Tma.quizState (Tma.app w) = Some st
    /\ Tma.questions Q !! Tma.currentQuestionIndex st = Some q.

(** The session after the first three right answers and 89 ticks: one
    second is left. *)
Definition one_second_left : list Tma.Event := (three_right ++ ticks 86)%list.

(** The three right answers as [three_right] records them. *)
Definition state_three_right : Tma.QuizState :=
  Tma.mkQuizState 3 3 3
    (<[ 3%Z := Tma.mkEntry Tma.correct "Real Madrid" "Real Madrid" ]>
       (<[ 2%Z := Tma.mkEntry Tma.correct "Germany" "Germany" ]>
          (<[ 1%Z := Tma.mkEntry Tma.correct "Lionel Messi" "Lionel Messi" ]>
             ∅))).

(** The question ids of the answers given in the web session. *)
Definition answeredIds (w : Web.World) : list Z :=
  map Web.a_questionId (Web.quizAnswers (Web.quiz (Web.app w))).

(** The invariant of the web session: a quiz is loaded, no question id
    occurs twice among the answers, every id is positive and at most that
    of the current question, and below it while the session is active and
    waits for an answer. *)
Definition web_ok (w : Web.World) : Prop :=
  let q := Web.quiz (Web.app w) in
  is_Some (Web.quizData (Web.app w))
  /\ NoDup (answeredIds w)
  /\ (forall i, i ∈ answeredIds w ->
        (1 <= i <= Z.of_nat (Web.quizCurrentQuestion q) + 1)%Z)
  /\ (Web.isQuizActive q = true -> Web.quizFeedback q = None ->
      forall i, i ∈ answeredIds w ->
        (i <= Z.of_nat (Web.quizCurrentQuestion q))%Z).

(** A store that holds the league documents [col], given with their ids
    in its own order, and answers a query by a code with the first
    document that has it. *)
Definition queryStore (col : list (string * Tma.League)) (c : string)
    : option (list (string * Tma.League)) :=
  Some (take 1 (filter (fun d => Tma.l_code d.2 = Some c) col)).

(** * Properties *)

(** ** The score update of the mini-app *)

Lemma signedIn_truthy r uid :
  signedIn r uid -> Tma.db r && Js.truthy (Tma.userId r) = true.
Proof.
  intros (Hdb & Hu & Hne). rewrite Hdb, Hu.
  destruct uid; [congruence | reflexivity].
Qed.

(** A committed update stores exactly the merged document. *)
Lemma updateUserScore_commits r uid points w :
  signedIn r uid ->
  Tma.profiles (Tma.updateUserScore r points TxCommits w)
  = <[ uid := Tma.mergeScore (Tma.currentScore (Tma.profiles w !! uid) + points)
                             (Tma.profiles w !! uid) ]> (Tma.profiles w).
Proof.
  intros (Hdb & Hu & Hne). unfold Tma.updateUserScore. rewrite Hdb, Hu.
  destruct uid as [|c u]; [congruence | reflexivity].
Qed.

Lemma currentScore_updateUserScore r uid points w :
  signedIn r uid ->
  Tma.currentScore (Tma.profiles (Tma.updateUserScore r points TxCommits w) !! uid)
  = (Tma.currentScore (Tma.profiles w !! uid) + points)%Z.
Proof.
  intros H. rewrite (updateUserScore_commits r uid points w H).
  rewrite lookup_insert_eq. reflexivity.
Qed.

(** The update touches neither the quiz fields nor the leagues. *)
Lemma updateUserScore_frame r points o w :
  let w' := Tma.updateUserScore r points o w in
  Tma.isQuizActive (Tma.app w') = Tma.isQuizActive (Tma.app w)
  /\ Tma.quizState (Tma.app w') = Tma.quizState (Tma.app w)
  /\ Tma.quizResult (Tma.app w') = Tma.quizResult (Tma.app w)
  /\ Tma.timeRemaining (Tma.app w') = Tma.timeRemaining (Tma.app w)
  /\ Tma.showModal (Tma.app w') = Tma.showModal (Tma.app w)
  /\ Tma.leagues w' = Tma.leagues w.
Proof.
  unfold Tma.updateUserScore.
  destruct (Tma.db r); [| by repeat split].
  destruct (Tma.userId r) as [[|c u]|]; [by repeat split | | by repeat split].
  destruct o; by repeat split.
Qed.

(** C10.  Every committed score update writes [leagueScore] equal to the
    new total [score] (the stored score plus the points) and sets
    [globalRank] to the placeholder ["#calculating"], in the stored
    profile and in the local [userData]. *)
Theorem updateUserScore_mirrors_score r uid points w :
  signedIn r uid ->
  let newScore := (Tma.currentScore (Tma.profiles w !! uid) + points)%Z in
  let w' := Tma.updateUserScore r points TxCommits w in
  (exists d,
      Tma.profiles w' !! uid = Some d
      /\ Tma.Profile.score d = Some newScore
      /\ Tma.Profile.leagueScore d = Some newScore
      /\ Tma.Profile.globalRank d = Some "#calculating")
  /\ Tma.UserData.score (Tma.userData (Tma.app w')) = newScore
  /\ Tma.UserData.leagueScore (Tma.userData (Tma.app w')) = newScore
  /\ Tma.UserData.globalRank (Tma.userData (Tma.app w')) = "#calculating".
Proof.
  intros H newScore w'. split.
  - exists (Tma.mergeScore newScore (Tma.profiles w !! uid)).
    subst w'. rewrite (updateUserScore_commits r uid points w H).
    rewrite lookup_insert_eq. by repeat split.
  - destruct H as (Hdb & Hu & Hne). subst w'. unfold Tma.updateUserScore.
    rewrite Hdb, Hu. destruct uid as [|c u]; [congruence | by repeat split].
Qed.

Lemma signedIn_u1 : signedIn render_u1 "u1".
Proof. repeat split; discriminate. Qed.

Lemma updateUserScore_mirrors_score_witness :
  signedIn render_u1 "u1"
  /\ exists d,
       Tma.profiles (Tma.updateUserScore render_u1 10 TxCommits world_u1) !! "u1"
       = Some d
       /\ Tma.Profile.score d = Some 50%Z
       /\ Tma.Profile.leagueScore d = Some 50%Z
       /\ Tma.Profile.globalRank d = Some "#calculating".
Proof.
  assert (H : signedIn render_u1 "u1") by (repeat split; discriminate).
  split; [exact H |].
  exact (proj1 (updateUserScore_mirrors_score render_u1 "u1" 10 world_u1 H)).
Defined.

(** C1, as stated, fails: two committed updates with 10 points for the
    same user raise a stored score of 40 to 60, not to 50. *)
Lemma updateUserScore_twice_counterexample :
  let w2 := Tma.updateUserScore render_u1 10 TxCommits
              (Tma.updateUserScore render_u1 10 TxCommits world_u1) in
  Tma.currentScore (Tma.profiles world_u1 !! "u1") = 40%Z
  /\ Tma.currentScore (Tma.profiles w2 !! "u1") = 60%Z
  /\ Tma.currentScore (Tma.profiles w2 !! "u1")
     <> (Tma.currentScore (Tma.profiles world_u1 !! "u1") + 10)%Z.
Proof.
  cbv zeta.
  rewrite !(currentScore_updateUserScore render_u1 "u1" 10 _ signedIn_u1).
  assert (H : Tma.currentScore (Tma.profiles world_u1 !! "u1") = 40%Z)
    by (unfold world_u1; cbn [Tma.profiles]; rewrite lookup_singleton_eq;
        reflexivity).
  rewrite H. repeat split; lia.
Qed.

(** C1, amended.  [updateUserScore] takes the points and nothing else: it
    has no quiz id to check and no outcome to report.  Each committed
    invocation adds its points to the stored score, so two invocations
    with [p] raise it by [2 * p]. *)
Theorem updateUserScore_twice r uid p w :
  signedIn r uid ->
  let w1 := Tma.updateUserScore r p TxCommits w in
  let w2 := Tma.updateUserScore r p TxCommits w1 in
  Tma.currentScore (Tma.profiles w1 !! uid)
  = (Tma.currentScore (Tma.profiles w !! uid) + p)%Z
  /\ Tma.currentScore (Tma.profiles w2 !! uid)
     = (Tma.currentScore (Tma.profiles w !! uid) + 2 * p)%Z.
Proof.
  intros H w1 w2. subst w1 w2.
  rewrite !(currentScore_updateUserScore r uid p _ H). split; lia.
Qed.

Lemma updateUserScore_twice_witness :
  signedIn render_u1 "u1"
  /\ Tma.currentScore
       (Tma.profiles (Tma.updateUserScore render_u1 10 TxCommits
                        (Tma.updateUserScore render_u1 10 TxCommits world_u1))
        !! "u1")
     = (Tma.currentScore (Tma.profiles world_u1 !! "u1") + 2 * 10)%Z.
Proof.
  assert (H : signedIn render_u1 "u1") by (repeat split; discriminate).
  split; [exact H |].
  exact (proj2 (updateUserScore_twice render_u1 "u1" 10 world_u1 H)).
Defined.

(** ** The counters of the quiz state *)

Lemma counters_ok_init Q : counters_ok Q (Tma.mkQuizState 0 0 0 ∅).
Proof.
  split; [| split]; cbn [Tma.answeredCount Tma.correctAnswers Tma.questionStatus].
  - unfold nbAnswered. by rewrite map_size_empty.
  - unfold nbRight. by rewrite map_filter_empty, map_size_empty.
  - apply map_Forall_empty.
Qed.

Lemma nbRight_le (m : gmap Z Tma.Entry) : nbRight m <= nbAnswered m.
Proof. apply map_size_filter. Qed.

Lemma nbRight_nbHits Q (m : gmap Z Tma.Entry) :
  map_Forall (entry_ok Q) m -> nbRight m = nbHits m.
Proof.
  intros H. unfold nbRight, nbHits. f_equal.
  apply map_filter_ext. intros i e Hie. apply (H i e Hie).
Qed.

(** The keys of a sound [questionStatus] are ids of questions. *)
Lemma nbAnswered_le Q (m : gmap Z Tma.Entry) :
  map_Forall (entry_ok Q) m -> nbAnswered m <= length (Tma.questions Q).
Proof.
  intros H. unfold nbAnswered. rewrite <- (size_dom (D := gset Z)).
  transitivity (size (list_to_set (Tma.q_id <$> Tma.questions Q) : gset Z)).
  - apply subseteq_size. intros i Hi.
    apply elem_of_dom in Hi as [e He].
    destruct (H i e He) as (_ & q & Hq & Hid & _).
    apply elem_of_list_to_set, list_elem_of_fmap. eauto.
  - rewrite <- (length_fmap Tma.q_id (Tma.questions Q)).
    generalize (Tma.q_id <$> Tma.questions Q). intros l.
    induction l as [|x l IH]; cbn [length].
    + by rewrite list_to_set_nil, size_empty.
    + rewrite list_to_set_cons, size_union_alt, size_singleton.
      assert (size (list_to_set l ∖ {[x]} : gset Z)
              <= size (list_to_set l : gset Z))
        by (apply subseteq_size; intros y Hy;
            apply elem_of_difference in Hy; tauto).
      lia.
Qed.

(** Recording an answer under a fresh key keeps the counters sound. *)
Lemma counters_ok_answer Q st q selectedOption :
  counters_ok Q st ->
  q ∈ Tma.questions Q ->
  Tma.questionStatus st !! Tma.q_id q = None ->
  counters_ok Q (recorded st q selectedOption).
Proof.
  unfold recorded.
  set (isCorrect := String.eqb selectedOption (Tma.q_correct q)).
  intros (Ha & Hc & Hall) Hq Hfresh.
  split; [| split]; cbn [Tma.answeredCount Tma.correctAnswers Tma.questionStatus].
  - unfold nbAnswered in *. rewrite map_size_insert_None by done. lia.
  - unfold nbRight in *. subst isCorrect.
    destruct (String.eqb_spec selectedOption (Tma.q_correct q)) as [->|Hne].
    + rewrite map_filter_insert_True by done.
      rewrite map_size_insert_None; [lia |].
      by apply map_lookup_filter_None_2; left.
    + rewrite map_filter_insert_False by (unfold isRight; cbn; discriminate).
      by rewrite delete_id.
  - apply map_Forall_insert_2; [| done]. subst isCorrect. split.
    + cbn. destruct (String.eqb_spec selectedOption (Tma.q_correct q));
        split; intros; congruence.
    + exists q. by repeat split.
Qed.

(** ** What each handler does to the state *)

(** [handleAnswer] either leaves the state alone and registers nothing, or
    passes its guard, stores the recorded answer and registers one
    callback. *)
Lemma handleAnswer_cases Q r selectedOption w :
  (state_of (Tma.handleAnswer Q r selectedOption w) = (w, []))
  \/ (exists qs q,
        Tma.quizState r = Some qs
        /\ Tma.questions Q !! Tma.currentQuestionIndex qs = Some q
        /\ Tma.questionStatus qs !! Tma.q_id q = None
        /\ Tma.handleAnswer Q r selectedOption w
           = Done (Tma.setQuizState
                     (fun _ => Some (recorded qs q selectedOption)) w, [r])).
Proof.
  unfold Tma.handleAnswer.
  destruct (Tma.quizState r) as [qs|]; [| by left].
  destruct (Tma.questions Q !! Tma.currentQuestionIndex qs) as [q|] eqn:Hq;
    [| by left].
  destruct (Tma.questionStatus qs !! Tma.q_id q) eqn:Hs; [by left |].
  right. exists qs, q. by repeat split.
Qed.

(** [endQuiz] in full, for a render that holds a quiz state. *)
Lemma endQuiz_Some Q r timedOut o w st :
  Tma.quizState r = Some st ->
  Tma.endQuiz Q r timedOut o w
  = Done (Tma.setShowModal Tma.ModalResults
            (let w2 := Tma.setQuizResult (Some (Tma.calculateResults Q st))
                         (Tma.setIsQuizActive false w) in
             if Tma.db r && Js.truthy (Tma.userId r)
             then Tma.updateUserScore r
                    (Tma.pointsEarned (Tma.calculateResults Q st)) o w2
             else w2)).
Proof. intros H. unfold Tma.endQuiz. by rewrite H. Qed.

(** [endQuiz] ends the session, stores the result of the render's quiz
    state and leaves the quiz state, the timer and the leagues alone. *)
Lemma endQuiz_fields Q r timedOut o w :
  let w' := state_of (Tma.endQuiz Q r timedOut o w) in
  Tma.isQuizActive (Tma.app w') = false
  /\ Tma.quizState (Tma.app w') = Tma.quizState (Tma.app w)
  /\ Tma.timeRemaining (Tma.app w') = Tma.timeRemaining (Tma.app w)
  /\ Tma.leagues w' = Tma.leagues w
  /\ Tma.quizResult (Tma.app w')
     = match Tma.quizState r with
       | Some st => Some (Tma.calculateResults Q st)
       | None => Tma.quizResult (Tma.app w)
       end.
Proof.
  unfold Tma.endQuiz. destruct (Tma.quizState r) as [st|]; [| by repeat split].
  destruct (Tma.db r && Js.truthy (Tma.userId r)); [| by repeat split].
  cbn [state_of].
  set (w2 := Tma.setQuizResult _ _).
  destruct (updateUserScore_frame r
              (Tma.pointsEarned (Tma.calculateResults Q st)) o w2)
    as (H1 & H2 & H3 & H4 & H5 & H6).
  cbn in *. by rewrite H1, H2, H3, H4, H6.
Qed.

Lemma tick_fields Q r o w :
  let w' := state_of (Tma.tick Q r o w) in
  Tma.quizState (Tma.app w') = Tma.quizState (Tma.app w)
  /\ (Tma.quizResult (Tma.app w') = Tma.quizResult (Tma.app w)
      \/ exists st, Tma.quizState r = Some st
                    /\ Tma.quizResult (Tma.app w')
                       = Some (Tma.calculateResults Q st)).
Proof.
  unfold Tma.tick. destruct (Tma.timeRemaining (Tma.app w) <=? 1)%Z.
  - destruct (endQuiz_fields Q r true o w) as (_ & H2 & _ & _ & H5).
    destruct (Tma.endQuiz Q r true o w) as [w'|w']; cbn in *;
      (split; [done |]);
      (destruct (Tma.quizState r) as [st|]; [right; eauto | by left]).
  - cbn. split; [done | by left].
Qed.

Lemma advance_fields Q r o w :
  let w' := state_of (Tma.advance Q r o w) in
  (Tma.quizState (Tma.app w') = Tma.quizState (Tma.app w)
   \/ exists i, Tma.quizState (Tma.app w')
                = (fun prev => Tma.mkQuizState i (Tma.correctAnswers prev)
                                               (Tma.answeredCount prev)
                                               (Tma.questionStatus prev))
                  <$> Tma.quizState (Tma.app w))
  /\ (Tma.quizResult (Tma.app w') = Tma.quizResult (Tma.app w)
      \/ exists st, Tma.quizState r = Some st
                    /\ Tma.quizResult (Tma.app w')
                       = Some (Tma.calculateResults Q st)).
Proof.
  unfold Tma.advance. destruct (Tma.quizState r) as [qs|] eqn:Hr.
  - destruct (_ <? _)%nat.
    + cbn. split; [right; eauto | by left].
    + destruct (endQuiz_fields Q r false o w) as (_ & H2 & _ & _ & H5).
      rewrite Hr in H5. split; [by left | right; eauto].
  - cbn. split; by left.
Qed.

(** ** The invariant of the session *)







(** The current quiz state alone: once a quiz has been started it is always
    there and always sound, whatever the waiting callbacks hold. *)
Lemma current_ok_step Q s e :
  (exists st, Tma.quizState (Tma.app (Tma.world s)) = Some st
              /\ counters_ok Q st) ->
  exists st, Tma.quizState (Tma.app (Tma.world (Tma.step Q s e))) = Some st
             /\ counters_ok Q st.
Proof.
  intros (st & Hst & Hok). unfold Tma.step, Tma.timerEffect.
  set (s' := match e with Tma.EStart => _ | _ => _ end).
  assert (H : exists st', Tma.quizState (Tma.app (Tma.world s')) = Some st'
                          /\ counters_ok Q st');
    [| by destruct (Bool.eqb _ _)].
  subst s'. destruct e as [|o|selectedOption|o].
  - eexists. split; [reflexivity | apply counters_ok_init].
  - destruct (Tma.interval s) as [r|]; [| eauto].
    destruct (tick_fields Q r o (Tma.world s)) as (Hq & _).
    cbn. rewrite Hq. eauto.
  - destruct (handleAnswer_cases Q (Tma.app (Tma.world s)) selectedOption
                (Tma.world s)) as [-> | (qs & q & Hqs & Hq & Hfresh & ->)].
    + cbn. eauto.
    + cbn. eexists. split; [reflexivity |].
      rewrite Hst in Hqs. injection Hqs as <-.
      apply counters_ok_answer; [done | | done].
      by eapply list_elem_of_lookup_2.
  - destruct (Tma.timeouts s) as [|r rest]; [eauto |].
    destruct (advance_fields Q r o (Tma.world s)) as ([Hq | (i & Hq)] & _);
      cbn; rewrite Hq, ?Hst; [eauto |].
    eexists. split; [reflexivity |]. apply Hok.
Qed.

Lemma current_ok_run Q es : forall s,
  (exists st, Tma.quizState (Tma.app (Tma.world s)) = Some st
              /\ counters_ok Q st) ->
  exists st, Tma.quizState (Tma.app (Tma.world (Tma.run Q s es))) = Some st
             /\ counters_ok Q st.
Proof.
  induction es as [|e es IH]; intros s H; [done |].
  apply IH, current_ok_step, H.
Qed.

Lemma current_ok_start Q s :
  exists st,
    Tma.quizState (Tma.app (Tma.world (Tma.step Q s Tma.EStart))) = Some st
    /\ counters_ok Q st.
Proof.
  unfold Tma.step, Tma.timerEffect.
  destruct (Bool.eqb _ _); (eexists; split; [reflexivity | apply counters_ok_init]).
Qed.

(** C7.  In every state reached from a click on Start Quiz by any sequence
    of ticks, answers, delayed advances and further starts, the quiz state
    satisfies [correctAnswers <= answeredCount <= length questions];
    [answeredCount] is the number of entries of [questionStatus], and
    [correctAnswers] the number of its entries marked correct, which are
    the entries whose selected option is the correct one. *)
Theorem counters_invariant Q s es :
  exists st,
    Tma.quizState (Tma.app (Tma.world (Tma.run Q (Tma.step Q s Tma.EStart) es)))
    = Some st
    /\ Tma.correctAnswers st <= Tma.answeredCount st
    /\ Tma.answeredCount st <= length (Tma.questions Q)
    /\ Tma.answeredCount st = nbAnswered (Tma.questionStatus st)
    /\ Tma.correctAnswers st = nbRight (Tma.questionStatus st)
    /\ Tma.correctAnswers st = nbHits (Tma.questionStatus st).
Proof.
  destruct (current_ok_run Q es _ (current_ok_start Q s))
    as (st & Hst & Ha & Hc & Hall).
  exists st. split; [done |].
  pose proof (nbRight_le (Tma.questionStatus st)).
  pose proof (nbAnswered_le Q _ Hall).
  pose proof (nbRight_nbHits Q _ Hall).
  repeat split; lia.
Qed.

(** ** The timer *)

Lemma run_snoc Q s es e :
  Tma.run Q s (es ++ [e]) = Tma.step Q (Tma.run Q s es) e.
Proof. unfold Tma.run. by rewrite fold_left_app. Qed.

(** A click on Start Quiz outside a session starts the interval, whose
    callback belongs to the render that the click produces. *)
Lemma step_start Q s :
  Tma.isQuizActive (Tma.app (Tma.world s)) = false ->
  Tma.step Q s Tma.EStart
  = Tma.mkSys (Tma.setTimeRemaining (Tma.timeLimitSeconds Q)
                 (Tma.startQuiz Q (Tma.world s)))
              (Some (Tma.app (Tma.startQuiz Q (Tma.world s))))
              (Tma.timeouts s).
Proof. intros H. unfold Tma.step, Tma.timerEffect. by rewrite H. Qed.

(** With more than one second left, a tick only decrements the time. *)
Lemma step_tick_running Q W R ts o t :
  (1 < t)%Z ->
  Tma.isQuizActive (Tma.app W) = true ->
  Tma.step Q (Tma.mkSys (Tma.setTimeRemaining t W) (Some R) ts) (Tma.ETick o)
  = Tma.mkSys (Tma.setTimeRemaining (t - 1) W) (Some R) ts.
Proof.
  intros Ht Ha. unfold Tma.step, Tma.timerEffect, Tma.tick. cbn.
  destruct (Z.leb_spec t 1); [lia |]. cbn. by rewrite Ha.
Qed.

Lemma ticks_running Q W R ts T os :
  Tma.isQuizActive (Tma.app W) = true ->
  (Z.of_nat (length os) < T)%Z ->
  Tma.run Q (Tma.mkSys (Tma.setTimeRemaining T W) (Some R) ts)
          (map Tma.ETick os)
  = Tma.mkSys (Tma.setTimeRemaining (T - Z.of_nat (length os)) W) (Some R) ts.
Proof.
  intros Ha. induction os as [|o os IH] using rev_ind; intros Hlt.
  - cbn. by rewrite Z.sub_0_r.
  - rewrite length_app in *. cbn [length] in *.
    rewrite map_app. cbn [map]. rewrite run_snoc, IH by lia.
    rewrite step_tick_running by (done || lia).
    do 2 f_equal. lia.
Qed.

(** With at most one second left, the tick ends the session with the
    result of the quiz state that the interval's render holds. *)
Lemma step_tick_last Q W R ts o st t :
  (t <= 1)%Z ->
  Tma.quizState R = Some st ->
  let s' := Tma.step Q (Tma.mkSys (Tma.setTimeRemaining t W) (Some R) ts)
                     (Tma.ETick o) in
  Tma.isQuizActive (Tma.app (Tma.world s')) = false
  /\ Tma.quizResult (Tma.app (Tma.world s')) = Some (Tma.calculateResults Q st)
  /\ Tma.timeRemaining (Tma.app (Tma.world s')) = 0%Z
  /\ Tma.showModal (Tma.app (Tma.world s')) = Tma.ModalResults.
Proof.
  intros Ht HR. unfold Tma.step, Tma.timerEffect, Tma.tick.
  cbn [Tma.world Tma.interval Tma.timeRemaining Tma.app Tma.setTimeRemaining
       Tma.onApp].
  destruct (Z.leb_spec t 1) as [_|?]; [| lia].
  rewrite (endQuiz_Some Q R true o _ st HR). cbn zeta.
  set (w2 := Tma.setQuizResult _ _).
  assert (H : forall w3,
             Tma.isQuizActive (Tma.app w3) = false ->
             Tma.quizResult (Tma.app w3) = Some (Tma.calculateResults Q st) ->
             let s' := Tma.mkSys
                         (state_of (Done (Tma.setTimeRemaining 0
                                            (Tma.setShowModal Tma.ModalResults w3))))
                         None ts in
             Tma.isQuizActive (Tma.app (Tma.world s')) = false
             /\ Tma.quizResult (Tma.app (Tma.world s'))
                = Some (Tma.calculateResults Q st)
             /\ Tma.timeRemaining (Tma.app (Tma.world s')) = 0%Z
             /\ Tma.showModal (Tma.app (Tma.world s')) = Tma.ModalResults)
    by (intros w3 H1 H2; cbn; by repeat split).
  destruct (Tma.db R && Js.truthy (Tma.userId R)).
  - destruct (updateUserScore_frame R
                (Tma.pointsEarned (Tma.calculateResults Q st)) o w2)
      as (H1 & _ & H3 & _).
    specialize (H _ (eq_trans H1 eq_refl) (eq_trans H3 eq_refl)).
    cbn zeta in H. destruct (Bool.eqb _ _); exact H.
  - specialize (H w2 eq_refl eq_refl).
    cbn zeta in H. destruct (Bool.eqb _ _); exact H.
Qed.

(** For a time limit of [T >= 1] seconds, a session that is started and
    gets only ticks is ended by the timer at the [T]-th tick and not
    before: then the session is inactive, the time is 0, the results modal
    is shown, and the result has [totalAnswered = 0], [correctAnswers = 0]
    and [pointsEarned = 0]; after fewer ticks the session is active and
    has no result. *)
Theorem timer_expiry Q s os :
  (1 <= Tma.timeLimitSeconds Q)%Z ->
  Tma.isQuizActive (Tma.app (Tma.world s)) = false ->
  Z.of_nat (length os) = Tma.timeLimitSeconds Q ->
  let s0 := Tma.step Q s Tma.EStart in
  let after os' := Tma.app (Tma.world (Tma.run Q s0 (map Tma.ETick os'))) in
  Tma.isQuizActive (after os) = false
  /\ Tma.quizResult (after os) = Some (Tma.mkQuizResult 0 0 0 0)
  /\ Tma.timeRemaining (after os) = 0%Z
  /\ Tma.showModal (after os) = Tma.ModalResults
  /\ forall os', length os' < length os ->
       Tma.isQuizActive (after os') = true
       /\ Tma.quizResult (after os') = None.
Proof.
  intros HT Hs Hlen s0 after. subst s0 after. cbv beta.
  rewrite (step_start Q s Hs).
  set (W := Tma.startQuiz Q (Tma.world s)).
  assert (HW : Tma.isQuizActive (Tma.app W) = true) by reflexivity.
  split; [| split; [| split; [| split]]];
    try (destruct os as [|o os _] using rev_ind; [cbn in Hlen; lia |];
         rewrite length_app in Hlen; cbn [length] in Hlen;
         rewrite map_app; cbn [map];
         rewrite run_snoc, ticks_running by (done || lia);
         apply (step_tick_last Q W (Tma.app W) (Tma.timeouts s) o
                  (Tma.mkQuizState 0 0 0 ∅)); [lia | reflexivity]).
  intros os' Hlt. rewrite ticks_running by (done || lia). by split.
Qed.

Lemma timer_expiry_witness :
  let Q := Tma.QUIZ_DATA_20251008 in
  let s := Tma.mount Q true (Some "u1") ∅ [] in
  let os := repeat TxCommits 90 in
  (1 <= Tma.timeLimitSeconds Q)%Z
  /\ Tma.isQuizActive (Tma.app (Tma.world s)) = false
  /\ Z.of_nat (length os) = Tma.timeLimitSeconds Q
  /\ Tma.quizResult
       (Tma.app (Tma.world (Tma.run Q (Tma.step Q s Tma.EStart)
                              (map Tma.ETick os))))
     = Some (Tma.mkQuizResult 0 0 0 0).
Proof.
  cbv zeta.
  assert (H1 : (1 <= Tma.timeLimitSeconds Tma.QUIZ_DATA_20251008)%Z)
    by (cbn; lia).
  assert (H2 : Tma.isQuizActive
                 (Tma.app (Tma.world (Tma.mount Tma.QUIZ_DATA_20251008 true
                                        (Some "u1") ∅ []))) = false)
    by reflexivity.
  assert (H3 : Z.of_nat (length (repeat TxCommits 90))
               = Tma.timeLimitSeconds Tma.QUIZ_DATA_20251008)
    by reflexivity.
  split; [exact H1 | split; [exact H2 | split; [exact H3 |]]].
  exact (proj1 (proj2 (timer_expiry Tma.QUIZ_DATA_20251008 _ _ H1 H2 H3))).
Defined.

(** C5.  On the question set of the source file, with its time limit of
    90 seconds, a session that is started and gets only ticks is active
    without a result after 89 ticks, and at the 90th tick the timer ends
    it with a result of 0 answered, 0 correct and 0 points.  That the time
    ran out is not recorded: [endQuiz(true)] hands the flag to
    [calculateResults], which does not declare it, so [endQuiz] stores
    for [timedOut = true] exactly what it stores for [timedOut = false],
    in every state.  The web front end does record it: the result of
    [handleQuizFinish(true)] has [isTimeout = true]. *)
Theorem timer_expiry_loses_flag :
  let Q := Tma.QUIZ_DATA_20251008 in
  let s0 := Tma.step Q (Tma.mount Q true (Some "u1") ∅ []) Tma.EStart in
  let after n := Tma.app (Tma.world (Tma.run Q s0 (ticks n))) in
  Tma.timeLimitSeconds Q = 90%Z
  /\ Tma.isQuizActive (after 89) = true
  /\ Tma.quizResult (after 89) = None
  /\ Tma.isQuizActive (after 90) = false
  /\ Tma.quizResult (after 90) = Some (Tma.mkQuizResult 0 0 0 0)
  /\ Tma.showModal (after 90) = Tma.ModalResults
  /\ (forall r o w, Tma.endQuiz Q r true o w = Tma.endQuiz Q r false o w)
  /\ Web.isTimeout
       <$> Web.quizResults
             (Web.quiz (Web.app (state_of
                (Web.handleQuizFinish web_render true web_world))))
     = Some true.
Proof.
  cbv zeta.
  split; [reflexivity |].
  split; [by vm_compute |]. split; [by vm_compute |].
  split; [by vm_compute |]. split; [by vm_compute |].
  split; [by vm_compute |].
  split; [intros r o w; reflexivity | by vm_compute].
Qed.

(** ** Ending the quiz *)

(** C4, as stated, fails: [endQuiz] on the session ended by a first
    [endQuiz] changes the state; with 20 points earned and a stored score
    of 40, the score is 60 after the first call and 80 after the
    second. *)
Lemma endQuiz_again_counterexample :
  let Q := Tma.QUIZ_DATA_20251008 in
  let w1 := state_of (Tma.endQuiz Q render_mid true TxCommits world_mid) in
  let w2 := state_of (Tma.endQuiz Q render_mid false TxCommits w1) in
  finished w1
  /\ Tma.currentScore (Tma.profiles w1 !! "u1") = 60%Z
  /\ Tma.currentScore (Tma.profiles w2 !! "u1") = 80%Z
  /\ w2 <> w1.
Proof.
  cbv zeta.
  assert (H1 : Tma.currentScore
                 (Tma.profiles
                    (state_of (Tma.endQuiz Tma.QUIZ_DATA_20251008 render_mid
                                 true TxCommits world_mid)) !! "u1") = 60%Z)
    by (vm_compute; reflexivity).
  assert (H2 : Tma.currentScore
                 (Tma.profiles
                    (state_of
                       (Tma.endQuiz Tma.QUIZ_DATA_20251008 render_mid false
                          TxCommits
                          (state_of
                             (Tma.endQuiz Tma.QUIZ_DATA_20251008 render_mid
                                true TxCommits world_mid)))) !! "u1") = 80%Z)
    by (vm_compute; reflexivity).
  split; [split; [reflexivity | by eexists] |].
  split; [exact H1 | split; [exact H2 |]].
  intros Heq. rewrite Heq, H1 in H2. discriminate.
Qed.

(** C4, amended.  [endQuiz] has no guard: called on a session that is
    already over, it keeps the session inactive and the quiz state and the
    timer untouched, but it stores the result computed from the quiz state
    of its render, shows the results modal again, and for a signed-in user
    whose transaction commits it adds the points of that result to the
    stored score once more. *)
Theorem endQuiz_again Q r timedOut w st :
  Tma.quizState r = Some st ->
  finished w ->
  exists w',
    Tma.endQuiz Q r timedOut TxCommits w = Done w'
    /\ Tma.isQuizActive (Tma.app w') = false
    /\ Tma.quizState (Tma.app w') = Tma.quizState (Tma.app w)
    /\ Tma.timeRemaining (Tma.app w') = Tma.timeRemaining (Tma.app w)
    /\ Tma.quizResult (Tma.app w') = Some (Tma.calculateResults Q st)
    /\ Tma.showModal (Tma.app w') = Tma.ModalResults
    /\ forall uid, signedIn r uid ->
         Tma.currentScore (Tma.profiles w' !! uid)
         = (Tma.currentScore (Tma.profiles w !! uid)
            + Tma.pointsEarned (Tma.calculateResults Q st))%Z.
Proof.
  intros Hst _.
  pose proof (endQuiz_fields Q r timedOut TxCommits w) as Hf.
  rewrite (endQuiz_Some Q r timedOut TxCommits w st Hst) in *.
  eexists. split; [reflexivity |].
  cbn [state_of] in Hf. cbv zeta in Hf.
  destruct Hf as (H1 & H2 & H3 & _ & H5). rewrite Hst in H5.
  split; [exact H1 | split; [exact H2 | split; [exact H3 | split; [exact H5 |]]]].
  split.
  - reflexivity.
  - intros uid Hu. rewrite (signedIn_truthy r uid Hu).
    cbn [Tma.setShowModal Tma.onApp Tma.profiles].
    by rewrite (currentScore_updateUserScore r uid _ _ Hu).
Qed.

Lemma endQuiz_again_witness :
  let Q := Tma.QUIZ_DATA_20251008 in
  let w1 := state_of (Tma.endQuiz Q render_mid true TxCommits world_mid) in
  Tma.quizState render_mid = Some state_mid
  /\ finished w1
  /\ exists w',
       Tma.endQuiz Q render_mid false TxCommits w1 = Done w'
       /\ Tma.quizResult (Tma.app w') = Some (Tma.calculateResults Q state_mid).
Proof.
  cbv zeta.
  assert (H1 : Tma.quizState render_mid = Some state_mid) by reflexivity.
  assert (H2 : finished
                 (state_of (Tma.endQuiz Tma.QUIZ_DATA_20251008 render_mid true
                              TxCommits world_mid)))
    by (split; [reflexivity | by eexists]).
  split; [exact H1 | split; [exact H2 |]].
  destruct (endQuiz_again Tma.QUIZ_DATA_20251008 render_mid false _ state_mid
              H1 H2) as (w' & Hw' & _ & _ & _ & Hres & _).
  exists w'. split; [exact Hw' | exact Hres].
Defined.

(** The second call is within reach of a session.  Three right answers
    are given, and a fourth one in the last second, so that its callback is
    still waiting when the timer runs out.  The timer's [endQuiz] belongs
    to the render of the start and reports nothing answered; the late
    callback then calls the [endQuiz] of the render in which the last
    answer was given, which stores a new result (three answers, 30 points)
    and updates the score, while the quiz state holds four right
    answers. *)
Lemma late_timeout_finishes_again :
  let Q := Tma.QUIZ_DATA_20251008 in
  let s1 := Tma.run Q (Tma.mount Q true (Some "u1") ∅ []) last_second_answer in
  let s2 := Tma.step Q s1 (Tma.ETimeout TxCommits) in
  finished (Tma.world s1)
  /\ Tma.pointsEarned <$> Tma.quizResult (Tma.app (Tma.world s1)) = Some 0%Z
  /\ Tma.currentScore (Tma.profiles (Tma.world s1) !! "u1") = 0%Z
  /\ Tma.totalAnswered <$> Tma.quizResult (Tma.app (Tma.world s2)) = Some 3
  /\ Tma.pointsEarned <$> Tma.quizResult (Tma.app (Tma.world s2)) = Some 30%Z
  /\ Tma.currentScore (Tma.profiles (Tma.world s2) !! "u1") = 30%Z
  /\ Tma.correctAnswers <$> Tma.quizState (Tma.app (Tma.world s2)) = Some 4.
Proof.
  cbv zeta. split; [split; [by vm_compute | vm_compute; by eexists] |].
  repeat split; by vm_compute.
Qed.

(** At the end of a quiz the score update is the one above: for a
    signed-in user whose transaction commits, [endQuiz] leaves a profile
    whose [score] and [leagueScore] are both the old score plus the points
    of the result, with the placeholder rank. *)
Lemma endQuiz_updates_score Q r timedOut w st uid :
  Tma.quizState r = Some st ->
  signedIn r uid ->
  let total := (Tma.currentScore (Tma.profiles w !! uid)
                + Tma.pointsEarned (Tma.calculateResults Q st))%Z in
  Tma.profiles (state_of (Tma.endQuiz Q r timedOut TxCommits w)) !! uid
  = Some (Tma.Profile.mk (Some total) (Some total) (Some "#calculating")
            (Tma.profiles w !! uid ≫= Tma.Profile.totalPlayers)).
Proof.
  intros Hst Hu. cbv zeta.
  rewrite (endQuiz_Some Q r timedOut TxCommits w st Hst).
  rewrite (signedIn_truthy r uid Hu).
  cbn [state_of Tma.setShowModal Tma.onApp Tma.profiles].
  rewrite (updateUserScore_commits r uid _ _ Hu).
  by rewrite lookup_insert_eq.
Qed.

(** ** Answering *)

Lemma click_twice Q o1 o2 w :
  let w1 := fst (state_of (click Q o1 w)) in
  state_of (click Q o2 w1) = (w1, []).
Proof.
  cbv zeta. unfold click.
  destruct (handleAnswer_cases Q (Tma.app w) o1 w)
    as [H | (qs & q & Hqs & Hq & Hfresh & H)]; rewrite H.
  - cbn [fst state_of].
    (* the first click changed nothing: the second meets the same guard *)
    revert H. unfold Tma.handleAnswer.
    destruct (Tma.quizState (Tma.app w)) as [qs|]; [| done].
    destruct (Tma.questions Q !! Tma.currentQuestionIndex qs) as [q|]; [| done].
    destruct (Tma.questionStatus qs !! Tma.q_id q); [done |].
    cbn. intros Habs. discriminate Habs.
  - cbn [fst state_of]. unfold Tma.handleAnswer.
    cbn [Tma.app Tma.setQuizState Tma.onApp Tma.quizState].
    cbn [recorded Tma.currentQuestionIndex Tma.questionStatus].
    unfold recorded. cbn [Tma.currentQuestionIndex Tma.questionStatus].
    rewrite Hq, lookup_insert_eq. reflexivity.
Qed.

Lemma web_click_twice d1 d2 o1 o2 (w : Web.World) :
  let w1 := fst (state_of (web_click d1 o1 w)) in
  state_of (web_click d2 o2 w1) = (w1, []).
Proof.
  cbv zeta. unfold web_click, Web.onOptionClick.
  destruct (Web.quizFeedback (Web.quiz (Web.app w))) as [fb|] eqn:Hfb.
  - cbn [fst state_of]. by rewrite Hfb.
  - destruct (Web.MOCK_QUESTIONS
                !! Web.quizCurrentQuestion (Web.quiz (Web.app w)))
      as [q|] eqn:Hq; unfold Web.handleAnswer; rewrite Hq.
    + reflexivity.
    + cbn [fst state_of]. by rewrite Hfb, Hq.
Qed.

(** C3.  When the current question already has an entry in
    [questionStatus], [handleAnswer] with any option returns the state
    unchanged and registers no callback.  Hence a second click after a
    first one changes nothing, in the mini-app and (through the guard on
    [quizFeedback] of the option buttons) in the web front end. *)
Theorem second_answer_is_noop Q r selectedOption w qs q e
    o1 o2 w0 d1 d2 (ww : Web.World) :
  Tma.quizState r = Some qs ->
  Tma.questions Q !! Tma.currentQuestionIndex qs = Some q ->
  Tma.questionStatus qs !! Tma.q_id q = Some e ->
  Tma.handleAnswer Q r selectedOption w = Done (w, [])
  /\ (let w1 := fst (state_of (click Q o1 w0)) in
      state_of (click Q o2 w1) = (w1, []))
  /\ (let ww1 := fst (state_of (web_click d1 o1 ww)) in
      state_of (web_click d2 o2 ww1) = (ww1, [])).
Proof.
  intros Hqs Hq He. split; [| split].
  - unfold Tma.handleAnswer. by rewrite Hqs, Hq, He.
  - apply click_twice.
  - apply web_click_twice.
Qed.

Lemma second_answer_is_noop_witness :
  let Q := Tma.QUIZ_DATA_20251008 in
  let q := Tma.mkQuestion 3
             "What club holds the record for the most Champions League titles?"
             ["FC Barcelona"; "AC Milan"; "Real Madrid"; "Bayern Munich"]
             "Real Madrid" in
  let e := Tma.mkEntry Tma.correct "Real Madrid" "Real Madrid" in
  Tma.quizState render_wait = Some state_wait
  /\ Tma.questions Q !! Tma.currentQuestionIndex state_wait = Some q
  /\ Tma.questionStatus state_wait !! Tma.q_id q = Some e
  /\ Tma.handleAnswer Q render_wait "AC Milan" world_wait = Done (world_wait, []).
Proof.
  cbv zeta.
  assert (H1 : Tma.quizState render_wait = Some state_wait) by reflexivity.
  assert (H2 : Tma.questions Tma.QUIZ_DATA_20251008
                 !! Tma.currentQuestionIndex state_wait
               = Some (Tma.mkQuestion 3
                         "What club holds the record for the most Champions League titles?"
                         ["FC Barcelona"; "AC Milan"; "Real Madrid"; "Bayern Munich"]
                         "Real Madrid")) by reflexivity.
  assert (H3 : Tma.questionStatus state_wait !! 3%Z
               = Some (Tma.mkEntry Tma.correct "Real Madrid" "Real Madrid"))
    by (vm_compute; reflexivity).
  split; [exact H1 | split; [exact H2 | split; [exact H3 |]]].
  exact (proj1 (second_answer_is_noop Tma.QUIZ_DATA_20251008 render_wait
                  "AC Milan" world_wait state_wait _ _
                  "Real Madrid" "AC Milan" world_mid 0%Q 0%Q web_world
                  H1 H2 H3)).
Defined.

(** C2, as stated, fails in the web front end: with the same state and the
    same option, a draw of 1/2 gives feedback correct and a draw of 3/4
    gives wrong; and with a draw of 1/2 another option is correct as
    well. *)
Lemma answer_correctness_counterexample :
  let feedback draw o :=
    Web.fb_status
      <$> Web.quizFeedback
            (Web.quiz (Web.app (fst (state_of
               (Web.handleAnswer web_render draw o web_world))))) in
  feedback (1 # 2)%Q "A" = Some Web.fb_correct
  /\ feedback (3 # 4)%Q "A" = Some Web.fb_wrong
  /\ feedback (1 # 2)%Q "B" = Some Web.fb_correct
  /\ feedback (1 # 2)%Q "A" <> feedback (3 # 4)%Q "A".
Proof.
  cbv zeta.
  split; [by vm_compute | split; [by vm_compute | split; [by vm_compute |]]].
  by vm_compute.
Qed.

(** The literal [0.7] is the double 6305039478318694 / 2^53, which is
    below 7/10. *)
Lemma double_0_7_value :
  Js.double_0_7 = (6305039478318694 # 9007199254740992)%Q
  /\ (Js.double_0_7 < 7 # 10)%Q.
Proof. split; [by vm_compute | by vm_compute]. Qed.

Lemma below_0_7_spec draw :
  Web.below_0_7 draw = true <-> (draw < Js.double_0_7)%Q.
Proof.
  unfold Web.below_0_7. rewrite negb_true_iff.
  destruct (Qle_bool Js.double_0_7 draw) eqn:H.
  - apply Qle_bool_iff in H. split; [discriminate |].
    intros Hlt. exfalso. exact (Qlt_not_le _ _ Hlt H).
  - split; [intros _ | done]. apply Qnot_le_lt. intros Hle.
    apply Qle_bool_iff in Hle. congruence.
Qed.

(** A draw equal to the double [0.7] is not below it: the feedback is
    wrong there, although the draw is below 7/10. *)
Lemma draw_at_0_7 :
  let draw := (6305039478318694 # 9007199254740992)%Q in
  (draw < 7 # 10)%Q
  /\ Web.fb_status
       <$> Web.quizFeedback
             (Web.quiz (Web.app (fst (state_of
                (Web.handleAnswer web_render draw "A" web_world)))))
     = Some Web.fb_wrong.
Proof. cbv zeta. split; by vm_compute. Qed.

(** C2, amended.  In the mini-app, [handleAnswer] on a question that has no
    entry yet records the selected option, marked correct if and only if
    it equals the question's [correct] option; being a function of the
    state and the option, it records the same for the same input.  In the
    web front end the feedback is correct if and only if the random draw
    is below the double [0.7], whatever the option, and the stored answer
    holds only the question id and the option. *)
Theorem answer_correctness Q r selectedOption w qs q
    (wr : Web.App) draw optionLetter (ww : Web.World) mq :
  Tma.quizState r = Some qs ->
  Tma.questions Q !! Tma.currentQuestionIndex qs = Some q ->
  Tma.questionStatus qs !! Tma.q_id q = None ->
  Web.MOCK_QUESTIONS !! Web.quizCurrentQuestion (Web.quiz wr) = Some mq ->
  (exists w' st' e,
      Tma.handleAnswer Q r selectedOption w = Done (w', [r])
      /\ Tma.quizState (Tma.app w') = Some st'
      /\ Tma.questionStatus st' !! Tma.q_id q = Some e
      /\ Tma.selected e = selectedOption
      /\ Tma.correctAnswer e = Tma.q_correct q
      /\ (Tma.status e = Tma.correct <-> selectedOption = Tma.q_correct q))
  /\ (exists ww' fb,
        Web.handleAnswer wr draw optionLetter ww = Done (ww', [wr])
        /\ Web.quizFeedback (Web.quiz (Web.app ww')) = Some fb
        /\ (Web.fb_status fb = Web.fb_correct <-> (draw < Js.double_0_7)%Q)
        /\ Web.quizAnswers (Web.quiz (Web.app ww'))
           = (Web.quizAnswers (Web.quiz (Web.app ww))
              ++ [Web.mkAnswer (Web.questionId mq) optionLetter])%list).
Proof.
  intros Hqs Hq Hfresh Hmq. split.
  - unfold Tma.handleAnswer. rewrite Hqs, Hq, Hfresh.
    do 3 eexists. split; [reflexivity |].
    split; [reflexivity |]. cbn [Tma.questionStatus].
    split; [apply lookup_insert_eq |]. cbn.
    split; [done | split; [done |]].
    destruct (String.eqb_spec selectedOption (Tma.q_correct q));
      split; intros; congruence.
  - unfold Web.handleAnswer. rewrite Hmq.
    do 2 eexists. split; [reflexivity |].
    split; [reflexivity |]. split; [| reflexivity].
    cbn. rewrite <- below_0_7_spec.
    destruct (Web.below_0_7 draw); split; intros; congruence.
Qed.

Lemma answer_correctness_witness :
  let Q := Tma.QUIZ_DATA_20251008 in
  let q := Tma.mkQuestion 4
             "Who is the all-time top scorer for the English Premier League?"
             ["Alan Shearer"; "Wayne Rooney"; "Thierry Henry"; "Sergio Aguero"]
             "Alan Shearer" in
  let mq := Web.mkMockQuestion 1 ["Germany"; "Brazil"; "Argentina"; "France"] in
  Tma.quizState render_mid = Some state_mid
  /\ Tma.questions Q !! Tma.currentQuestionIndex state_mid = Some q
  /\ Tma.questionStatus state_mid !! Tma.q_id q = None
  /\ Web.MOCK_QUESTIONS !! Web.quizCurrentQuestion (Web.quiz web_render) = Some mq
  /\ exists w' st' e,
       Tma.handleAnswer Q render_mid "Wayne Rooney" world_mid = Done (w', [render_mid])
       /\ Tma.quizState (Tma.app w') = Some st'
       /\ Tma.questionStatus st' !! Tma.q_id q = Some e
       /\ Tma.selected e = "Wayne Rooney"
       /\ Tma.correctAnswer e = Tma.q_correct q
       /\ (Tma.status e = Tma.correct <-> "Wayne Rooney" = Tma.q_correct q).
Proof.
  cbv zeta.
  assert (H1 : Tma.quizState render_mid = Some state_mid) by reflexivity.
  assert (H2 : Tma.questions Tma.QUIZ_DATA_20251008
                 !! Tma.currentQuestionIndex state_mid
               = Some (Tma.mkQuestion 4
                         "Who is the all-time top scorer for the English Premier League?"
                         ["Alan Shearer"; "Wayne Rooney"; "Thierry Henry"; "Sergio Aguero"]
                         "Alan Shearer")) by reflexivity.
  assert (H3 : Tma.questionStatus state_mid !! 4%Z = None)
    by (vm_compute; reflexivity).
  assert (H4 : Web.MOCK_QUESTIONS !! Web.quizCurrentQuestion (Web.quiz web_render)
               = Some (Web.mkMockQuestion 1
                         ["Germany"; "Brazil"; "Argentina"; "France"]))
    by reflexivity.
  split; [exact H1 | split; [exact H2 | split; [exact H3 | split; [exact H4 |]]]].
  exact (proj1 (answer_correctness Tma.QUIZ_DATA_20251008 render_mid
                  "Wayne Rooney" world_mid state_mid _ web_render (1 # 2)%Q "A"
                  web_world _ H1 H2 H3 H4)).
Defined.

(** In the web front end the completion flag is only read: it keeps
    [handleStartQuiz] from starting the quiz again. *)
Lemma handleStartQuiz_completed r (w : Web.World) :
  Web.isQuizCompleted r = true -> Web.handleStartQuiz r w = Done w.
Proof. intros H. unfold Web.handleStartQuiz. by rewrite H. Qed.

(** ** The result *)


(** From 45 answers on, which no session holds, the double product
    [45 * 0.7] is below 31.5 and rounds to 31. *)
Lemma mock_result_45 :
  Js.round (Js.mul 45 Js.double_0_7) = 31%Z /\ Js.round (45 * (7 # 10)) = 32%Z.
Proof. split; by vm_compute. Qed.




(** The result is taken from the render of the callback, not from the
    current state: after four right answers the quiz state counts four,
    and the result stored by the callback of the last answer counts
    three. *)
Lemma last_answer_not_counted :
  let Q := Tma.QUIZ_DATA_20251008 in
  let s := Tma.run Q (Tma.mount Q true (Some "u1") ∅ []) four_right in
  Tma.isQuizActive (Tma.app (Tma.world s)) = false
  /\ Tma.correctAnswers <$> Tma.quizState (Tma.app (Tma.world s)) = Some 4
  /\ Tma.res_correctAnswers <$> Tma.quizResult (Tma.app (Tma.world s)) = Some 3
  /\ Tma.pointsEarned <$> Tma.quizResult (Tma.app (Tma.world s)) = Some 30%Z.
Proof. cbv zeta. repeat split; by vm_compute. Qed.

(** ** Leagues *)

(** C8, as stated, fails: two private leagues created from draws that
    agree on the six characters after ["0."] get the same code, and both
    are in the collection. *)
Lemma create_league_counterexample :
  let w1 := Tma.handleCreateLeague render_u1 "Weekend Warriors" "first" true
              "0.4fzyo82mvyr" 1000 1000 true world_u1 in
  let w2 := Tma.handleCreateLeague render_u1 "PL Fanatics" "second" true
              "0.4fzyo8k1x9a" 2000 2000 true w1 in
  map Tma.l_name (Tma.leagues w2) = ["Weekend Warriors"; "PL Fanatics"]
  /\ map Tma.l_isPrivate (Tma.leagues w2) = [true; true]
  /\ map Tma.l_code (Tma.leagues w2) = [Some "4FZYO8"; Some "4FZYO8"].
Proof. cbv zeta. repeat split. Qed.

(** C8, amended.  [handleCreateLeague] of a signed-in user whose [addDoc]
    is accepted appends exactly one league to the collection.  For a
    private league its code is the upper-cased characters 2 to 7 of the
    single random draw, for a public one there is none.  The leagues
    already there are kept and not looked at: the code is not compared
    with theirs, nothing is drawn again, and the handler has no failure
    for used-up codes. *)
Theorem create_league r uid name description isPrivate random36
    createdAt startDate w :
  signedIn r uid ->
  Tma.leagues (Tma.handleCreateLeague r name description isPrivate random36
                 createdAt startDate true w)
  = (Tma.leagues w
     ++ [Tma.mkLeague name description isPrivate uid
           (Tma.UserData.name (Tma.userData r)) createdAt 1 0
           (if isPrivate
            then Some (Js.toUpperCase (Js.substring 2 8 random36))
            else None)
           startDate])%list.
Proof.
  intros (Hdb & Hu & Hne). unfold Tma.handleCreateLeague. rewrite Hdb, Hu.
  destruct uid as [|c u]; [congruence | reflexivity].
Qed.

Lemma create_league_witness :
  signedIn render_u1 "u1"
  /\ Tma.leagues (Tma.handleCreateLeague render_u1 "Weekend Warriors" "first"
                    true "0.4fzyo82mvyr" 1000 1000 true world_u1)
     = [Tma.mkLeague "Weekend Warriors" "first" true "u1" "Anonymous Player"
          1000 1 0 (Some "4FZYO8") 1000].
Proof.
  assert (H : signedIn render_u1 "u1") by (repeat split; discriminate).
  split; [exact H |].
  exact (create_league render_u1 "u1" "Weekend Warriors" "first" true
           "0.4fzyo82mvyr" 1000 1000 world_u1 H).
Defined.

(** The two references of the league forms never exist together: when
    [collection] accepts the path of the leagues, [doc] throws on the path
    of the memberships with a league id, whatever the app id. *)
Lemma myLeagues_ref_throws appId uid id :
  Web.collection (Web.leaguesPath appId) <> None ->
  Web.doc (Web.myLeaguesPath appId uid) id = None.
Proof.
  unfold Web.collection, Web.doc, Web.leaguesPath, Web.myLeaguesPath.
  cbn [length]. rewrite !length_app. cbn [length].
  destruct (Nat.odd _) eqn:Ho; [intros _ | done].
  destruct (Nat.even _) eqn:He; [| done].
  apply Nat.odd_spec in Ho as [a Ha]. apply Nat.even_spec in He as [b Hb].
  lia.
Qed.

(** With an app id of one segment the reference to a membership has seven
    segments. *)
Lemma myLeagues_ref_default uid id :
  Web.collection (Web.leaguesPath web_appId)
  = Some ["artifacts"; "default-footy-iq-app-id"; "public"; "data"; "leagues"]
  /\ length (Web.myLeaguesPath web_appId uid ++ [id]) = 7
  /\ Web.doc (Web.myLeaguesPath web_appId uid) id = None.
Proof. by repeat split. Qed.

(** What every run of the join branch leaves as it is: the league
    documents, the membership documents and the local list. *)
Lemma join_frame appId r fetched committed (w : Web.World) :
  let res := Web.handleModalSubmit_join appId r fetched committed w in
  fst res <> Web.Joined
  /\ Web.db (snd res) = Web.db w
  /\ Web.leaguesCol (snd res) = Web.leaguesCol w
  /\ Web.myLeagues (snd res) = Web.myLeagues w
  /\ Web.leagues (Web.app (snd res)) = Web.leagues (Web.app w)
  /\ Web.isModalOpen (Web.app (snd res)) = Web.isModalOpen (Web.app w).
Proof.
  cbv zeta. unfold Web.handleModalSubmit_join.
  destruct (Web.db w) eqn:Hdb; [| by rewrite ?Hdb].
  destruct (Web.userId r) as [[|c u]|]; [by rewrite ?Hdb | | by rewrite ?Hdb].
  destruct (Web.code r); [by rewrite ?Hdb |].
  destruct (Web.collection (Web.leaguesPath appId)) eqn:Hc;
    [| by rewrite ?Hdb].
  destruct fetched; [| by rewrite ?Hdb].
  destruct (Web.whereCode _ _) as [|[leagueId leagueData] rest];
    [by rewrite ?Hdb |].
  rewrite (myLeagues_ref_throws appId (String c u) leagueId) by congruence.
  by destruct (Web.doc (Web.leaguesPath appId) leagueId); rewrite ?Hdb.
Qed.

(** C9, as stated, fails: when the user "u2", who has no membership, joins
    the league "L7" by its code, the member count of the league is 1 as
    before; and the join of "u1", who has a membership for that league,
    has the same outcome as the join of "u2". *)
Lemma join_league_counterexample :
  let res1 := Web.handleModalSubmit_join web_appId web_render true true
                web_world in
  let res2 := Web.handleModalSubmit_join web_appId web_render_u2 true true
                web_world in
  Web.myLeagues web_world !! ("u1", "L7") = Some (Web.mkMembership "L7" true 40)
  /\ Web.myLeagues web_world !! ("u2", "L7") = None
  /\ Web.whereCode (Js.toUpperCase (Web.code web_render_u2))
       (Web.leaguesCol web_world) = [("L7", web_league)]
  /\ Web.ld_memberCount web_league = Some 1%Z
  /\ Web.leaguesCol (snd res2) = [("L7", web_league)]
  /\ fst res1 = fst res2.
Proof. cbv zeta. repeat split; by vm_compute. Qed.

(** C9, amended.  The join branch of [handleModalSubmit] has no outcome
    for an existing membership: what it returns does not depend on the
    membership documents.  It never changes a league document, so the
    stored member count stays as it was, after the join of one user and
    after the joins of two.  [confirmJoinLeague] of the mini-app stores
    nothing. *)
Theorem join_league appId r fetched committed (w : Web.World)
    r2 fetched2 committed2 (tw : Tma.World) tl :
  let res1 := Web.handleModalSubmit_join appId r fetched committed w in
  let res2 := Web.handleModalSubmit_join appId r2 fetched2 committed2
                (snd res1) in
  (forall m,
     fst (Web.handleModalSubmit_join appId r fetched committed
            (Web.setMyLeagues (fun _ => m) w)) = fst res1)
  /\ Web.leaguesCol (snd res1) = Web.leaguesCol w
  /\ Web.leaguesCol (snd res2) = Web.leaguesCol w
  /\ (Tma.profiles (Tma.confirmJoinLeague tl tw) = Tma.profiles tw
      /\ Tma.leagues (Tma.confirmJoinLeague tl tw) = Tma.leagues tw).
Proof.
  intros res1 res2.
  destruct (join_frame appId r fetched committed w) as (_ & _ & H3 & _).
  destruct (join_frame appId r2 fetched2 committed2 (snd res1))
    as (_ & _ & K3 & _).
  fold res1 in H3, K3. fold res2 in K3.
  split; [| split; [exact H3 | split; [congruence | by split]]].
  intros m. subst res1. unfold Web.handleModalSubmit_join.
  cbn [Web.db Web.setMyLeagues Web.leaguesCol].
  destruct (Web.db w); [| done].
  destruct (Web.userId r) as [[|c u]|]; [done | | done].
  destruct (Web.code r); [done |].
  destruct (Web.collection (Web.leaguesPath appId)); [| done].
  destruct fetched; [| done].
  destruct (Web.whereCode _ _) as [|[leagueId leagueData] rest]; [done |].
  destruct (Web.doc (Web.leaguesPath appId) leagueId); [| done].
  destruct (Web.doc (Web.myLeaguesPath appId (String c u)) leagueId);
    [| done].
  by destruct committed.
Qed.

(** * Further properties of the session *)

(** ** What the handlers leave alone *)

Lemma handleAnswer_frame Q r selectedOption w :
  let w' := fst (state_of (Tma.handleAnswer Q r selectedOption w)) in
  Tma.isQuizActive (Tma.app w') = Tma.isQuizActive (Tma.app w)
  /\ Tma.timeRemaining (Tma.app w') = Tma.timeRemaining (Tma.app w)
  /\ Tma.quizResult (Tma.app w') = Tma.quizResult (Tma.app w)
  /\ Tma.profiles w' = Tma.profiles w
  /\ Tma.leagues w' = Tma.leagues w.
Proof.
  cbv zeta.
  destruct (handleAnswer_cases Q r selectedOption w)
    as [-> | (qs & q & _ & _ & _ & ->)]; by repeat split.
Qed.

(** The three ways of the delayed callback: nothing (its render holds no
    quiz state), a move of the index to a question, or the end of the
    quiz. *)
Lemma advance_cases Q r o w :
  Tma.advance Q r o w = Thrown w
  \/ (exists qs,
        Tma.quizState r = Some qs
        /\ Tma.currentQuestionIndex qs + 1 < length (Tma.questions Q)
        /\ Tma.advance Q r o w
           = Done (Tma.setQuizState
                     (fmap (fun prev =>
                              Tma.mkQuizState (Tma.currentQuestionIndex qs + 1)
                                (Tma.correctAnswers prev)
                                (Tma.answeredCount prev)
                                (Tma.questionStatus prev))) w))
  \/ (exists qs,
        Tma.quizState r = Some qs
        /\ length (Tma.questions Q) <= Tma.currentQuestionIndex qs + 1
        /\ Tma.advance Q r o w = Tma.endQuiz Q r false o w).
Proof.
  unfold Tma.advance. destruct (Tma.quizState r) as [qs|]; [| by left].
  right. destruct (Nat.ltb_spec (Tma.currentQuestionIndex qs + 1)
                     (length (Tma.questions Q))).
  - left. by exists qs.
  - right. by exists qs.
Qed.

Lemma endQuiz_store Q r timedOut o w :
  let w' := state_of (Tma.endQuiz Q r timedOut o w) in
  Tma.profiles w' = Tma.profiles w
  \/ (Tma.isQuizActive (Tma.app w') = false
      /\ is_Some (Tma.quizResult (Tma.app w'))).
Proof.
  cbv zeta. destruct (endQuiz_fields Q r timedOut o w) as (H1 & _ & _ & _ & H5).
  destruct (Tma.quizState r) as [st|] eqn:Hr.
  - right. split; [done | by rewrite H5].
  - left. unfold Tma.endQuiz. by rewrite Hr.
Qed.

(** ** The index *)

Lemma index_ok_step Q s e :
  Tma.questions Q <> [] ->
  index_ok Q (Tma.world s) -> index_ok Q (Tma.world (Tma.step Q s e)).
Proof.
  intros Hne (st & q & Hst & Hq). unfold Tma.step, Tma.timerEffect.
  set (s' := match e with Tma.EStart => _ | _ => _ end).
  assert (H : index_ok Q (Tma.world s')); [| by destruct (Bool.eqb _ _)].
  subst s'. destruct e as [|o|selectedOption|o].
  - destruct (Tma.questions Q) as [|q0 l] eqn:HQ; [done |].
    exists initialQuizState, q0. split; [done |]. by rewrite HQ.
  - destruct (Tma.interval s) as [r|]; [| by exists st, q].
    destruct (tick_fields Q r o (Tma.world s)) as (Hq' & _).
    exists st, q. cbn. by rewrite Hq'.
  - destruct (handleAnswer_cases Q (Tma.app (Tma.world s)) selectedOption
                (Tma.world s)) as [-> | (qs & q' & Hqs & _ & _ & ->)].
    + by exists st, q.
    + rewrite Hst in Hqs. injection Hqs as <-.
      eexists _, q. split; [reflexivity | exact Hq].
  - destruct (Tma.timeouts s) as [|r rest]; [by exists st, q |].
    destruct (advance_cases Q r o (Tma.world s))
      as [-> | [(qs & _ & Hlt & ->) | (qs & _ & _ & ->)]].
    + by exists st, q.
    + apply lookup_lt_is_Some_2 in Hlt as [q' Hq'].
      unfold index_ok. cbn. rewrite Hst.
      eexists _, q'. split; [reflexivity | exact Hq'].
    + destruct (endQuiz_fields Q r false o (Tma.world s)) as (_ & H2 & _).
      exists st, q. cbn [Tma.world]. by rewrite H2.
Qed.

Lemma index_ok_run Q es : forall s,
  Tma.questions Q <> [] ->
  index_ok Q (Tma.world s) -> index_ok Q (Tma.world (Tma.run Q s es)).
Proof.
  induction es as [|e es IH]; intros s Hne H; [done |].
  by apply IH, index_ok_step.
Qed.

(** X1.  For a quiz with at least one question, in every state reached
    from a click on Start Quiz the current index points at a question, so
    a click on an option never ends in a [TypeError]. *)
Theorem index_in_range Q s es selectedOption :
  Tma.questions Q <> [] ->
  let w := Tma.world (Tma.run Q (Tma.step Q s Tma.EStart) es) in
  index_ok Q w
  /\ exists res, click Q selectedOption w = Done res.
Proof.
  intros Hne w.
  assert (H : index_ok Q w).
  { apply index_ok_run; [done |]. unfold Tma.step, Tma.timerEffect.
    destruct (Tma.questions Q) as [|q0 l] eqn:HQ; [done |].
    destruct (Bool.eqb _ _); exists initialQuizState, q0;
      (split; [done | by rewrite HQ]). }
  split; [exact H |]. destruct H as (st & q & Hst & Hq).
  unfold click, Tma.handleAnswer. rewrite Hst, Hq.
  destruct (Tma.questionStatus st !! Tma.q_id q); eauto.
Qed.

Lemma index_in_range_witness :
  Tma.questions Tma.QUIZ_DATA_20251008 <> []
  /\ exists res,
       click Tma.QUIZ_DATA_20251008 "Alan Shearer"
         (Tma.world (Tma.run Tma.QUIZ_DATA_20251008
                       (Tma.step Tma.QUIZ_DATA_20251008
                          (Tma.mount Tma.QUIZ_DATA_20251008 true (Some "u1") ∅ [])
                          Tma.EStart)
                       four_right))
       = Done res.
Proof.
  assert (H : Tma.questions Tma.QUIZ_DATA_20251008 <> []) by discriminate.
  split; [exact H |].
  exact (proj2 (index_in_range Tma.QUIZ_DATA_20251008 _ four_right
                  "Alan Shearer" H)).
Defined.

(** ** Recorded answers *)

Lemma answers_persist_step Q s e i en st :
  e <> Tma.EStart ->
  Tma.quizState (Tma.app (Tma.world s)) = Some st ->
  Tma.questionStatus st !! i = Some en ->
  exists st',
    Tma.quizState (Tma.app (Tma.world (Tma.step Q s e))) = Some st'
    /\ Tma.questionStatus st' !! i = Some en.
Proof.
  intros He Hst Hi. unfold Tma.step, Tma.timerEffect.
  set (s' := match e with Tma.EStart => _ | _ => _ end).
  assert (H : exists st',
             Tma.quizState (Tma.app (Tma.world s')) = Some st'
             /\ Tma.questionStatus st' !! i = Some en);
    [| by destruct (Bool.eqb _ _)].
  subst s'. destruct e as [|o|selectedOption|o]; [done | | |].
  - destruct (Tma.interval s) as [r|]; [| eauto].
    destruct (tick_fields Q r o (Tma.world s)) as (Hq' & _).
    cbn. rewrite Hq'. eauto.
  - destruct (handleAnswer_cases Q (Tma.app (Tma.world s)) selectedOption
                (Tma.world s)) as [-> | (qs & q & Hqs & _ & Hfresh & ->)];
      [eauto |].
    rewrite Hst in Hqs. injection Hqs as <-.
    eexists. split; [reflexivity |]. cbn.
    rewrite lookup_insert_ne; [done | congruence].
  - destruct (Tma.timeouts s) as [|r rest]; [eauto |].
    destruct (advance_cases Q r o (Tma.world s))
      as [-> | [(qs & _ & _ & ->) | (qs & _ & _ & ->)]]; [eauto | |].
    + cbn. rewrite Hst. eauto.
    + destruct (endQuiz_fields Q r false o (Tma.world s)) as (_ & H2 & _).
      cbn. rewrite H2. eauto.
Qed.

(** X2.  An answer, once recorded, stays as it is: as long as the quiz is
    not started again, no tick, click or delayed callback changes or
    removes an entry of [questionStatus]. *)
Theorem answers_persist Q es : forall s i en st,
  Forall (fun e => e <> Tma.EStart) es ->
  Tma.quizState (Tma.app (Tma.world s)) = Some st ->
  Tma.questionStatus st !! i = Some en ->
  exists st',
    Tma.quizState (Tma.app (Tma.world (Tma.run Q s es))) = Some st'
    /\ Tma.questionStatus st' !! i = Some en.
Proof.
  induction es as [|e es IH]; intros s i en st Hes Hst Hi; [eauto |].
  apply Forall_cons in Hes as (He & Hes).
  destruct (answers_persist_step Q s e i en st He Hst Hi) as (st1 & H1 & H2).
  exact (IH _ i en st1 Hes H1 H2).
Qed.

Lemma answers_persist_witness :
  let Q := Tma.QUIZ_DATA_20251008 in
  let s := Tma.run Q (Tma.mount Q true (Some "u1") ∅ []) three_right in
  let es := (ticks 3 ++ [Tma.EAnswer "Alan Shearer"; Tma.ETimeout TxCommits])%list in
  let en := Tma.mkEntry Tma.correct "Germany" "Germany" in
  Forall (fun e => e <> Tma.EStart) es
  /\ Tma.quizState (Tma.app (Tma.world s)) = Some state_three_right
  /\ Tma.questionStatus state_three_right !! 2%Z = Some en
  /\ exists st',
       Tma.quizState (Tma.app (Tma.world (Tma.run Q s es))) = Some st'
       /\ Tma.questionStatus st' !! 2%Z = Some en.
Proof.
  cbv zeta.
  assert (H1 : Forall (fun e => e <> Tma.EStart)
                 (ticks 3 ++ [Tma.EAnswer "Alan Shearer"; Tma.ETimeout TxCommits]))
    by (repeat constructor; discriminate).
  assert (H2 : Tma.quizState
                 (Tma.app (Tma.world
                    (Tma.run Tma.QUIZ_DATA_20251008
                       (Tma.mount Tma.QUIZ_DATA_20251008 true (Some "u1") ∅ [])
                       three_right)))
               = Some state_three_right) by (vm_compute; reflexivity).
  assert (H3 : Tma.questionStatus state_three_right !! 2%Z
               = Some (Tma.mkEntry Tma.correct "Germany" "Germany"))
    by (vm_compute; reflexivity).
  split; [exact H1 | split; [exact H2 | split; [exact H3 |]]].
  exact (answers_persist Tma.QUIZ_DATA_20251008 _ _ 2%Z _ state_three_right
           H1 H2 H3).
Defined.

(** ** The timer and its render *)

Lemma tick_active Q r o w :
  Tma.isQuizActive (Tma.app (state_of (Tma.tick Q r o w)))
  = if (Tma.timeRemaining (Tma.app w) <=? 1)%Z then false
    else Tma.isQuizActive (Tma.app w).
Proof.
  unfold Tma.tick. destruct (_ <=? _)%Z; [| reflexivity].
  destruct (endQuiz_fields Q r true o w) as (H1 & _).
  by destruct (Tma.endQuiz Q r true o w).
Qed.

Lemma advance_active Q r o w :
  Tma.isQuizActive (Tma.app (state_of (Tma.advance Q r o w))) = false
  \/ Tma.isQuizActive (Tma.app (state_of (Tma.advance Q r o w)))
     = Tma.isQuizActive (Tma.app w).
Proof.
  destruct (advance_cases Q r o w)
    as [-> | [(qs & _ & _ & ->) | (qs & _ & _ & ->)]]; [by right | by right |].
  left. apply (endQuiz_fields Q r false o w).
Qed.

(** The timer effect keeps the invariant when the raw result of the event
    does, or when a session that has just become active holds the quiz
    state of the start. *)
Lemma timer_ok_effect before s' :
  (if Bool.eqb before (Tma.isQuizActive (Tma.app (Tma.world s')))
   then timer_ok s'
   else Tma.isQuizActive (Tma.app (Tma.world s')) = true ->
        Tma.quizState (Tma.app (Tma.world s')) = Some initialQuizState) ->
  timer_ok (Tma.timerEffect before s').
Proof.
  unfold Tma.timerEffect. destruct (Bool.eqb _ _); [done |].
  unfold timer_ok. cbn.
  destruct (Tma.isQuizActive (Tma.app (Tma.world s'))); auto.
Qed.

Lemma timer_ok_inactive s :
  timer_ok s -> Tma.isQuizActive (Tma.app (Tma.world s)) = false ->
  Tma.interval s = None.
Proof.
  unfold timer_ok. destruct (Tma.interval s); [| done].
  intros (Ha & _) Hf. congruence.
Qed.

Lemma timer_ok_step Q s e : timer_ok s -> timer_ok (Tma.step Q s e).
Proof.
  intros H. unfold Tma.step. apply timer_ok_effect.
  destruct e as [|o|selectedOption|o].
  - (* EStart *)
    cbn [Tma.world].
    destruct (Tma.isQuizActive (Tma.app (Tma.world s))) eqn:Ha; cbn; [| done].
    unfold timer_ok in *. cbn.
    destruct (Tma.interval s); [by destruct H | congruence].
  - (* ETick *)
    destruct (Tma.interval s) as [r|] eqn:Hi;
      [| by rewrite Bool.eqb_reflx].
    pose proof H as H'. unfold timer_ok in H'. rewrite Hi in H'.
    destruct H' as (Ha & Hr).
    cbn [Tma.world]. rewrite tick_active, Ha.
    destruct (Tma.timeRemaining (Tma.app (Tma.world s)) <=? 1)%Z eqn:Ht;
      cbn [Bool.eqb]; [done |].
    unfold timer_ok. cbn [Tma.interval Tma.world].
    by rewrite tick_active, Ht.
  - (* EAnswer *)
    destruct (handleAnswer_frame Q (Tma.app (Tma.world s)) selectedOption
                (Tma.world s)) as (Ha & _).
    cbn [Tma.world]. rewrite Ha, Bool.eqb_reflx.
    unfold timer_ok in *. cbn [Tma.interval Tma.world]. by rewrite Ha.
  - (* ETimeout *)
    destruct (Tma.timeouts s) as [|r' rest];
      [by rewrite Bool.eqb_reflx |].
    cbn [Tma.world].
    destruct (advance_active Q r' o (Tma.world s)) as [Hf | He]; rewrite ?He.
    + rewrite Hf.
      destruct (Tma.isQuizActive (Tma.app (Tma.world s))) eqn:Ha;
        cbn [Bool.eqb]; [done |].
      unfold timer_ok. cbn [Tma.interval Tma.world].
      by rewrite (timer_ok_inactive s H Ha).
    + rewrite Bool.eqb_reflx.
      unfold timer_ok in *. cbn [Tma.interval Tma.world]. by rewrite He.
Qed.

Lemma timer_ok_run Q es : forall s, timer_ok s -> timer_ok (Tma.run Q s es).
Proof.
  induction es as [|e es IH]; intros s H; [done |].
  apply IH, timer_ok_step, H.
Qed.

Lemma timer_ok_mount Q hasDb uid ps ls : timer_ok (Tma.mount Q hasDb uid ps ls).
Proof. reflexivity. Qed.

(** X3.  In every state reached from the mount, the interval runs if and
    only if the quiz is active: no tick reaches a session that is over,
    and no active session is without its timer. *)
Theorem timer_runs_iff_active Q hasDb uid ps ls es :
  let s := Tma.run Q (Tma.mount Q hasDb uid ps ls) es in
  is_Some (Tma.interval s) <-> Tma.isQuizActive (Tma.app (Tma.world s)) = true.
Proof.
  cbv zeta.
  pose proof (timer_ok_run Q es _ (timer_ok_mount Q hasDb uid ps ls)) as H.
  unfold timer_ok in H.
  destruct (Tma.interval _) as [r|].
  - destruct H as (Ha & _). split; [done | by eexists].
  - rewrite H. split; [by intros [? ?] | done].
Qed.

Lemma updateUserScore_zero r o w u :
  Tma.currentScore (Tma.profiles (Tma.updateUserScore r 0 o w) !! u)
  = Tma.currentScore (Tma.profiles w !! u).
Proof.
  unfold Tma.updateUserScore.
  destruct (Tma.db r); [| done].
  destruct (Tma.userId r) as [[|c v]|]; [done | | done].
  destruct o; [done | done |].
  cbn [Tma.profiles Tma.setProfiles Tma.setUserData Tma.onApp].
  destruct (decide (String c v = u)) as [<-|Hne].
  - rewrite lookup_insert_eq. cbn. lia.
  - by rewrite lookup_insert_ne.
Qed.

Lemma endQuiz_zero_points Q r timedOut o w st u :
  Tma.quizState r = Some st ->
  Tma.pointsEarned (Tma.calculateResults Q st) = 0%Z ->
  Tma.currentScore (Tma.profiles (state_of (Tma.endQuiz Q r timedOut o w)) !! u)
  = Tma.currentScore (Tma.profiles w !! u).
Proof.
  intros Hst Hp. rewrite (endQuiz_Some Q r timedOut o w st Hst), Hp.
  cbn [state_of]. cbv zeta.
  destruct (Tma.db r && Js.truthy (Tma.userId r)); [| done].
  cbn [Tma.setShowModal Tma.onApp Tma.profiles].
  by rewrite updateUserScore_zero.
Qed.

(** X4.  When the timer ends the quiz, the result does not see the answers:
    in every state reached from the mount in which the quiz is active with
    at most one second left, the next tick ends the session and stores the
    result with [totalAnswered = 0], [correctAnswers = 0] and
    [pointsEarned = 0], whatever [questionStatus] holds, and no stored
    score changes. *)
Theorem timer_result_is_empty Q hasDb uid ps ls es o :
  let s := Tma.run Q (Tma.mount Q hasDb uid ps ls) es in
  let s' := Tma.step Q s (Tma.ETick o) in
  Tma.isQuizActive (Tma.app (Tma.world s)) = true ->
  (Tma.timeRemaining (Tma.app (Tma.world s)) <= 1)%Z ->
  Tma.isQuizActive (Tma.app (Tma.world s')) = false
  /\ Tma.quizResult (Tma.app (Tma.world s')) = Some (Tma.mkQuizResult 0 0 0 0)
  /\ Tma.quizState (Tma.app (Tma.world s')) = Tma.quizState (Tma.app (Tma.world s))
  /\ forall u, Tma.currentScore (Tma.profiles (Tma.world s') !! u)
               = Tma.currentScore (Tma.profiles (Tma.world s) !! u).
Proof.
  cbv zeta. set (s := Tma.run Q _ es). intros Ha Ht.
  pose proof (timer_ok_run Q es _ (timer_ok_mount Q hasDb uid ps ls)) as H.
  fold s in H. unfold timer_ok in H.
  destruct (Tma.interval s) as [r|] eqn:Hi; [| congruence].
  destruct H as (_ & Hr).
  assert (Hw : Tma.world (Tma.step Q s (Tma.ETick o))
               = state_of (Tma.tick Q r o (Tma.world s))).
  { unfold Tma.step, Tma.timerEffect. rewrite Hi.
    by destruct (Bool.eqb _ _). }
  rewrite Hw. unfold Tma.tick.
  destruct (Z.leb_spec (Tma.timeRemaining (Tma.app (Tma.world s))) 1) as [_|?];
    [| lia].
  destruct (endQuiz_fields Q r true o (Tma.world s)) as (H1 & H2 & _ & _ & H5).
  pose proof (fun u => endQuiz_zero_points Q r true o (Tma.world s) _ u Hr eq_refl)
    as H6.
  rewrite Hr in H5.
  rewrite (endQuiz_Some Q r true o _ _ Hr) in *.
  cbn [state_of] in *.
  split; [exact H1 | split; [exact H5 | split; [exact H2 | exact H6]]].
Qed.

Lemma timer_result_is_empty_witness :
  let Q := Tma.QUIZ_DATA_20251008 in
  let s := Tma.run Q (Tma.mount Q true (Some "u1") ∅ []) one_second_left in
  let s' := Tma.step Q s (Tma.ETick TxCommits) in
  Tma.isQuizActive (Tma.app (Tma.world s)) = true
  /\ (Tma.timeRemaining (Tma.app (Tma.world s)) <= 1)%Z
  /\ Tma.answeredCount <$> Tma.quizState (Tma.app (Tma.world s)) = Some 3
  /\ Tma.quizResult (Tma.app (Tma.world s')) = Some (Tma.mkQuizResult 0 0 0 0).
Proof.
  cbv zeta.
  assert (H1 : Tma.isQuizActive
                 (Tma.app (Tma.world
                    (Tma.run Tma.QUIZ_DATA_20251008
                       (Tma.mount Tma.QUIZ_DATA_20251008 true (Some "u1") ∅ [])
                       one_second_left))) = true) by (vm_compute; reflexivity).
  assert (H2 : (Tma.timeRemaining
                  (Tma.app (Tma.world
                     (Tma.run Tma.QUIZ_DATA_20251008
                        (Tma.mount Tma.QUIZ_DATA_20251008 true (Some "u1") ∅ [])
                        one_second_left))) <= 1)%Z)
    by (vm_compute; discriminate).
  split; [exact H1 | split; [exact H2 | split; [by vm_compute |]]].
  exact (proj1 (proj2 (timer_result_is_empty Tma.QUIZ_DATA_20251008 true
                         (Some "u1") ∅ [] one_second_left TxCommits H1 H2))).
Defined.

(** ** The callback of the last answer *)

(** X5.  The answer to the last question is not in the result.  When
    [handleAnswer] records an answer and no question follows, the callback
    it registers ends the quiz with the result of the quiz state its render
    holds, in which that answer is missing: [totalAnswered] is one less
    than the [answeredCount] that [handleAnswer] has just stored. *)
Theorem last_answer_dropped Q r selectedOption w qs q o w' :
  Tma.quizState r = Some qs ->
  Tma.questions Q !! Tma.currentQuestionIndex qs = Some q ->
  Tma.questionStatus qs !! Tma.q_id q = None ->
  length (Tma.questions Q) <= Tma.currentQuestionIndex qs + 1 ->
  Tma.handleAnswer Q r selectedOption w
  = Done (Tma.setQuizState (fun _ => Some (recorded qs q selectedOption)) w, [r])
  /\ Tma.quizResult (Tma.app (state_of (Tma.advance Q r o w')))
     = Some (Tma.calculateResults Q qs)
  /\ Tma.totalAnswered (Tma.calculateResults Q qs) + 1
     = Tma.answeredCount (recorded qs q selectedOption).
Proof.
  intros Hqs Hq Hfresh Hlast. split; [| split].
  - unfold Tma.handleAnswer. by rewrite Hqs, Hq, Hfresh.
  - destruct (advance_cases Q r o w')
      as [H | [(qs' & Hqs' & Hlt & _) | (qs' & Hqs' & _ & ->)]].
    + unfold Tma.advance in H. rewrite Hqs in H.
      destruct (_ <? _)%nat; [discriminate |].
      by rewrite (endQuiz_Some Q r false o w' qs Hqs) in H.
    + rewrite Hqs in Hqs'. injection Hqs' as <-. lia.
    + destruct (endQuiz_fields Q r false o w') as (_ & _ & _ & _ & H5).
      by rewrite Hqs in H5.
  - reflexivity.
Qed.

Lemma last_answer_dropped_witness :
  let Q := Tma.QUIZ_DATA_20251008 in
  let q := Tma.mkQuestion 4
             "Who is the all-time top scorer for the English Premier League?"
             ["Alan Shearer"; "Wayne Rooney"; "Thierry Henry"; "Sergio Aguero"]
             "Alan Shearer" in
  Tma.quizState render_mid = Some state_mid
  /\ Tma.questions Q !! Tma.currentQuestionIndex state_mid = Some q
  /\ Tma.questionStatus state_mid !! Tma.q_id q = None
  /\ length (Tma.questions Q) <= Tma.currentQuestionIndex state_mid + 1
  /\ Tma.totalAnswered <$>
       Tma.quizResult (Tma.app (state_of (Tma.advance Q render_mid TxCommits
                                            world_mid)))
     = Some 3.
Proof.
  cbv zeta.
  assert (H1 : Tma.quizState render_mid = Some state_mid) by reflexivity.
  assert (H2 : Tma.questions Tma.QUIZ_DATA_20251008
                 !! Tma.currentQuestionIndex state_mid
               = Some (Tma.mkQuestion 4
                         "Who is the all-time top scorer for the English Premier League?"
                         ["Alan Shearer"; "Wayne Rooney"; "Thierry Henry"; "Sergio Aguero"]
                         "Alan Shearer")) by reflexivity.
  assert (H3 : Tma.questionStatus state_mid !! 4%Z = None)
    by (vm_compute; reflexivity).
  assert (H4 : length (Tma.questions Tma.QUIZ_DATA_20251008)
               <= Tma.currentQuestionIndex state_mid + 1) by (cbn; lia).
  split; [exact H1 | split; [exact H2 | split; [exact H3 | split; [exact H4 |]]]].
  rewrite (proj1 (proj2 (last_answer_dropped Tma.QUIZ_DATA_20251008 render_mid
                           "Alan Shearer" world_mid state_mid _ TxCommits
                           world_mid H1 H2 H3 H4))).
  reflexivity.
Defined.

(** ** The store during a session *)

(** X6.  A step of the session changes the stored profiles only when it
    ends the quiz, and never the leagues: a session that is abandoned
    before its end leaves the store as it was. *)
Theorem store_changes_only_at_finish Q s e :
  let s' := Tma.step Q s e in
  Tma.leagues (Tma.world s') = Tma.leagues (Tma.world s)
  /\ (Tma.profiles (Tma.world s') = Tma.profiles (Tma.world s)
      \/ finished (Tma.world s')).
Proof.
  cbv zeta. unfold Tma.step, Tma.timerEffect.
  set (s' := match e with Tma.EStart => _ | _ => _ end).
  assert (H : Tma.leagues (Tma.world s') = Tma.leagues (Tma.world s)
              /\ (Tma.profiles (Tma.world s') = Tma.profiles (Tma.world s)
                  \/ finished (Tma.world s')));
    [| by destruct (Bool.eqb _ _)].
  subst s'. destruct e as [|o|selectedOption|o].
  - split; [done | by left].
  - destruct (Tma.interval s) as [r|]; [| split; [done | by left]].
    cbn [Tma.world]. unfold Tma.tick.
    destruct (_ <=? _)%Z; [| split; [done | by left]].
    destruct (endQuiz_fields Q r true o (Tma.world s)) as (_ & _ & _ & H4 & _).
    destruct (endQuiz_store Q r true o (Tma.world s)) as [Hp | Hf].
    + by destruct (Tma.endQuiz Q r true o (Tma.world s)); split; try left.
    + by destruct (Tma.endQuiz Q r true o (Tma.world s)); split; try right.
  - destruct (handleAnswer_frame Q (Tma.app (Tma.world s)) selectedOption
                (Tma.world s)) as (_ & _ & _ & Hp & Hl).
    split; [done | by left].
  - destruct (Tma.timeouts s) as [|r rest]; [split; [done | by left] |].
    cbn [Tma.world].
    destruct (advance_cases Q r o (Tma.world s))
      as [-> | [(qs & _ & _ & ->) | (qs & _ & _ & ->)]].
    + split; [done | by left].
    + split; [done | by left].
    + destruct (endQuiz_fields Q r false o (Tma.world s))
        as (_ & _ & _ & H4 & _).
      split; [done |]. apply endQuiz_store.
Qed.

(** ** The time *)

Lemma handleAnswer_keeps_world_parts Q r selectedOption w :
  Tma.timeRemaining (Tma.app (fst (state_of (Tma.handleAnswer Q r selectedOption w))))
  = Tma.timeRemaining (Tma.app w).
Proof. apply handleAnswer_frame. Qed.

Lemma time_step Q s e :
  (0 <= Tma.timeLimitSeconds Q)%Z ->
  (0 <= Tma.timeRemaining (Tma.app (Tma.world s)) <= Tma.timeLimitSeconds Q)%Z ->
  (0 <= Tma.timeRemaining (Tma.app (Tma.world (Tma.step Q s e)))
   <= Tma.timeLimitSeconds Q)%Z.
Proof.
  intros HT H. unfold Tma.step, Tma.timerEffect.
  set (s' := match e with Tma.EStart => _ | _ => _ end).
  assert (H' : (0 <= Tma.timeRemaining (Tma.app (Tma.world s'))
                <= Tma.timeLimitSeconds Q)%Z);
    [| by destruct (Bool.eqb _ _)].
  subst s'. destruct e as [|o|selectedOption|o].
  - cbn. lia.
  - destruct (Tma.interval s) as [r|]; [| done].
    cbn [Tma.world]. unfold Tma.tick.
    destruct (Z.leb_spec (Tma.timeRemaining (Tma.app (Tma.world s))) 1).
    + destruct (endQuiz_fields Q r true o (Tma.world s)) as (_ & _ & H3 & _).
      destruct (Tma.endQuiz Q r true o (Tma.world s)); cbn in *; lia.
    + cbn. lia.
  - cbn [Tma.world]. by rewrite handleAnswer_keeps_world_parts.
  - destruct (Tma.timeouts s) as [|r rest]; [done |].
    cbn [Tma.world].
    destruct (advance_cases Q r o (Tma.world s))
      as [-> | [(qs & _ & _ & ->) | (qs & _ & _ & ->)]]; [done | done |].
    destruct (endQuiz_fields Q r false o (Tma.world s)) as (_ & _ & H3 & _).
    by rewrite H3.
Qed.

Lemma time_run Q es : forall s,
  (0 <= Tma.timeLimitSeconds Q)%Z ->
  (0 <= Tma.timeRemaining (Tma.app (Tma.world s)) <= Tma.timeLimitSeconds Q)%Z ->
  (0 <= Tma.timeRemaining (Tma.app (Tma.world (Tma.run Q s es)))
   <= Tma.timeLimitSeconds Q)%Z.
Proof.
  induction es as [|e es IH]; intros s HT H; [done |].
  by apply IH, time_step.
Qed.

(** X7.  For a time limit [T >= 0], the remaining time stays between 0 and
    [T] in every state reached from the mount; a tick in an active session
    takes one second off, and never goes below 0. *)
Theorem time_in_bounds Q hasDb uid ps ls es :
  (0 <= Tma.timeLimitSeconds Q)%Z ->
  let s := Tma.run Q (Tma.mount Q hasDb uid ps ls) es in
  (0 <= Tma.timeRemaining (Tma.app (Tma.world s)) <= Tma.timeLimitSeconds Q)%Z
  /\ forall o,
       Tma.isQuizActive (Tma.app (Tma.world s)) = true ->
       Tma.timeRemaining (Tma.app (Tma.world (Tma.step Q s (Tma.ETick o))))
       = Z.max 0 (Tma.timeRemaining (Tma.app (Tma.world s)) - 1).
Proof.
  intros HT s.
  assert (Hb : (0 <= Tma.timeRemaining (Tma.app (Tma.world s))
                <= Tma.timeLimitSeconds Q)%Z)
    by (apply time_run; [done | cbn; lia]).
  split; [exact Hb |].
  intros o Ha.
  pose proof (timer_ok_run Q es _ (timer_ok_mount Q hasDb uid ps ls)) as H.
  fold s in H. unfold timer_ok in H.
  destruct (Tma.interval s) as [r|] eqn:Hi; [| congruence].
  destruct H as (_ & Hr).
  assert (Hw : Tma.world (Tma.step Q s (Tma.ETick o))
               = state_of (Tma.tick Q r o (Tma.world s))).
  { unfold Tma.step, Tma.timerEffect. rewrite Hi.
    by destruct (Bool.eqb _ _). }
  rewrite Hw. unfold Tma.tick.
  destruct (Z.leb_spec (Tma.timeRemaining (Tma.app (Tma.world s))) 1).
  - rewrite (endQuiz_Some Q r true o _ _ Hr). cbn. lia.
  - cbn. lia.
Qed.

Lemma time_in_bounds_witness :
  let Q := Tma.QUIZ_DATA_20251008 in
  let s := Tma.run Q (Tma.mount Q true (Some "u1") ∅ []) three_right in
  (0 <= Tma.timeLimitSeconds Q)%Z
  /\ (0 <= Tma.timeRemaining (Tma.app (Tma.world s)) <= Tma.timeLimitSeconds Q)%Z.
Proof.
  cbv zeta.
  assert (H : (0 <= Tma.timeLimitSeconds Tma.QUIZ_DATA_20251008)%Z)
    by (cbn; lia).
  split; [exact H |].
  exact (proj1 (time_in_bounds Tma.QUIZ_DATA_20251008 true (Some "u1") ∅ []
                  three_right H)).
Defined.

(** * Further properties of the score *)

(** X8.  The snapshot that follows a committed score update confirms what
    the optimistic update shows.  When the transaction of
    [updateUserScore] has committed and the listener is run on the stored
    profile, the name, the score, the league score and the rank of
    [userData] are as [updateUserScore] set them, the score being the
    stored score plus the points, and the store is as it was; of
    [userData] only [totalPlayers] is replaced, by the stored value or
    by ['...'] when there is none. *)
Theorem listener_settles_score r uid p accepted w :
  signedIn r uid ->
  let w1 := Tma.updateUserScore r p TxCommits w in
  let w2 := Tma.onProfileSnapshot uid accepted w1 in
  let u1 := Tma.userData (Tma.app w1) in
  let u2 := Tma.userData (Tma.app w2) in
  Tma.UserData.score u2 = (Tma.currentScore (Tma.profiles w !! uid) + p)%Z
  /\ Tma.UserData.score u2 = Tma.UserData.score u1
  /\ Tma.UserData.leagueScore u2 = Tma.UserData.leagueScore u1
  /\ Tma.UserData.globalRank u2 = Tma.UserData.globalRank u1
  /\ Tma.UserData.name u2 = Tma.UserData.name u1
  /\ Tma.UserData.totalPlayers u2
     = match Tma.profiles w !! uid ≫= Tma.Profile.totalPlayers with
       | Some (String c s) => String c s
       | _ => "..."
       end
  /\ Tma.profiles w2 = Tma.profiles w1.
Proof.
  intros Hin w1 w2 u1 u2. subst u1 u2 w2 w1.
  pose proof Hin as (Hdb & Hu & Hne).
  destruct uid as [|c u]; [congruence |].
  unfold Tma.onProfileSnapshot.
  rewrite (updateUserScore_commits r _ p w Hin), lookup_insert_eq.
  unfold Tma.updateUserScore. rewrite Hdb, Hu.
  cbn. by repeat split.
Qed.

Lemma listener_settles_score_witness :
  let stored :=
    {[ "u1" := Tma.Profile.mk (Some 40%Z) (Some 7%Z) (Some "#12") None ]} in
  let w := Tma.mkWorld render_u1 stored [] in
  let u2 := Tma.userData
              (Tma.app (Tma.onProfileSnapshot "u1" true
                          (Tma.updateUserScore render_u1 10 TxCommits w))) in
  signedIn render_u1 "u1"
  /\ Tma.UserData.score u2 = 50%Z
  /\ Tma.UserData.leagueScore u2 = 50%Z
  /\ Tma.UserData.globalRank u2 = "#calculating"
  /\ Tma.UserData.totalPlayers u2 = "...".
Proof.
  cbv zeta.
  assert (H : signedIn render_u1 "u1") by (repeat split; discriminate).
  destruct (listener_settles_score render_u1 "u1" 10 true
              (Tma.mkWorld render_u1
                 {[ "u1" := Tma.Profile.mk (Some 40%Z) (Some 7%Z) (Some "#12")
                                           None ]} []) H)
    as (K1 & _ & _ & _ & _ & K6 & _).
  split; [exact H |].
  split; [rewrite K1; by vm_compute |].
  split; [by vm_compute | split; [by vm_compute |]].
  rewrite K6. by vm_compute.
Defined.

(** X9.  The quiz ends whether or not the score is saved: when the
    transaction of [endQuiz] is rejected, the session is over, the result
    is stored and the results modal is shown as after a commit, and the
    stored profiles are as before. *)
Theorem endQuiz_without_commit Q r timedOut o w st :
  Tma.quizState r = Some st ->
  o <> TxCommits ->
  let w' := state_of (Tma.endQuiz Q r timedOut o w) in
  Tma.profiles w' = Tma.profiles w
  /\ Tma.isQuizActive (Tma.app w') = false
  /\ Tma.quizResult (Tma.app w') = Some (Tma.calculateResults Q st)
  /\ Tma.showModal (Tma.app w') = Tma.ModalResults.
Proof.
  intros Hst Ho. cbv zeta.
  destruct (endQuiz_fields Q r timedOut o w) as (H1 & _ & _ & _ & H5).
  rewrite Hst in H5.
  split; [| split; [exact H1 | split; [exact H5 |]]].
  - rewrite (endQuiz_Some Q r timedOut o w st Hst). cbn [state_of]. cbv zeta.
    destruct (Tma.db r && Js.truthy (Tma.userId r)); [| done].
    cbn [Tma.setShowModal Tma.onApp Tma.profiles].
    unfold Tma.updateUserScore.
    destruct (Tma.db r); [| done].
    destruct (Tma.userId r) as [[|c u]|]; [done | | done].
    by destruct o.
  - by rewrite (endQuiz_Some Q r timedOut o w st Hst).
Qed.

Lemma endQuiz_without_commit_witness :
  let w' := state_of (Tma.endQuiz Tma.QUIZ_DATA_20251008 render_mid false
                        TxReadFails world_mid) in
  Tma.quizState render_mid = Some state_mid
  /\ TxReadFails <> TxCommits
  /\ Tma.profiles w' = Tma.profiles world_mid
  /\ Tma.showModal (Tma.app w') = Tma.ModalResults.
Proof.
  cbv zeta.
  assert (H1 : Tma.quizState render_mid = Some state_mid) by reflexivity.
  assert (H2 : TxReadFails <> TxCommits) by discriminate.
  split; [exact H1 | split; [exact H2 |]].
  pose proof (endQuiz_without_commit Tma.QUIZ_DATA_20251008 render_mid false
                TxReadFails world_mid state_mid H1 H2) as (K1 & _ & _ & K4).
  split; [exact K1 | exact K4].
Defined.

(** * Further properties of the leagues *)

(** ** Strings *)

Lemma upper_ascii_idem c : Js.upper_ascii (Js.upper_ascii c) = Js.upper_ascii c.
Proof. by destruct c as [[] [] [] [] [] [] [] []]. Qed.

Lemma toUpperCase_idem s : Js.toUpperCase (Js.toUpperCase s) = Js.toUpperCase s.
Proof.
  induction s as [|c s IH]; [done |]. cbn. by rewrite upper_ascii_idem, IH.
Qed.

Lemma length_toUpperCase s : String.length (Js.toUpperCase s) = String.length s.
Proof. induction s as [|c s IH]; [done |]. cbn. by rewrite IH. Qed.

Lemma length_String_substring n m s :
  String.length (String.substring n m s) = Nat.min m (String.length s - n).
Proof.
  revert n m. induction s as [|c s IH]; intros n m.
  - destruct n, m; cbn; lia.
  - destruct n as [|n].
    + destruct m as [|m]; [done |]. cbn. rewrite IH. cbn. lia.
    + cbn. by rewrite IH.
Qed.

(** ** The code of a new league *)

(** X10.  The league that [handleCreateLeague] adds has no code when it is
    public.  When it is private, its code is already in upper case and has
    [min 6 (n - 2)] characters, for [n] the length of
    [Math.random().toString(36)]: six only if that string has at least
    eight characters, and none at all for the draw 0. *)
Theorem league_code_shape r uid name description isPrivate random36
    createdAt startDate w :
  signedIn r uid ->
  exists l,
    Tma.leagues (Tma.handleCreateLeague r name description isPrivate random36
                   createdAt startDate true w)
    = (Tma.leagues w ++ [l])%list
    /\ Tma.l_isPrivate l = isPrivate
    /\ (isPrivate = false -> Tma.l_code l = None)
    /\ (isPrivate = true ->
        exists c, Tma.l_code l = Some c
                  /\ String.length c = Nat.min 6 (String.length random36 - 2)
                  /\ Js.toUpperCase c = c).
Proof.
  intros (Hdb & Hu & Hne). unfold Tma.handleCreateLeague. rewrite Hdb, Hu.
  destruct uid as [|c u]; [congruence |].
  eexists. split; [reflexivity |]. cbn [Tma.l_isPrivate Tma.l_code].
  split; [done |]. split; intros ->; [done |].
  eexists. split; [reflexivity |]. split.
  - unfold Js.substring. by rewrite length_toUpperCase, length_String_substring.
  - apply toUpperCase_idem.
Qed.

Lemma league_code_shape_witness :
  signedIn render_u1 "u1"
  /\ exists l,
       Tma.leagues (Tma.handleCreateLeague render_u1 "Weekend Warriors" "first"
                      true "0.i" 1000 1000 true world_u1)
       = (Tma.leagues world_u1 ++ [l])%list
       /\ Tma.l_code l = Some "I".
Proof.
  assert (H : signedIn render_u1 "u1") by (repeat split; discriminate).
  split; [exact H |].
  destruct (league_code_shape render_u1 "u1" "Weekend Warriors" "first" true
              "0.i" 1000 1000 world_u1 H) as (l & Hl & _).
  exists l. split; [exact Hl |].
  cbn in Hl. injection Hl as <-. reflexivity.
Defined.

(** ** Looking a league up *)

Lemma queryStore_storeOf (col : list (string * Tma.League)) :
  Tma.storeOf (map snd col) (queryStore col).
Proof.
  intros c. eexists. split; [reflexivity |].
  unfold Tma.answersQuery.
  destruct (filter _ col) as [|[leagueId data] rest] eqn:Hf; cbn [take].
  - intros l Hl Hc. apply list_elem_of_fmap in Hl as ([i d] & -> & Hd).
    assert (Hin : (i, d) ∈ filter (fun d => Tma.l_code d.2 = Some c) col)
      by (by apply list_elem_of_filter).
    rewrite Hf in Hin. by apply not_elem_of_nil in Hin.
  - assert (Hin : (leagueId, data)
                  ∈ filter (fun d => Tma.l_code d.2 = Some c) col)
      by (rewrite Hf; apply list_elem_of_here).
    apply list_elem_of_filter in Hin as (Hc & Hin).
    split; [| exact Hc].
    apply list_elem_of_fmap. by exists (leagueId, data).
Qed.

(** X11.  A lookup that succeeds is sound, and a league without a code
    cannot be looked up.  [handleJoinLeague] asks the store for the
    upper-cased input.  On a store that holds the leagues of [w] and for
    an input of ASCII characters, the league that a successful lookup
    puts into the confirmation is the store's answer for the upper-cased
    input: a league of the collection with that code, which is not empty.
    When every code in the collection is empty, no input is found. *)
Theorem lookup_is_sound r input getDocs w :
  Js.isAscii input = true ->
  Tma.storeOf (Tma.leagues w) getDocs ->
  (fst (Tma.handleJoinLeague r input getDocs w) = Tma.LookupFound ->
   exists leagueId data,
     getDocs (Js.toUpperCase input) = Some [(leagueId, data)]
     /\ data ∈ Tma.leagues w
     /\ Tma.l_code data = Some (Js.toUpperCase input)
     /\ Js.toUpperCase input <> ""
     /\ snd (Tma.handleJoinLeague r input getDocs w)
        = Tma.setShowModal (Tma.ModalConfirmJoin leagueId) w)
  /\ ((forall l c, l ∈ Tma.leagues w -> Tma.l_code l = Some c -> c = "") ->
      fst (Tma.handleJoinLeague r input getDocs w) <> Tma.LookupFound).
Proof.
  intros _ Hstore.
  assert (Hfound :
    fst (Tma.handleJoinLeague r input getDocs w) = Tma.LookupFound ->
    exists leagueId data,
      getDocs (Js.toUpperCase input) = Some [(leagueId, data)]
      /\ data ∈ Tma.leagues w
      /\ Tma.l_code data = Some (Js.toUpperCase input)
      /\ Js.toUpperCase input <> ""
      /\ snd (Tma.handleJoinLeague r input getDocs w)
         = Tma.setShowModal (Tma.ModalConfirmJoin leagueId) w).
  { destruct (Hstore (Js.toUpperCase input)) as (docs & Hg & Hq).
    unfold Tma.handleJoinLeague, Tma.answersQuery in *.
    destruct (Tma.db r); [| discriminate].
    destruct (Tma.userId r) as [[|c u]|]; [discriminate | | discriminate].
    destruct (Js.toUpperCase input) as [|c0 s0] eqn:Hc; [discriminate |].
    rewrite Hg.
    destruct docs as [|[leagueId data] [|d2 docs]]; [discriminate | | done].
    destruct Hq as (Hin & Hcode). intros _.
    exists leagueId, data. by repeat split. }
  split; [exact Hfound |].
  intros Hempty Hf.
  destruct (Hfound Hf) as (leagueId & data & _ & Hin & Hcode & Hne & _).
  exact (Hne (Hempty data _ Hin Hcode)).
Qed.

Lemma lookup_is_sound_witness :
  let l := Tma.mkLeague "Weekend Warriors" "first" true "u1" "Anonymous Player"
             1000 1 0 (Some "4FZYO8") 1000 in
  let w := Tma.mkWorld render_u1 (Tma.profiles world_u1) [l] in
  let getDocs := queryStore [("doc1", l)] in
  Js.isAscii "4fzyo8" = true
  /\ Tma.storeOf (Tma.leagues w) getDocs
  /\ fst (Tma.handleJoinLeague render_u1 "4fzyo8" getDocs w) = Tma.LookupFound
  /\ snd (Tma.handleJoinLeague render_u1 "4fzyo8" getDocs w)
     = Tma.setShowModal (Tma.ModalConfirmJoin "doc1") w.
Proof.
  cbv zeta.
  set (l := Tma.mkLeague "Weekend Warriors" "first" true "u1" "Anonymous Player"
              1000 1 0 (Some "4FZYO8") 1000).
  set (w := Tma.mkWorld render_u1 (Tma.profiles world_u1) [l]).
  assert (H0 : Js.isAscii "4fzyo8" = true) by reflexivity.
  assert (H1 : Tma.storeOf (Tma.leagues w) (queryStore [("doc1", l)]))
    by apply (queryStore_storeOf [("doc1", l)]).
  assert (H2 : fst (Tma.handleJoinLeague render_u1 "4fzyo8"
                      (queryStore [("doc1", l)]) w) = Tma.LookupFound)
    by (by vm_compute).
  split; [exact H0 | split; [exact H1 | split; [exact H2 |]]].
  destruct (proj1 (lookup_is_sound render_u1 "4fzyo8"
                     (queryStore [("doc1", l)]) w H0 H1) H2)
    as (leagueId & data & Hd & _ & _ & _ & Hs).
  assert (Hid : leagueId = "doc1").
  { vm_compute in Hd. by injection Hd as <- _. }
  by rewrite <- Hid.
Defined.

Lemma create_league_leagues r uid name description isPrivate random36
    createdAt startDate w :
  signedIn r uid ->
  Tma.leagues (Tma.handleCreateLeague r name description isPrivate random36
                 createdAt startDate true w)
  = (Tma.leagues w
     ++ [Tma.mkLeague name description isPrivate uid
           (Tma.UserData.name (Tma.userData r)) createdAt 1 0
           (if isPrivate
            then Some (Js.toUpperCase (Js.substring 2 8 random36))
            else None)
           startDate])%list.
Proof.
  intros (Hdb & Hu & Hne). unfold Tma.handleCreateLeague. rewrite Hdb, Hu.
  destruct uid as [|c u]; [congruence | reflexivity].
Qed.

(** X12.  A private league can be found by its code in any letter case.
    After [handleCreateLeague] has added a private league with a non-empty
    code, [handleJoinLeague] of a signed-in user, on any input of ASCII
    characters whose upper case is that code and on any store that holds
    the leagues, asks the store for the code and finds a league with that
    code; it is the new league when no league had the code before. *)
Theorem created_league_is_found r uid name description random36
    createdAt startDate w r2 uid2 input getDocs :
  signedIn r uid ->
  signedIn r2 uid2 ->
  let code := Js.toUpperCase (Js.substring 2 8 random36) in
  let l := Tma.mkLeague name description true uid
             (Tma.UserData.name (Tma.userData r)) createdAt 1 0 (Some code)
             startDate in
  let w1 := Tma.handleCreateLeague r name description true random36
              createdAt startDate true w in
  code <> "" ->
  Js.isAscii input = true ->
  Js.toUpperCase input = code ->
  Tma.storeOf (Tma.leagues w1) getDocs ->
  exists leagueId data,
    Tma.handleJoinLeague r2 input getDocs w1
    = (Tma.LookupFound, Tma.setShowModal (Tma.ModalConfirmJoin leagueId) w1)
    /\ getDocs code = Some [(leagueId, data)]
    /\ Tma.l_code data = Some code
    /\ ((forall l0, l0 ∈ Tma.leagues w -> Tma.l_code l0 <> Some code) ->
        data = l).
Proof.
  intros Hin (Hdb2 & Hu2 & Hne2) code l w1 Hcode _ Hinput Hstore.
  assert (Hl : Tma.leagues w1 = (Tma.leagues w ++ [l])%list)
    by apply (create_league_leagues r uid name description true random36
                createdAt startDate w Hin).
  destruct (Hstore code) as (docs & Hg & Hq).
  unfold Tma.answersQuery in Hq. rewrite Hl in Hq.
  destruct docs as [|[leagueId data] [|d2 docs]]; [| | done].
  - exfalso. apply (Hq l); [apply elem_of_app; right; apply list_elem_of_here |].
    reflexivity.
  - destruct Hq as (Hd & Hc). exists leagueId, data.
    split; [| split; [done | split; [done |]]].
    + unfold Tma.handleJoinLeague. rewrite Hdb2, Hu2.
      destruct uid2 as [|c2 u2]; [congruence |]. rewrite Hinput.
      destruct code; [congruence |]. by rewrite Hg.
    + intros Hnone. apply elem_of_app in Hd as [Hd | Hd].
      * by destruct (Hnone data Hd).
      * by apply list_elem_of_singleton in Hd.
Qed.

Lemma created_league_is_found_witness :
  let code := Js.toUpperCase (Js.substring 2 8 "0.4fzyo82mvyr") in
  let l := Tma.mkLeague "Weekend Warriors" "first" true "u1" "Anonymous Player"
             1000 1 0 (Some code) 1000 in
  let w1 := Tma.handleCreateLeague render_u1 "Weekend Warriors" "first" true
              "0.4fzyo82mvyr" 1000 1000 true world_u1 in
  let getDocs := queryStore [("doc1", l)] in
  signedIn render_u1 "u1"
  /\ code <> ""
  /\ Js.isAscii "4fzyo8" = true
  /\ Js.toUpperCase "4fzyo8" = code
  /\ Tma.storeOf (Tma.leagues w1) getDocs
  /\ exists leagueId data,
       Tma.handleJoinLeague render_u1 "4fzyo8" getDocs w1
       = (Tma.LookupFound, Tma.setShowModal (Tma.ModalConfirmJoin leagueId) w1)
       /\ Tma.l_code data = Some code.
Proof.
  cbv zeta.
  set (l := Tma.mkLeague "Weekend Warriors" "first" true "u1"
              "Anonymous Player" 1000 1 0
              (Some (Js.toUpperCase (Js.substring 2 8 "0.4fzyo82mvyr"))) 1000).
  assert (H1 : signedIn render_u1 "u1") by (repeat split; discriminate).
  assert (H2 : Js.toUpperCase (Js.substring 2 8 "0.4fzyo82mvyr") <> "")
    by discriminate.
  assert (H0 : Js.isAscii "4fzyo8" = true) by reflexivity.
  assert (H3 : Js.toUpperCase "4fzyo8"
               = Js.toUpperCase (Js.substring 2 8 "0.4fzyo82mvyr"))
    by reflexivity.
  assert (H4 : Tma.storeOf
                 (Tma.leagues
                    (Tma.handleCreateLeague render_u1 "Weekend Warriors" "first"
                       true "0.4fzyo82mvyr" 1000 1000 true world_u1))
                 (queryStore [("doc1", l)]))
    by apply (queryStore_storeOf [("doc1", l)]).
  split; [exact H1 | split; [exact H2 | split; [exact H0 |
  split; [exact H3 | split; [exact H4 |]]]]].
  destruct (created_league_is_found render_u1 "u1" "Weekend Warriors" "first"
              "0.4fzyo82mvyr" 1000 1000 world_u1 render_u1 "u1" "4fzyo8"
              (queryStore [("doc1", l)]) H1 H1 H2 H0 H3 H4)
    as (leagueId & data & K1 & _ & K2 & _).
  exists leagueId, data. split; [exact K1 | exact K2].
Defined.

(** ** The confirmation dialog *)

(** X13.  The confirmation of a join is never on screen.  No state shows
    the confirmation dialog; after a lookup that found a league, the state
    shows no dialog at all, so the button that calls [confirmJoinLeague]
    cannot be clicked. *)
Theorem found_league_shows_no_dialog r input docs w :
  fst (Tma.handleJoinLeague r input docs w) = Tma.LookupFound ->
  Tma.visibleDialog (Tma.app (snd (Tma.handleJoinLeague r input docs w))) = None
  /\ forall a, Tma.visibleDialog a <> Some Tma.DialogConfirmJoin.
Proof.
  intros H. split.
  - revert H. unfold Tma.handleJoinLeague.
    destruct (Tma.db r); [| discriminate].
    destruct (Tma.userId r) as [[|c u]|]; [discriminate | | discriminate].
    destruct (Js.toUpperCase input) as [|c0 s0]; [discriminate |].
    destruct (docs (String c0 s0)) as [[|[leagueId data] ds]|];
      [discriminate | | discriminate].
    reflexivity.
  - intros a. unfold Tma.visibleDialog.
    destruct (Tma.showModal a) as [| |which|leagueId]; [done | | | done].
    + by destruct (Tma.quizResult a).
    + repeat (destruct (String.eqb which _); [try done |]);
        [by destruct (Tma.quizResult a) | done].
Qed.

Lemma found_league_shows_no_dialog_witness :
  let l := Tma.mkLeague "Weekend Warriors" "first" true "u1" "Anonymous Player"
             1000 1 0 (Some "4FZYO8") 1000 in
  let w := Tma.mkWorld render_u1 (Tma.profiles world_u1) [l] in
  let docs := queryStore [("doc1", l)] in
  fst (Tma.handleJoinLeague render_u1 "4fzyo8" docs w) = Tma.LookupFound
  /\ Tma.visibleDialog
       (Tma.app (snd (Tma.handleJoinLeague render_u1 "4fzyo8" docs w))) = None.
Proof.
  cbv zeta.
  set (l := Tma.mkLeague "Weekend Warriors" "first" true "u1" "Anonymous Player"
              1000 1 0 (Some "4FZYO8") 1000).
  assert (H : fst (Tma.handleJoinLeague render_u1 "4fzyo8"
                     (queryStore [("doc1", l)])
                     (Tma.mkWorld render_u1 (Tma.profiles world_u1) [l]))
              = Tma.LookupFound) by (by vm_compute).
  split; [exact H |].
  exact (proj1 (found_league_shows_no_dialog _ _ _ _ H)).
Defined.

(** * Further properties of the web front end *)

(** ** The quiz timer *)

Lemma web_run_snoc s es e :
  Web.run s (es ++ [e]) = Web.step (Web.run s es) e.
Proof. unfold Web.run. by rewrite fold_left_app. Qed.

Lemma web_step_tick_running w ts t :
  Web.isQuizActive (Web.quiz (Web.app w)) = true ->
  (1 < t)%Z ->
  Web.step (Web.mkSys (Web.setQuizTimeLeft (fun _ => t) w) ts) Web.ETick
  = Web.mkSys (Web.setQuizTimeLeft (fun _ => (t - 1)%Z) w) ts.
Proof.
  intros Ha Ht. unfold Web.step, Web.timerEffect. cbn. rewrite Ha. cbn.
  destruct (Z.ltb_spec 0 t); [| lia].
  destruct (decide _) as [Heq|_]; [injection Heq; lia |].
  destruct (Z.leb_spec (t - 1) 0); [lia | reflexivity].
Qed.

Lemma web_ticks_running w ts T k :
  Web.isQuizActive (Web.quiz (Web.app w)) = true ->
  (Z.of_nat k < T)%Z ->
  Web.run (Web.mkSys (Web.setQuizTimeLeft (fun _ => T) w) ts)
          (repeat Web.ETick k)
  = Web.mkSys (Web.setQuizTimeLeft (fun _ => (T - Z.of_nat k)%Z) w) ts.
Proof.
  intros Ha. induction k as [|k IH]; intros Hlt.
  - cbn. by rewrite Z.sub_0_r.
  - cbn [repeat]. rewrite repeat_cons, web_run_snoc, IH by lia.
    rewrite web_step_tick_running by (done || lia).
    by replace (T - Z.of_nat k - 1)%Z with (T - Z.of_nat (S k))%Z by lia.
Qed.

(** The mock result for a render without answers. *)
Lemma handleQuizFinish_no_answers r isTimeout w qm :
  Web.quizData r = Some qm ->
  Web.quizAnswers (Web.quiz r) = [] ->
  let w' := state_of (Web.handleQuizFinish r isTimeout w) in
  Web.isQuizActive (Web.quiz (Web.app w')) = false
  /\ Web.quizResults (Web.quiz (Web.app w'))
     = Some (Web.mkQuizResults 0 0 0 0 isTimeout
               (default 0%Z (Web.userData r ≫= Web.score))).
Proof.
  intros Hqm Hans. cbv zeta. unfold Web.handleQuizFinish. rewrite Hqm, Hans.
  cbn [state_of]. split; [done |].
  cbn [Web.app Web.quiz Web.quizResults Web.setIsLoading Web.setQuizResults
       Web.setIsQuizActive Web.onQuiz Web.onApp length].
  change (Js.round (inject_Z (Z.of_nat 0) * (7 # 10) * 10)) with 0%Z.
  change (Js.round (inject_Z (Z.of_nat 0) * (7 # 10))) with 0%Z.
  by rewrite Z.add_0_r.
Qed.

(** X14.  In the web front end the timer ends a quiz without answers at
    exactly the tick at which the time is up, for every time limit
    [T >= 0]: after a start and [T] ticks the session is inactive and the
    result has [isTimeout = true], no answers and no points; after fewer
    ticks the session is active, has no result, and shows the time limit
    less the ticks.  With [T = 0] the start itself ends the quiz. *)
Theorem web_timer_expiry s qm n :
  Web.quizData (Web.app (Web.world s)) = Some qm ->
  Web.isQuizCompleted (Web.app (Web.world s)) = false ->
  Web.isQuizActive (Web.quiz (Web.app (Web.world s))) = false ->
  Web.timeLimitSeconds qm = Z.of_nat n ->
  let after k :=
    Web.quiz (Web.app (Web.world (Web.run (Web.step s Web.EStart)
                                    (repeat Web.ETick k)))) in
  Web.isQuizActive (after n) = false
  /\ Web.quizResults (after n)
     = Some (Web.mkQuizResults 0 0 0 0 true
               (default 0%Z (Web.userData (Web.app (Web.world s)) ≫= Web.score)))
  /\ forall k, k < n ->
       Web.isQuizActive (after k) = true
       /\ Web.quizResults (after k) = None
       /\ Web.quizTimeLeft (after k) = (Z.of_nat n - Z.of_nat k)%Z.
Proof.
  intros Hqm Hnc Hna HT after.
  set (W := Web.setIsQuizActive true
              (Web.setQuizResults None
                 (Web.setQuizAnswers (fun _ => [])
                    (Web.setQuizTimeLeft (fun _ => Web.timeLimitSeconds qm)
                       (Web.setQuizCurrentQuestion (fun _ => 0)
                          (Web.world s)))))).
  assert (HW : state_of (Web.handleStartQuiz (Web.app (Web.world s)) (Web.world s))
               = W)
    by (unfold Web.handleStartQuiz; by rewrite Hnc, Hqm).
  assert (Hstart : Web.step s Web.EStart
                   = Web.mkSys
                       (if (Z.of_nat n <=? 0)%Z
                        then state_of (Web.handleQuizFinish (Web.app W) true W)
                        else Web.setQuizTimeLeft (fun _ => Z.of_nat n) W)
                       (Web.timeouts s)).
  { unfold Web.step. rewrite HW. unfold Web.timerEffect.
    destruct (decide _) as [Heq|_].
    - exfalso. subst W. cbn in Heq. rewrite Hna in Heq. discriminate.
    - subst W. cbn. rewrite HT. by destruct (Z.of_nat n <=? 0)%Z. }
  assert (HaW : Web.isQuizActive (Web.quiz (Web.app W)) = true) by reflexivity.
  assert (Hbefore : forall k, k < n ->
            Web.run (Web.step s Web.EStart) (repeat Web.ETick k)
            = Web.mkSys (Web.setQuizTimeLeft
                           (fun _ => (Z.of_nat n - Z.of_nat k)%Z) W)
                        (Web.timeouts s)).
  { intros k Hk. rewrite Hstart.
    destruct (Z.leb_spec (Z.of_nat n) 0); [lia |].
    apply web_ticks_running; [done | lia]. }
  assert (Hend : Web.world (Web.run (Web.step s Web.EStart) (repeat Web.ETick n))
                 = state_of (Web.handleQuizFinish
                               (Web.app (Web.setQuizTimeLeft (fun _ => 0%Z) W))
                               true (Web.setQuizTimeLeft (fun _ => 0%Z) W))).
  { destruct n as [|n].
    - rewrite Hstart. cbn [repeat Web.run fold_left Web.world].
      subst W. rewrite HT. reflexivity.
    - cbn [repeat]. rewrite repeat_cons, web_run_snoc, (Hbefore n) by lia.
      unfold Web.step, Web.timerEffect.
      cbn [Web.world Web.app Web.quiz Web.setQuizTimeLeft Web.onQuiz Web.onApp
           Web.isQuizActive Web.quizTimeLeft].
      replace (Z.of_nat (S n) - Z.of_nat n)%Z with 1%Z by lia.
      rewrite HaW. cbn.
      destruct (decide _) as [Heq|_]; [discriminate |]. reflexivity. }
  destruct (handleQuizFinish_no_answers
              (Web.app (Web.setQuizTimeLeft (fun _ => 0%Z) W)) true
              (Web.setQuizTimeLeft (fun _ => 0%Z) W) qm Hqm eq_refl)
    as (K1 & K2).
  split; [| split].
  - subst after. cbv beta. by rewrite Hend.
  - subst after. cbv beta. by rewrite Hend.
  - intros k Hk. subst after. cbv beta. rewrite (Hbefore k Hk). by cbn.
Qed.

Lemma web_timer_expiry_witness :
  let s := Web.mkSys (Web.mkWorld web_render_u2 true [] ∅) [] in
  let qm := Web.mkQuizMeta "quiz_01_20250101" 90 in
  Web.quizData (Web.app (Web.world s)) = Some qm
  /\ Web.isQuizCompleted (Web.app (Web.world s)) = false
  /\ Web.isQuizActive (Web.quiz (Web.app (Web.world s))) = false
  /\ Web.timeLimitSeconds qm = Z.of_nat 90
  /\ Web.isTimeout
       <$> Web.quizResults
             (Web.quiz (Web.app (Web.world (Web.run (Web.step s Web.EStart)
                                              (repeat Web.ETick 90)))))
     = Some true.
Proof.
  cbv zeta.
  set (s := Web.mkSys (Web.mkWorld web_render_u2 true [] ∅) []).
  assert (H1 : Web.quizData (Web.app (Web.world s))
               = Some (Web.mkQuizMeta "quiz_01_20250101" 90)) by reflexivity.
  assert (H2 : Web.isQuizCompleted (Web.app (Web.world s)) = false)
    by reflexivity.
  assert (H3 : Web.isQuizActive (Web.quiz (Web.app (Web.world s))) = false)
    by reflexivity.
  assert (H4 : Web.timeLimitSeconds (Web.mkQuizMeta "quiz_01_20250101" 90)
               = Z.of_nat 90) by reflexivity.
  split; [exact H1 | split; [exact H2 | split; [exact H3 | split; [exact H4 |]]]].
  rewrite (proj1 (proj2 (web_timer_expiry s _ 90 H1 H2 H3 H4))).
  reflexivity.
Defined.

(** ** The answers of the web session *)

Lemma MOCK_QUESTIONS_id i q :
  Web.MOCK_QUESTIONS !! i = Some q -> Web.questionId q = (Z.of_nat i + 1)%Z.
Proof.
  do 25 (destruct i as [|i]; [cbn; intros [= <-]; reflexivity|]).
  cbn. discriminate.
Qed.

Lemma web_ok_finish r t w :
  is_Some (Web.quizData (Web.app w)) ->
  NoDup (answeredIds w) ->
  (forall i, i ∈ answeredIds w ->
     (1 <= i <= Z.of_nat (Web.quizCurrentQuestion (Web.quiz (Web.app w))) + 1)%Z) ->
  web_ok (state_of (Web.handleQuizFinish r t w)).
Proof.
  unfold web_ok, answeredIds, Web.handleQuizFinish.
  intros H1 H2 H3.
  destruct (Web.quizData r); cbn; (split; [exact H1 | split; [exact H2 | split; [exact H3 | discriminate]]]).
Qed.

Lemma web_ok_effect before w : web_ok w -> web_ok (Web.timerEffect before w).
Proof.
  intros H. unfold Web.timerEffect.
  destruct (decide _); [exact H|].
  destruct (_ && _); [|exact H].
  destruct H as (H1 & H2 & H3 & _). by apply web_ok_finish.
Qed.

Lemma web_ok_start w :
  web_ok w -> web_ok (state_of (Web.handleStartQuiz (Web.app w) w)).
Proof.
  intros H. unfold Web.handleStartQuiz.
  destruct (Web.isQuizCompleted (Web.app w)); [exact H|].
  destruct H as ([qm Hq] & _). rewrite Hq.
  unfold web_ok, answeredIds. cbn.
  split; [by eexists|]. split; [constructor|].
  split; intros; intros; exfalso; eapply not_elem_of_nil; eauto.
Qed.

Lemma web_ok_click w draw o :
  Web.isQuizActive (Web.quiz (Web.app w)) = true ->
  web_ok w -> web_ok (fst (state_of (Web.onOptionClick (Web.app w) draw o w))).
Proof.
  intros Ha H. unfold Web.onOptionClick.
  destruct (Web.quizFeedback (Web.quiz (Web.app w))) eqn:Hf; [exact H|].
  unfold Web.handleAnswer.
  destruct (Web.MOCK_QUESTIONS !! _) as [q|] eqn:Hq; [|exact H].
  apply MOCK_QUESTIONS_id in Hq.
  destruct H as (H1 & H2 & H3 & H4). specialize (H4 Ha Hf).
  unfold web_ok, answeredIds in *. cbn.
  rewrite map_app. cbn [map Web.a_questionId]. rewrite Hq.
  split; [exact H1|]. split.
  - apply NoDup_app. split; [exact H2|]. split; [|apply NoDup_singleton].
    intros i Hi Hi'. apply list_elem_of_singleton in Hi'.
    apply H4 in Hi. lia.
  - split; [|discriminate].
    intros i Hi. apply elem_of_app in Hi as [Hi|Hi].
    + by apply H3.
    + apply list_elem_of_singleton in Hi. lia.
Qed.

Lemma web_ok_timeout r w :
  web_ok w -> web_ok (state_of (Web.afterFeedback r w)).
Proof.
  intros H. unfold Web.afterFeedback.
  destruct (_ <? _)%nat.
  - destruct H as (H1 & H2 & H3 & H4).
    unfold web_ok, answeredIds in *. cbn.
    split; [exact H1|]. split; [exact H2|].
    split; [intros i Hi; apply H3 in Hi; lia|].
    intros _ _ i Hi. apply H3 in Hi. lia.
  - destruct H as (H1 & H2 & H3 & _). by apply web_ok_finish.
Qed.

Lemma web_ok_step s e :
  web_ok (Web.world s) -> web_ok (Web.world (Web.step s e)).
Proof.
  intros H. destruct e; cbn [Web.step].
  - cbn [Web.world]. apply web_ok_effect, web_ok_start, H.
  - destruct (_ && _); [|exact H].
    cbn [Web.world]. apply web_ok_effect.
    destruct H as (H1 & H2 & H3 & H4).
    unfold web_ok, answeredIds in *. cbn.
    split; [exact H1|]. split; [exact H2|]. split; [exact H3| exact H4].
  - destruct (Web.isQuizActive _) eqn:Ha; [|exact H].
    cbn [Web.world]. by apply web_ok_effect, web_ok_click.
  - destruct (Web.timeouts s) as [|r rest]; [exact H|].
    cbn [Web.world]. apply web_ok_effect, web_ok_timeout, H.
Qed.

Lemma web_ok_run es : forall s,
  web_ok (Web.world s) -> web_ok (Web.world (Web.run s es)).
Proof.
  induction es as [|e es IH]; intros s H; [exact H|].
  apply (IH (Web.step s e)), web_ok_step, H.
Qed.

(** X15. In the web front end no question is answered twice: in a session
    that starts with a loaded quiz and no answers, after any events the
    question ids of the answers are pairwise different, and each of them is
    positive and at most the id of the current question. *)
Theorem web_one_answer_per_question (s : Web.Sys) (es : list Web.Event) :
  is_Some (Web.quizData (Web.app (Web.world s))) ->
  Web.quizAnswers (Web.quiz (Web.app (Web.world s))) = [] ->
  let w := Web.world (Web.run s es) in
  NoDup (answeredIds w)
  /\ (forall i, i ∈ answeredIds w ->
        (1 <= i <= Z.of_nat (Web.quizCurrentQuestion (Web.quiz (Web.app w))) + 1)%Z).
Proof.
  intros Hq Hans w.
  assert (H0 : web_ok (Web.world s)).
  { unfold web_ok, answeredIds. rewrite Hans. cbn.
    split; [exact Hq|]. split; [constructor|].
    split; intros; exfalso; eapply not_elem_of_nil; eauto. }
  destruct (web_ok_run es s H0) as (_ & H2 & H3 & _).
  split; [exact H2 | exact H3].
Qed.

Lemma web_one_answer_per_question_witness :
  let s := Web.mkSys (Web.mkWorld web_render_u2 true [] ∅) [] in
  let es := [Web.EStart; Web.EClick (1 # 2) "A"; Web.EClick (1 # 2) "B";
             Web.ETimeout; Web.EClick (9 # 10) "C"] in
  is_Some (Web.quizData (Web.app (Web.world s)))
  /\ Web.quizAnswers (Web.quiz (Web.app (Web.world s))) = []
  /\ answeredIds (Web.world (Web.run s es)) = [1%Z; 2%Z]
  /\ NoDup (answeredIds (Web.world (Web.run s es))).
Proof.
  cbv zeta.
  set (s := Web.mkSys (Web.mkWorld web_render_u2 true [] ∅) []).
  assert (H1 : is_Some (Web.quizData (Web.app (Web.world s)))) by (by eexists).
  assert (H2 : Web.quizAnswers (Web.quiz (Web.app (Web.world s))) = [])
    by reflexivity.
  split; [exact H1 | split; [exact H2 | split; [reflexivity |]]].
  exact (proj1 (web_one_answer_per_question s
                  [Web.EStart; Web.EClick (1 # 2) "A"; Web.EClick (1 # 2) "B";
                   Web.ETimeout; Web.EClick (9 # 10) "C"] H1 H2)).
Defined.

(** X16. In the web front end the answer to the last question is not in
    the result.  When an option of the last question is clicked, the answer
    is appended to [quizAnswers], and the callback registered by this click
    ends the quiz with the answers its render holds: [answered] is one less
    than the number of answers stored. *)
Theorem web_last_answer_dropped (w : Web.World) draw o q qm (w' : Web.World) :
  Web.MOCK_QUESTIONS !! Web.quizCurrentQuestion (Web.quiz (Web.app w)) = Some q ->
  length Web.MOCK_QUESTIONS <= Web.quizCurrentQuestion (Web.quiz (Web.app w)) + 1 ->
  Web.quizFeedback (Web.quiz (Web.app w)) = None ->
  Web.quizData (Web.app w) = Some qm ->
  let n := length (Web.quizAnswers (Web.quiz (Web.app w))) in
  let res := state_of (web_click draw o w) in
  snd res = [Web.app w]
  /\ length (Web.quizAnswers (Web.quiz (Web.app (fst res)))) = S n
  /\ Web.answered
       <$> Web.quizResults
             (Web.quiz (Web.app (state_of (Web.afterFeedback (Web.app w) w'))))
     = Some (Z.of_nat n).
Proof.
  intros Hq Hlast Hf Hd n res. subst res.
  unfold web_click, Web.onOptionClick, Web.handleAnswer. rewrite Hf, Hq.
  split; [reflexivity|]. split.
  - cbn. rewrite length_app. cbn. lia.
  - unfold Web.afterFeedback.
    destruct (Nat.ltb_spec (Web.quizCurrentQuestion (Web.quiz (Web.app w)))
                (length Web.MOCK_QUESTIONS - 1)) as [Hlt|_]; [lia|].
    unfold Web.handleQuizFinish. rewrite Hd. reflexivity.
Qed.

Lemma web_last_answer_dropped_witness :
  let l := map (fun i => Web.mkAnswer (Z.of_nat i + 1) "A") (seq 0 24) in
  let w := Web.mkWorld (web_render_answers l) true [] ∅ in
  let q := Web.mkMockQuestion 25 ["Germany"; "Brazil"; "Argentina"; "France"] in
  let qm := Web.mkQuizMeta "quiz_01_20250101" 90 in
  Web.MOCK_QUESTIONS !! Web.quizCurrentQuestion (Web.quiz (Web.app w)) = Some q
  /\ length Web.MOCK_QUESTIONS <= Web.quizCurrentQuestion (Web.quiz (Web.app w)) + 1
  /\ Web.quizFeedback (Web.quiz (Web.app w)) = None
  /\ Web.quizData (Web.app w) = Some qm
  /\ length (Web.quizAnswers (Web.quiz (Web.app (fst (state_of (web_click (1 # 2) "B" w)))))) = 25
  /\ Web.answered
       <$> Web.quizResults
             (Web.quiz (Web.app (state_of
                (Web.afterFeedback (Web.app w)
                   (fst (state_of (web_click (1 # 2) "B" w)))))))
     = Some 24%Z.
Proof.
  cbv zeta.
  set (w := Web.mkWorld
              (web_render_answers
                 (map (fun i => Web.mkAnswer (Z.of_nat i + 1) "A") (seq 0 24)))
              true [] ∅).
  set (q := Web.mkMockQuestion 25 ["Germany"; "Brazil"; "Argentina"; "France"]).
  set (qm := Web.mkQuizMeta "quiz_01_20250101" 90).
  assert (H1 : Web.MOCK_QUESTIONS !! Web.quizCurrentQuestion (Web.quiz (Web.app w))
               = Some q) by reflexivity.
  assert (H2 : length Web.MOCK_QUESTIONS
               <= Web.quizCurrentQuestion (Web.quiz (Web.app w)) + 1)
    by (vm_compute; lia).
  assert (H3 : Web.quizFeedback (Web.quiz (Web.app w)) = None) by reflexivity.
  assert (H4 : Web.quizData (Web.app w) = Some qm) by reflexivity.
  destruct (web_last_answer_dropped w (1 # 2) "B" q qm
              (fst (state_of (web_click (1 # 2) "B" w))) H1 H2 H3 H4)
    as (_ & K2 & K3).
  split; [exact H1 | split; [exact H2 | split; [exact H3 | split; [exact H4 |]]]].
  split; [exact K2 | exact K3].
Defined.

(** ** Creating and joining a league in the web front end *)

(** X17.  The create branch of [handleModalSubmit] never completes, and
    it leaves a league without an owner behind.  It never reports
    success and never writes a membership document, extends the local
    list or closes the dialog.  For a signed-in user, a filled form and an
    app id of an odd number of segments, such as the default, [addDoc]
    stores the league and the reference to the membership document then
    throws: the league is in the collection with [memberCount = 1], and
    a second submission of the same form stores a second league. *)
Theorem web_create_leaves_orphan appId r (w : Web.World) uid name description
    isPrivate random36 newId pos stored newId2 pos2 random36' stored2 :
  web_signedIn w r uid ->
  name <> "" -> description <> "" ->
  Nat.odd (length appId) = true ->
  let d (x : string) :=
    Web.mkLeagueDoc name description isPrivate
      (if isPrivate then Some (Js.toUpperCase (Js.substring 2 8 x)) else None)
      uid (Some 1%Z) in
  let res := Web.handleModalSubmit_create appId r name description isPrivate
               random36 newId pos true stored w in
  let res2 := Web.handleModalSubmit_create appId r name description isPrivate
                random36' newId2 pos2 true stored2 (snd res) in
  fst res = Web.CreateSetFails
  /\ Web.leaguesCol (snd res)
     = (take pos (Web.leaguesCol w)
        ++ (newId, d random36) :: drop pos (Web.leaguesCol w))%list
  /\ Web.myLeagues (snd res) = Web.myLeagues w
  /\ Web.leagues (Web.app (snd res)) = Web.leagues (Web.app w)
  /\ Web.isModalOpen (Web.app (snd res)) = Web.isModalOpen (Web.app w)
  /\ fst res2 = Web.CreateSetFails
  /\ (newId, d random36) ∈ Web.leaguesCol (snd res2)
  /\ (newId2, d random36') ∈ Web.leaguesCol (snd res2)
  /\ Web.myLeagues (snd res2) = Web.myLeagues w.
Proof.
  intros (Hdb & Hu & Hne) Hn Hd Hodd d res res2.
  assert (Hc : Web.collection (Web.leaguesPath appId) <> None).
  { unfold Web.collection, Web.leaguesPath. cbn [length].
    rewrite length_app. cbn [length].
    replace (S (length appId + 3)) with (S (S (S (S (length appId))))) by lia.
    rewrite !Nat.odd_succ_succ, Hodd. done. }
  destruct uid as [|c u]; [congruence |].
  destruct name as [|cn name]; [congruence |].
  destruct description as [|cd description]; [congruence |].
  assert (Hres : res
    = (Web.CreateSetFails,
       Web.setIsLoading false
         (Web.addLeagueDoc pos newId (d random36)
            (Web.setIsLoading true w)))).
  { subst res. unfold Web.handleModalSubmit_create. rewrite Hdb, Hu.
    cbn [Js.truthy negb orb].
    rewrite (myLeagues_ref_throws appId (String c u) newId Hc).
    by destruct (Web.collection (Web.leaguesPath appId)). }
  assert (Hres2 : res2
    = (Web.CreateSetFails,
       Web.setIsLoading false
         (Web.addLeagueDoc pos2 newId2 (d random36')
            (Web.setIsLoading true (snd res))))).
  { subst res2. unfold Web.handleModalSubmit_create.
    rewrite Hres. cbn [snd Web.db Web.setIsLoading Web.onApp Web.addLeagueDoc].
    rewrite Hdb, Hu. cbn [Js.truthy negb orb].
    rewrite (myLeagues_ref_throws appId (String c u) newId2 Hc).
    by destruct (Web.collection (Web.leaguesPath appId)). }
  rewrite Hres2, Hres. cbn [fst snd].
  split; [done | split; [done | split; [done | split; [done | split; [done |]]]]].
  split; [done |].
  cbn [Web.leaguesCol Web.addLeagueDoc Web.setIsLoading Web.onApp
       Web.myLeagues].
  split; [| split; [| done]].
  - set (L1 := (take pos (Web.leaguesCol w)
                ++ (newId, d random36) :: drop pos (Web.leaguesCol w))%list).
    assert (Hin : (newId, d random36) ∈ L1)
      by (apply elem_of_app; right; apply list_elem_of_here).
    rewrite <- (take_drop pos2 L1) in Hin.
    apply elem_of_app in Hin as [Hin | Hin]; apply elem_of_app;
      [by left | right; by right].
  - apply elem_of_app. right. apply list_elem_of_here.
Qed.

Lemma web_create_leaves_orphan_witness :
  let res := Web.handleModalSubmit_create web_appId web_render "Kings"
               "Friends" true "0.k3j9x2abc" "L8" 0 true true web_world in
  web_signedIn web_world web_render "u1"
  /\ "Kings" <> "" /\ "Friends" <> ""
  /\ Nat.odd (length web_appId) = true
  /\ fst res = Web.CreateSetFails
  /\ fst <$> Web.leaguesCol (snd res) = ["L8"; "L7"]
  /\ Web.myLeagues (snd res) = Web.myLeagues web_world.
Proof.
  cbv zeta.
  assert (H1 : web_signedIn web_world web_render "u1")
    by (split; [reflexivity | split; [reflexivity | discriminate]]).
  assert (H2 : "Kings" <> "") by discriminate.
  assert (H3 : "Friends" <> "") by discriminate.
  assert (H4 : Nat.odd (length web_appId) = true) by reflexivity.
  destruct (web_create_leaves_orphan web_appId web_render web_world "u1"
              "Kings" "Friends" true "0.k3j9x2abc" "L8" 0 true
              "L9" 0 "0.k3j9x2abc" true H1 H2 H3 H4)
    as (K1 & K2 & K3 & _).
  split; [exact H1 | split; [exact H2 | split; [exact H3 | split; [exact H4 |]]]].
  split; [exact K1 | split; [by rewrite K2 | exact K3]].
Defined.

(** X18.  The join branch of [handleModalSubmit] never completes.  Whatever
    the app id, the render, the answers of the store and the state, it
    does not report a join, and it leaves the membership documents, the
    league documents, the local list and the dialog as they are: the
    reference to the membership document, built inside the transaction,
    throws whenever the query could be built.  A signed-in user whose
    code, of ASCII characters, matches a league gets the failure of the
    catch branch. *)
Theorem web_join_never_commits appId r fetched committed (w : Web.World) :
  let res := Web.handleModalSubmit_join appId r fetched committed w in
  fst res <> Web.Joined
  /\ Web.myLeagues (snd res) = Web.myLeagues w
  /\ Web.leaguesCol (snd res) = Web.leaguesCol w
  /\ Web.leagues (Web.app (snd res)) = Web.leagues (Web.app w)
  /\ Web.isModalOpen (Web.app (snd res)) = Web.isModalOpen (Web.app w)
  /\ (forall uid,
        web_signedIn w r uid ->
        Web.code r <> "" -> Js.isAscii (Web.code r) = true ->
        Web.whereCode (Js.toUpperCase (Web.code r)) (Web.leaguesCol w) <> [] ->
        fst res = Web.JoinFailed).
Proof.
  intros res.
  destruct (join_frame appId r fetched committed w)
    as (H1 & _ & H3 & H4 & H5 & H6).
  fold res in H1, H3, H4, H5, H6.
  split; [exact H1 | split; [exact H4 | split; [exact H3 |]]].
  split; [exact H5 | split; [exact H6 |]].
  intros uid (Hdb & Hu & Hne) Hcode _ Hq. subst res.
  unfold Web.handleModalSubmit_join in *. rewrite Hdb, Hu in *.
  destruct uid as [|c u]; [congruence |].
  destruct (Web.code r); [congruence |].
  destruct (Web.collection (Web.leaguesPath appId)) eqn:Hc; [| done].
  destruct fetched; [| done].
  destruct (Web.whereCode _ _) as [|[leagueId leagueData] rest]; [done |].
  rewrite (myLeagues_ref_throws appId (String c u) leagueId) by congruence.
  by destruct (Web.doc (Web.leaguesPath appId) leagueId).
Qed.

(** ** The clocks *)

Lemma append_cons c (s t : string) : String c s ++ t = String c (s ++ t).
Proof. reflexivity. Qed.

Lemma length_append (s t : string) :
  String.length (s ++ t) = String.length s + String.length t.
Proof.
  induction s as [|c s IH]; [reflexivity|].
  rewrite append_cons. simpl. by rewrite IH.
Qed.

Lemma append_assoc (s t u : string) : (s ++ t) ++ u = s ++ t ++ u.
Proof.
  induction s as [|c s IH]; [reflexivity|].
  by rewrite !append_cons, IH.
Qed.

Lemma append_inj_length (a a' b b' : string) :
  String.length a = String.length a' -> a ++ b = a' ++ b' -> a = a' /\ b = b'.
Proof.
  revert a'. induction a as [|c a IH]; intros [|c' a'] Hl E;
    try discriminate Hl.
  - by split.
  - rewrite !append_cons in E. simpl in Hl. injection E as -> E.
    injection Hl as Hl.
    destruct (IH a' Hl E) as [-> ->]. by split.
Qed.

Lemma pad2_length n :
  (0 <= n < 100)%Z -> String.length (Js.padStart 2 "0" (Js.toString n)) = 2.
Proof.
  intros Hn.
  assert (H : Forall (fun n => String.length (Js.padStart 2 "0" (Js.toString n)) = 2)
                     (seqZ 0 100)).
  { apply (bool_decide_unpack _). vm_compute. exact I. }
  rewrite Forall_forall in H. apply H. apply elem_of_seqZ. lia.
Qed.

Lemma pad2_inj n m :
  (0 <= n < 100)%Z -> (0 <= m < 100)%Z ->
  Js.padStart 2 "0" (Js.toString n) = Js.padStart 2 "0" (Js.toString m) ->
  n = m.
Proof.
  intros Hn Hm E.
  set (pad2 := fun n => Js.padStart 2 "0" (Js.toString n)) in *.
  assert (H : NoDup (pad2 <$> seqZ 0 100)).
  { apply (bool_decide_unpack _). vm_compute. exact I. }
  assert (Hi : (pad2 <$> seqZ 0 100) !! Z.to_nat n = Some (pad2 n)).
  { rewrite list_lookup_fmap, lookup_seqZ_lt by lia. cbn. do 2 f_equal. lia. }
  assert (Hj : (pad2 <$> seqZ 0 100) !! Z.to_nat m = Some (pad2 m)).
  { rewrite list_lookup_fmap, lookup_seqZ_lt by lia. cbn. do 2 f_equal. lia. }
  change (pad2 n = pad2 m) in E. rewrite E in Hi.
  pose proof (NoDup_lookup _ _ _ _ H Hi Hj). lia.
Qed.

Lemma ends_with_h (s : string) : s ++ "h" <> "EXPIRED".
Proof.
  do 7 (destruct s as [|? s];
          [discriminate | rewrite append_cons; intros [= _ E]; revert E]).
  destruct s; discriminate.
Qed.

Lemma formatTime_clock ms :
  (0 < ms < 86400000)%Z ->
  let T := (ms / 1000)%Z in
  Web.formatTime ms
  = Js.padStart 2 "0" (Js.toString (T / 3600)) ++ ":"
    ++ Js.padStart 2 "0" (Js.toString (T mod 3600 / 60)) ++ ":"
    ++ Js.padStart 2 "0" (Js.toString (T mod 60)).
Proof.
  intros Hms T. unfold Web.formatTime.
  destruct (Z.leb_spec ms 0) as [?|_]; [lia|].
  fold T. assert (HT : (0 <= T < 86400)%Z) by (subst T; Z.to_euclidean_division_equations; lia).
  change (3600 * 24)%Z with 86400%Z.
  rewrite !Z.rem_mod_nonneg by lia.
  replace (T / 86400)%Z with 0%Z by (Z.to_euclidean_division_equations; lia).
  cbn [Z.ltb Z.compare].
  replace (T mod 86400)%Z with T by (Z.to_euclidean_division_equations; lia).
  reflexivity.
Qed.

Lemma formatTime_expired ms : Web.formatTime ms = "EXPIRED" <-> (ms <= 0)%Z.
Proof.
  split.
  - intros E. destruct (Z.le_gt_cases ms 0) as [H|H]; [exact H|]. exfalso.
    destruct (Z.lt_ge_cases ms 86400000) as [Hd|Hd].
    + pose proof (formatTime_clock ms (conj H Hd)) as Hc. cbv zeta in Hc.
      rewrite E in Hc. apply (f_equal String.length) in Hc.
      rewrite !length_append, !pad2_length in Hc
        by (Z.to_euclidean_division_equations; lia).
      discriminate Hc.
    + unfold Web.formatTime in E.
      destruct (Z.leb_spec ms 0) as [?|_]; [lia|].
      destruct (Z.ltb_spec 0 (ms / 1000 / (3600 * 24))) as [_|Hn];
        [|Z.to_euclidean_division_equations; lia].
      rewrite <- !append_assoc in E. by apply ends_with_h in E.
  - intros H. unfold Web.formatTime.
    by destruct (Z.leb_spec ms 0) as [_|?]; [|lia].
Qed.

Lemma expiryTick_iter n t :
  (0 <= t)%Z -> Nat.iter n Tma.expiryTick t = Z.max 0 (t - Z.of_nat n).
Proof.
  intros Ht. induction n as [|n IH]; [cbn; lia|].
  rewrite Nat.iter_succ, IH. unfold Tma.expiryTick.
  destruct (Z.leb_spec (Z.max 0 (t - Z.of_nat n)) 0),
           (Z.leb_spec (Z.max 0 (t - Z.of_nat n)) 1); lia.
Qed.

(** X19. The expiry clock of the home page counts the whole seconds left
    down to zero and stays there: after [n] seconds it shows
    [max 0 (floor ((expiresAt - now) / 1000) - n)], and the start button is
    disabled exactly when less than [n + 1] seconds were left at the
    start. *)
Theorem expiry_countdown (expiresAt now : Z) (n : nat) :
  let t := Nat.iter n Tma.expiryTick
             (Tma.initialTimeUntilExpiry expiresAt now) in
  t = Z.max 0 ((expiresAt - now) / 1000 - Z.of_nat n)
  /\ (Tma.isQuizExpired t = true
      <-> (expiresAt - now < 1000 * (Z.of_nat n + 1))%Z).
Proof.
  cbv zeta. unfold Tma.initialTimeUntilExpiry, Tma.isQuizExpired.
  rewrite expiryTick_iter by lia. split; [lia|].
  rewrite Z.leb_le. Z.to_euclidean_division_equations; lia.
Qed.

Lemma countdownTick_iter n c :
  Nat.iter n Web.countdownTick c
  = if (c <=? 0)%Z then c else Z.max 0 (c - 1000 * Z.of_nat n).
Proof.
  induction n as [|n IH].
  - cbn. destruct (Z.leb_spec c 0); lia.
  - rewrite Nat.iter_succ, IH. unfold Web.countdownTick.
    destruct (Z.leb_spec c 0) as [Hc|Hc].
    + destruct (Z.leb_spec c 0); lia.
    + destruct (Z.leb_spec (Z.max 0 (c - 1000 * Z.of_nat n)) 0); lia.
Qed.

(** X20. The countdown of the web front end goes down by 1000 ms a second
    and stops at zero, and its label reads EXPIRED exactly from the second
    at which the time is used up: after [n] seconds a positive countdown
    [c] is [max 0 (c - 1000 n)], and [formatTime] of it is EXPIRED if and
    only if [c <= 1000 n]. *)
Theorem web_countdown (c : Z) (n : nat) :
  let t := Nat.iter n Web.countdownTick c in
  t = (if (c <=? 0)%Z then c else Z.max 0 (c - 1000 * Z.of_nat n))
  /\ (Web.formatTime t = "EXPIRED" <-> (c <= 1000 * Z.of_nat n)%Z).
Proof.
  cbv zeta. split; [apply countdownTick_iter|].
  rewrite formatTime_expired, countdownTick_iter.
  destruct (Z.leb_spec c 0); lia.
Qed.

(** X21. Within a day the label of the countdown is a clock of eight
    characters that tells the whole seconds left: two times below 24 hours
    with the same label have the same number of whole seconds. *)
Theorem web_formatTime_clock (a b : Z) :
  (0 < a < 86400000)%Z -> (0 < b < 86400000)%Z ->
  String.length (Web.formatTime a) = 8
  /\ (Web.formatTime a = Web.formatTime b -> (a / 1000 = b / 1000)%Z).
Proof.
  intros Ha Hb.
  rewrite (formatTime_clock a Ha), (formatTime_clock b Hb). cbv zeta.
  split.
  - rewrite !length_append, !pad2_length
      by (Z.to_euclidean_division_equations; lia).
    reflexivity.
  - intros E.
    apply append_inj_length in E as [E1 E];
      [|rewrite !pad2_length by (Z.to_euclidean_division_equations; lia);
        reflexivity].
    apply (append_inj_length ":" ":") in E as [_ E]; [|reflexivity].
    apply append_inj_length in E as [E2 E];
      [|rewrite !pad2_length by (Z.to_euclidean_division_equations; lia);
        reflexivity].
    apply (append_inj_length ":" ":") in E as [_ E3]; [|reflexivity].
    apply pad2_inj in E1; [|Z.to_euclidean_division_equations; lia..].
    apply pad2_inj in E2; [|Z.to_euclidean_division_equations; lia..].
    apply pad2_inj in E3; [|Z.to_euclidean_division_equations; lia..].
    Z.to_euclidean_division_equations; lia.
Qed.

Lemma web_formatTime_clock_witness :
  (0 < 5025999 < 86400000)%Z /\ (0 < 5025000 < 86400000)%Z
  /\ Web.formatTime 5025999 = "01:23:45"
  /\ String.length (Web.formatTime 5025999) = 8.
Proof.
  assert (H1 : (0 < 5025999 < 86400000)%Z) by lia.
  assert (H2 : (0 < 5025000 < 86400000)%Z) by lia.
  split; [exact H1 | split; [exact H2 | split; [by vm_compute |]]].
  exact (proj1 (web_formatTime_clock 5025999 5025000 H1 H2)).
Defined.

(** X22. The clock of the quiz view is unambiguous below 100 minutes: the
    text of [QuizCountdown] has five characters, and two times with the
    same text are equal. *)
Theorem QuizCountdown_inj (a b : Z) :
  (0 <= a < 6000)%Z -> (0 <= b < 6000)%Z ->
  String.length (Tma.QuizCountdown a) = 5
  /\ (Tma.QuizCountdown a = Tma.QuizCountdown b -> a = b).
Proof.
  intros Ha Hb. unfold Tma.QuizCountdown. cbv zeta.
  rewrite !Z.rem_mod_nonneg by lia.
  split.
  - rewrite !length_append, !pad2_length
      by (Z.to_euclidean_division_equations; lia).
    reflexivity.
  - intros E.
    apply append_inj_length in E as [E1 E];
      [|rewrite !pad2_length by (Z.to_euclidean_division_equations; lia);
        reflexivity].
    apply (append_inj_length ":" ":") in E as [_ E2]; [|reflexivity].
    apply pad2_inj in E1; [|Z.to_euclidean_division_equations; lia..].
    apply pad2_inj in E2; [|Z.to_euclidean_division_equations; lia..].
    Z.to_euclidean_division_equations; lia.
Qed.

Lemma QuizCountdown_inj_witness :
  (0 <= 90 < 6000)%Z /\ (0 <= 75 < 6000)%Z
  /\ Tma.QuizCountdown 90 = "01:30"
  /\ String.length (Tma.QuizCountdown 90) = 5.
Proof.
  assert (H1 : (0 <= 90 < 6000)%Z) by lia.
  assert (H2 : (0 <= 75 < 6000)%Z) by lia.
  split; [exact H1 | split; [exact H2 | split; [by vm_compute |]]].
  exact (proj1 (QuizCountdown_inj 90 75 H1 H2)).
Defined.

(** ** The completion mark of the web front end *)

Lemma web_finish_profile r t w :
  Web.userData (Web.app (state_of (Web.handleQuizFinish r t w)))
  = Web.userData (Web.app w)
  /\ Web.quizData (Web.app (state_of (Web.handleQuizFinish r t w)))
     = Web.quizData (Web.app w).
Proof. unfold Web.handleQuizFinish. by destruct (Web.quizData r). Qed.

Lemma web_effect_profile before w :
  Web.userData (Web.app (Web.timerEffect before w)) = Web.userData (Web.app w)
  /\ Web.quizData (Web.app (Web.timerEffect before w))
     = Web.quizData (Web.app w).
Proof.
  unfold Web.timerEffect. destruct (decide _); [done|].
  destruct (_ && _); [apply web_finish_profile | done].
Qed.

Lemma web_step_profile s e :
  Web.userData (Web.app (Web.world (Web.step s e)))
  = Web.userData (Web.app (Web.world s))
  /\ Web.quizData (Web.app (Web.world (Web.step s e)))
     = Web.quizData (Web.app (Web.world s)).
Proof.
  destruct e; cbn [Web.step].
  - cbn [Web.world].
    destruct (web_effect_profile
                (Web.isQuizActive (Web.quiz (Web.app (Web.world s))),
                 Web.quizTimeLeft (Web.quiz (Web.app (Web.world s))))
                (state_of (Web.handleStartQuiz (Web.app (Web.world s))
                             (Web.world s)))) as [-> ->].
    unfold Web.handleStartQuiz.
    destruct (Web.isQuizCompleted _); [done|].
    by destruct (Web.quizData (Web.app (Web.world s))) eqn:E; cbn; rewrite ?E.
  - destruct (_ && _); [|done]. cbn [Web.world].
    by destruct (web_effect_profile
                (Web.isQuizActive (Web.quiz (Web.app (Web.world s))),
                 Web.quizTimeLeft (Web.quiz (Web.app (Web.world s))))
                (Web.setQuizTimeLeft (fun prev => (prev - 1)%Z) (Web.world s)))
      as [-> ->].
  - destruct (Web.isQuizActive _); [|done]. cbn [Web.world].
    destruct (web_effect_profile
                (true,
                 Web.quizTimeLeft (Web.quiz (Web.app (Web.world s))))
                (fst (state_of (Web.onOptionClick (Web.app (Web.world s)) draw
                                  optionLetter (Web.world s))))) as [-> ->].
    unfold Web.onOptionClick, Web.handleAnswer.
    destruct (Web.quizFeedback _); [done|].
    by destruct (Web.MOCK_QUESTIONS !! _).
  - destruct (Web.timeouts s) as [|r rest]; [done|]. cbn [Web.world].
    destruct (web_effect_profile
                (Web.isQuizActive (Web.quiz (Web.app (Web.world s))),
                 Web.quizTimeLeft (Web.quiz (Web.app (Web.world s))))
                (state_of (Web.afterFeedback r (Web.world s)))) as [-> ->].
    unfold Web.afterFeedback.
    destruct (_ <? _)%nat; [done|].
    destruct (web_finish_profile r false
                (Web.setQuizFeedback None (Web.world s))) as [-> ->].
    done.
Qed.

Lemma web_run_profile es : forall s,
  Web.userData (Web.app (Web.world (Web.run s es)))
  = Web.userData (Web.app (Web.world s))
  /\ Web.quizData (Web.app (Web.world (Web.run s es)))
     = Web.quizData (Web.app (Web.world s)).
Proof.
  induction es as [|e es IH]; intros s; [done|].
  change (Web.run s (e :: es)) with (Web.run (Web.step s e) es).
  destruct (IH (Web.step s e)) as [-> ->].
  apply web_step_profile.
Qed.

Lemma isQuizCompleted_ext a b :
  Web.userData a = Web.userData b -> Web.quizData a = Web.quizData b ->
  Web.isQuizCompleted a = Web.isQuizCompleted b.
Proof. unfold Web.isQuizCompleted. by intros -> ->. Qed.

(** X23. The handlers of the web front end never record that a quiz is
    completed, so a finished quiz can be started again.  No click, tick or
    delayed callback changes [userData] or [quizData], on which
    [isQuizCompleted] depends; and when the quiz is
    not marked completed and has a positive time limit, a click on Start
    Quiz after any events, a finished session among them, begins a new
    session with the full time, no answers and no result. *)
Theorem web_completion_never_recorded (s : Web.Sys) (es : list Web.Event) qm :
  Web.quizData (Web.app (Web.world s)) = Some qm ->
  Web.isQuizCompleted (Web.app (Web.world s)) = false ->
  (0 < Web.timeLimitSeconds qm)%Z ->
  let s1 := Web.run s es in
  let q2 := Web.quiz (Web.app (Web.world (Web.step s1 Web.EStart))) in
  Web.isQuizCompleted (Web.app (Web.world s1)) = false
  /\ Web.isQuizActive q2 = true
  /\ Web.quizTimeLeft q2 = Web.timeLimitSeconds qm
  /\ Web.quizAnswers q2 = []
  /\ Web.quizResults q2 = None.
Proof.
  intros Hq Hc HT s1 q2.
  destruct (web_run_profile es s) as [Hu Hd]. fold s1 in Hu, Hd.
  assert (Hc1 : Web.isQuizCompleted (Web.app (Web.world s1)) = false)
    by (by rewrite (isQuizCompleted_ext _ _ Hu Hd)).
  split; [exact Hc1|].
  subst q2. cbn [Web.step Web.world].
  unfold Web.handleStartQuiz. rewrite Hc1, Hd, Hq. cbn [state_of].
  unfold Web.timerEffect.
  destruct (decide _) as [_|_]; [by cbn|].
  cbn. destruct (Z.leb_spec (Web.timeLimitSeconds qm) 0); [lia | by cbn].
Qed.

Lemma web_completion_never_recorded_witness :
  let s := Web.mkSys (Web.mkWorld web_render_u2 true [] ∅) [] in
  let es := Web.EStart :: repeat Web.ETick 90 in
  let qm := Web.mkQuizMeta "quiz_01_20250101" 90 in
  Web.quizData (Web.app (Web.world s)) = Some qm
  /\ Web.isQuizCompleted (Web.app (Web.world s)) = false
  /\ (0 < Web.timeLimitSeconds qm)%Z
  /\ Web.isTimeout
       <$> Web.quizResults (Web.quiz (Web.app (Web.world (Web.run s es))))
     = Some true
  /\ Web.isQuizActive
       (Web.quiz (Web.app (Web.world (Web.step (Web.run s es) Web.EStart))))
     = true.
Proof.
  cbv zeta.
  set (s := Web.mkSys (Web.mkWorld web_render_u2 true [] ∅) []).
  set (qm := Web.mkQuizMeta "quiz_01_20250101" 90).
  assert (H1 : Web.quizData (Web.app (Web.world s)) = Some qm) by reflexivity.
  assert (H2 : Web.isQuizCompleted (Web.app (Web.world s)) = false)
    by reflexivity.
  assert (H3 : (0 < Web.timeLimitSeconds qm)%Z) by (cbn; lia).
  destruct (web_completion_never_recorded s
              (Web.EStart :: repeat Web.ETick 90) qm H1 H2 H3)
    as (_ & K & _).
  split; [exact H1 | split; [exact H2 | split; [exact H3 |]]].
  split; [by vm_compute | exact K].
Defined.
